(** * Hotel front-desk API: check-ins, orders, bills and the checkout flow

    A shallow embedding of [main.py] and [schemas.py], in two layers.

    The first layer is about the store: which documents a handler reads,
    writes and leaves alone, and in which state.  There
    - a Python [float] amount is an exact rational ([Q]) and a Python [int]
      is a [Z];
    - a [datetime] is its POSIX reading in microseconds together with the
      flag telling whether it carries a [tzinfo]; Python refuses to subtract
      a naive datetime from an aware one;
    - the handlers run in a state monad over the document store, the wall
      clock and the entropy source.  An exception stops the handler and
      keeps the writes already made, as in the source, where nothing is
      rolled back.

    The second layer, [B64], is about the numbers: the same order and
    checkout handlers with every amount a binary64 value, the rounding of
    each operation, the exceptions of the interpreter's arithmetic and the
    lax validation of the framework.  The claims on the night count, the
    tax, the total of an order and the validation of its items are stated
    there. *)

From Stdlib Require Import ZArith NArith QArith Qround Qabs List String Ascii
  Bool Lia Lqa Morphisms Permutation SpecFloat.
Import ListNotations.

Local Open Scope Z_scope.

(** ** Python values and arithmetic *)

Module Py.

(** [round(x)] on a float: nearest integer, ties to the even one. *)
Definition round (x : Q) : Z :=
  let f := Qfloor x in
  match Qcompare (x - inject_Z f) (1 # 2) with
  | Lt => f
  | Gt => f + 1
  | Eq => if Z.even f then f else f + 1
  end.

(** [int(x)] on a float: truncation towards zero. *)
Definition int (x : Q) : Z :=
  if Qle_bool 0 x then Qfloor x else Qceiling x.

(** [x // y] on floats, for a divisor that is not zero: the floor of the
    quotient, still a float. *)
Definition floordiv (x y : Q) : Q := inject_Z (Qfloor (x / y)).

(** [sum(xs)]: left to right from the integer [0]. *)
Definition sum (xs : list Q) : Q := fold_left Qplus xs 0%Q.

(** Truth value of a number: zero is falsy. *)
Definition truthy (x : Q) : bool := negb (Qeq_bool x 0).

(** [x or y] on numbers. *)
Definition or (x y : Q) : Q := if truthy x then x else y.

End Py.

(** ** Time *)

Record datetime := mk_datetime {
  micros : Z;     (* POSIX timestamp in microseconds *)
  aware : bool    (* tzinfo is set *)
}.

(** [datetime.timedelta], in microseconds. *)
Definition timedelta := Z.

(** [td.total_seconds()]. *)
Definition total_seconds (td : timedelta) : Q := inject_Z td / 1000000.

(** What a timestamp field of a stored document may hold: nothing, a native
    datetime, or text. *)
Inductive tsval :=
| PNone
| PStr (s : string)
| PDatetime (d : datetime).

(** Truth value of such a field: [None] and the empty string are falsy. *)
Definition ts_truthy (v : tsval) : bool :=
  match v with
  | PNone => false
  | PStr s => negb (s =? "")%string
  | PDatetime _ => true
  end.

(** [a or b]. *)
Definition ts_or (a b : tsval) : tsval := if ts_truthy a then a else b.

(** [s or default] on strings. *)
Definition str_or (s default : string) : string :=
  if (s =? "")%string then default else s.

(** ** The schemas ([schemas.py]) *)

Module Checkin.
Record t := mk {
  name : string;
  phone : string;
  idtype : option string;
  id : option string;
  address : option string;
  room : string;
  roomType : option string;
  rate : Q;
  adults : Z;
  children : Z;
  advance : Q;
  mode : option string;
  remarks : option string;
  createdAt : tsval;
  status : string
}.

Definition set_createdAt (v : tsval) (c : t) : t :=
  mk (name c) (phone c) (idtype c) (id c) (address c) (room c) (roomType c)
     (rate c) (adults c) (children c) (advance c) (mode c) (remarks c)
     v (status c).

Definition set_status (s : string) (c : t) : t :=
  mk (name c) (phone c) (idtype c) (id c) (address c) (room c) (roomType c)
     (rate c) (adults c) (children c) (advance c) (mode c) (remarks c)
     (createdAt c) s.
End Checkin.

Module OrderItem.
Record t := mk {
  name : string;
  qty : Z;
  price : Q
}.
End OrderItem.

Module Order.
Record t := mk {
  type : string;
  room : option string;
  name : option string;
  phone : string;
  items : list OrderItem.t;
  total : Q;
  status : string;
  mode : string;
  createdAt : tsval;
  synced : option bool
}.

Definition set_createdAt (v : tsval) (o : t) : t :=
  mk (type o) (room o) (name o) (phone o) (items o) (total o) (status o)
     (mode o) v (synced o).

Definition set_total (x : Q) (o : t) : t :=
  mk (type o) (room o) (name o) (phone o) (items o) x (status o)
     (mode o) (createdAt o) (synced o).

Definition set_synced (b : option bool) (o : t) : t :=
  mk (type o) (room o) (name o) (phone o) (items o) (total o) (status o)
     (mode o) (createdAt o) b.
End Order.

Module Bill.
Record t := mk {
  id : string;
  guest : string;
  phone : string;
  room : string;
  nights : Z;
  roomCharges : Q;
  foodTotal : Q;
  advance : Q;
  tax : Q;
  total : Q;
  status : string;
  mode : string;
  createdAt : tsval
}.

Definition set_paid (m : string) (b : t) : t :=
  mk (id b) (guest b) (phone b) (room b) (nights b) (roomCharges b)
     (foodTotal b) (advance b) (tax b) (total b) "Paid" m (createdAt b).
End Bill.

(** The request bodies declared in [main.py]. *)
Module PayRequest.
Record t := mk { mode : string }.
End PayRequest.

Module CheckoutRequest.
Record t := mk { room : string; phone : string }.
End CheckoutRequest.

(** ** The document store *)

(** A store-assigned identifier ([_id]). *)
Definition oid := N.

(** A stored document: the fields written by the service, the identifier the
    store assigned, and the two stamps that live beside the schema's fields. *)
Record doc (A : Type) := mk_doc {
  _id : oid;
  fields : A;
  created_at : tsval;
  updated_at : tsval
}.
Arguments mk_doc {A}.
Arguments _id {A}.
Arguments fields {A}.
Arguments created_at {A}.
Arguments updated_at {A}.

(** [{"$set": {...}}] on the schema's fields together with ["updated_at"]. *)
Definition set_doc {A} (f : A -> A) (stamp : datetime) (d : doc A) : doc A :=
  mk_doc (_id d) (f (fields d)) (created_at d) (PDatetime stamp).

Record database := mk_db {
  checkin : list (doc Checkin.t);
  order : list (doc Order.t);
  bill : list (doc Bill.t);
  next_oid : oid
}.

(** [db[name]]: one collection of the database. *)
Record collection (A : Type) := mk_collection {
  docs : database -> list (doc A);
  with_docs : list (doc A) -> database -> database
}.
Arguments docs {A}.
Arguments with_docs {A}.

Definition checkin_c : collection Checkin.t :=
  mk_collection _ checkin (fun l d => mk_db l (order d) (bill d) (next_oid d)).

Definition order_c : collection Order.t :=
  mk_collection _ order (fun l d => mk_db (checkin d) l (bill d) (next_oid d)).

Definition bill_c : collection Bill.t :=
  mk_collection _ bill (fun l d => mk_db (checkin d) (order d) l (next_oid d)).

(** [update_one]: the first document matching the query is rewritten. *)
Fixpoint update_first {A} (q : A -> bool) (f : A -> A) (l : list A) : list A :=
  match l with
  | [] => []
  | x :: l' => if q x then f x :: l' else x :: update_first q f l'
  end.

(** [update_many]: every document matching the query is rewritten. *)
Definition update_all {A} (q : A -> bool) (f : A -> A) (l : list A) : list A :=
  map (fun x => if q x then f x else x) l.

(** [matched_count] of an [update_one]. *)
Definition matched_one {A} (q : A -> bool) (l : list A) : nat :=
  if existsb q l then 1%nat else 0%nat.

(** ** The world a handler runs in *)

Record world := mk_world {
  db : database;
  clock : nat -> Z;      (* successive readings of the clock, in microseconds *)
  ticks : nat;           (* readings taken so far *)
  entropy : nat -> N;    (* successive 4-byte draws of [os.urandom] *)
  draws : nat            (* draws taken so far *)
}.

(** The exceptions a handler does not catch.  A [RequestValidationError] is
    raised by the framework before the handler runs. *)
Inductive pyexc := TypeError | RequestValidationError.

Inductive outcome (A : Type) :=
| Done (a : A)
| HTTPException (status_code : nat) (detail : string)
| Uncaught (e : pyexc).
Arguments Done {A}.
Arguments HTTPException {A}.
Arguments Uncaught {A}.

Definition M (A : Type) := world -> outcome A * world.

Definition ret {A} (a : A) : M A := fun w => (Done a, w).

Definition bind {A B} (m : M A) (k : A -> M B) : M B :=
  fun w =>
    match m w with
    | (Done a, w') => k a w'
    | (HTTPException c d, w') => (HTTPException c d, w')
    | (Uncaught e, w') => (Uncaught e, w')
    end.

Definition raise {A} (status_code : nat) (detail : string) : M A :=
  fun w => (HTTPException status_code detail, w).

Definition throw {A} (e : pyexc) : M A := fun w => (Uncaught e, w).

Notation "x <- m ;; k" := (bind m (fun x => k))
  (at level 100, m at next level, right associativity).
Notation "m ;;; k" := (bind m (fun _ => k))
  (at level 100, right associativity).

(** The world after one more reading of the clock. *)
Definition tick (w : world) : world :=
  mk_world (db w) (clock w) (S (ticks w)) (entropy w) (draws w).

(** The world after one more draw of entropy. *)
Definition draw (w : world) : world :=
  mk_world (db w) (clock w) (ticks w) (entropy w) (S (draws w)).

(** [datetime.now(timezone.utc)]: the next reading of the clock, aware. *)
Definition now : M datetime :=
  fun w => (Done (mk_datetime (clock w (ticks w)) true), tick w).

(** [os.urandom(4)], as the big-endian number of the four bytes. *)
Definition urandom4 : M N :=
  fun w => (Done (entropy w (draws w) mod 2 ^ 32)%N, draw w).

Definition get_db : M database := fun w => (Done (db w), w).

Definition put_db (d : database) : M unit :=
  fun w => (Done tt, mk_world d (clock w) (ticks w) (entropy w) (draws w)).

(** [db[c].find_one(q)]: the first match in insertion order. *)
Definition find_one {A} (c : collection A) (q : doc A -> bool) :
    M (option (doc A)) :=
  d <- get_db ;; ret (find q (docs c d)).

(** [list(db[c].find(q))]. *)
Definition find_all {A} (c : collection A) (q : doc A -> bool) : M (list (doc A)) :=
  d <- get_db ;; ret (filter q (docs c d)).

(** [db[c].update_one(q, {"$set": ...})], returning [matched_count]. *)
Definition update_one {A} (c : collection A) (q : doc A -> bool)
    (f : doc A -> doc A) : M nat :=
  d <- get_db ;;
  put_db (with_docs c (update_first q f (docs c d)) d) ;;;
  ret (matched_one q (docs c d)).

(** [db[c].update_many(q, {"$set": ...})]. *)
Definition update_many {A} (c : collection A) (q : doc A -> bool)
    (f : doc A -> doc A) : M unit :=
  d <- get_db ;;
  put_db (with_docs c (update_all q f (docs c d)) d).

(** Modelled from the spec: [create_document] of [database.py], which is not
    among the sources.  The adapter is [insert(collection, doc) -> id]: the
    document is appended under a fresh identifier, which is returned. *)
Definition create_document {A} (c : collection A) (data : A) : M oid :=
  d <- get_db ;;
  let i := next_oid d in
  let d' := with_docs c (docs c d ++ [mk_doc i data PNone PNone]) d in
  put_db (mk_db (checkin d') (order d') (bill d') (N.succ i)) ;;;
  ret i.

(** The status code of the HTTP response. *)
Definition status_of {A} (r : outcome A) : nat :=
  match r with
  | Done _ => 200
  | HTTPException c _ => c
  | Uncaught RequestValidationError => 422
  | Uncaught TypeError => 500
  end%nat.

(** ** Request bodies and their validation *)

#[local] Set Warnings "-register-all".

Inductive json :=
| JNull
| JBool (b : bool)
| JInt (z : Z)
| JFloat (q : Q)
| JStr (s : string)
| JArr (l : list json)
| JObj (l : list (string * json)).

(** The member of an object under a key; a repeated key keeps its last value. *)
Definition jget (k : string) (l : list (string * json)) : option json :=
  option_map snd (find (fun kv => (fst kv =? k)%string) (rev l)).

(** The field validators, from a body whose numbers are JSON numbers: a
    [str] field takes a string, an [int] field an integer or a float with no
    fractional part, a [float] field any number, a [bool] field a boolean. *)
Definition v_str (j : json) : option string :=
  match j with JStr s => Some s | _ => None end.

Definition v_int (j : json) : option Z :=
  match j with
  | JInt z => Some z
  | JFloat q => if Qeq_bool q (inject_Z (Qfloor q)) then Some (Qfloor q) else None
  | _ => None
  end.

Definition v_float (j : json) : option Q :=
  match j with
  | JInt z => Some (inject_Z z)
  | JFloat q => Some q
  | _ => None
  end.

Definition v_bool (j : json) : option bool :=
  match j with JBool b => Some b | _ => None end.

(** A required field. *)
Definition required {A} (v : json -> option A) (k : string)
    (l : list (string * json)) : option A :=
  match jget k l with Some j => v j | None => None end.

(** A field with a default. *)
Definition defaulted {A} (v : json -> option A) (k : string) (default : A)
    (l : list (string * json)) : option A :=
  match jget k l with Some j => v j | None => Some default end.

(** [Optional[T]]: [null] is accepted and is [None]. *)
Definition optional {A} (v : json -> option A) (j : json) : option (option A) :=
  match j with
  | JNull => Some None
  | _ => option_map Some (v j)
  end.

(** Every element of a list validates. *)
Fixpoint v_list {A} (v : json -> option A) (l : list json) : option (list A) :=
  match l with
  | [] => Some []
  | j :: l' =>
      match v j, v_list v l' with
      | Some a, Some r => Some (a :: r)
      | _, _ => None
      end
  end.

(** [class OrderItem(BaseModel)]: [name: str], [qty: int], [price: float]. *)
Definition validate_OrderItem (j : json) : option OrderItem.t :=
  match j with
  | JObj l =>
      match required v_str "name" l, required v_int "qty" l,
            required v_float "price" l with
      | Some n, Some q, Some p => Some (OrderItem.mk n q p)
      | _, _, _ => None
      end
  | _ => None
  end.

Definition v_items (j : json) : option (list OrderItem.t) :=
  match j with
  | JArr l => v_list validate_OrderItem l
  | _ => None
  end.

(** ** The handlers ([main.py]) *)

(** One hexadecimal digit, upper case. *)
Definition hex_digit (n : N) : ascii :=
  if (n <? 10)%N then ascii_of_N (48 + n) else ascii_of_N (55 + n).

(** [bytes.hex().upper()] of a number written on the given count of digits. *)
Fixpoint hex_upper (digits : nat) (n : N) : string :=
  match digits with
  | O => EmptyString
  | S k =>
      (hex_upper k (n / 16) ++ String (hex_digit (n mod 16)) EmptyString)%string
  end.

(** [a - b] on datetimes: a naive and an aware one do not subtract. *)
Definition sub_datetime (a b : datetime) : M timedelta :=
  if Bool.eqb (aware a) (aware b) then ret (micros a - micros b)
  else throw TypeError.

(** [max(1, int(delta.total_seconds() // 86400) + 1)]. *)
Definition stay_nights (delta : timedelta) : Z :=
  Z.max 1 (Py.int (Py.floordiv (total_seconds delta) 86400) + 1).

Definition tax_rate : Q := 12 # 100.

(** [data["createdAt"]] after [if not data.get("createdAt"): ... = now]. *)
Definition stamped (createdAt : tsval) : M tsval :=
  if ts_truthy createdAt then ret createdAt
  else (t <- now ;; ret (PDatetime t)).

(** [sum(it.get("qty", 0) * it.get("price", 0) for it in items)]. *)
Definition items_total (items : list OrderItem.t) : Q :=
  Py.sum (map (fun it => inject_Z (OrderItem.qty it) * OrderItem.price it)%Q items).

(** The queries of the handlers, as the filter documents spell them. *)
Definition occupied_in (room : string) (d : doc Checkin.t) : bool :=
  (Checkin.room (fields d) =? room)%string
  && (Checkin.status (fields d) =? "Occupied")%string.

Definition active_stay (room phone : string) (d : doc Checkin.t) : bool :=
  (Checkin.room (fields d) =? room)%string
  && (Checkin.phone (fields d) =? phone)%string
  && (Checkin.status (fields d) =? "Occupied")%string.

Definition unpaid_inhouse (room : string) (d : doc Order.t) : bool :=
  (Order.type (fields d) =? "inhouse")%string
  && match Order.room (fields d) with
     | Some r => (r =? room)%string
     | None => false
     end
  && (Order.status (fields d) =? "Unpaid")%string.

Definition has_bill_id (bill_id : string) (d : doc Bill.t) : bool :=
  (Bill.id (fields d) =? bill_id)%string.

Definition id_is {A} (i : oid) (d : doc A) : bool := (_id d =? i)%N.

Definition id_in {A} (ids : list oid) (d : doc A) : bool :=
  existsb (fun i => (_id d =? i)%N) ids.

(** [POST /api/checkins]. *)
Definition create_checkin (payload : Checkin.t) : M oid :=
  createdAt <- stamped (Checkin.createdAt payload) ;;
  let data :=
    Checkin.set_status (str_or (Checkin.status payload) "Occupied")
      (Checkin.set_createdAt createdAt payload) in
  existing <- find_one checkin_c (occupied_in (Checkin.room data)) ;;
  match existing with
  | Some _ => raise 400 "Room is already occupied"
  | None => new_id <- create_document checkin_c data ;; ret new_id
  end.

(** [POST /api/orders]. *)
Definition create_order (payload : Order.t) : M oid :=
  createdAt <- stamped (Order.createdAt payload) ;;
  let data := Order.set_createdAt createdAt payload in
  let data :=
    match Order.items data with
    | [] => data
    | _ :: _ =>
        Order.set_total
          (Py.or (items_total (Order.items data)) (Order.total data)) data
    end in
  new_id <- create_document order_c data ;;
  ret new_id.

(** [POST /api/bills/{bill_id}/pay]. *)
Definition mark_bill_paid (bill_id : string) (payload : PayRequest.t) : M unit :=
  t <- now ;;
  matched_count <-
    update_one bill_c (has_bill_id bill_id)
      (set_doc (Bill.set_paid (PayRequest.mode payload)) t) ;;
  if (matched_count =? 0)%nat then raise 404 "Bill not found" else ret tt.

Section Library.

(** [datetime.fromisoformat], a function of Python's library. *)
Variable fromisoformat : string -> option datetime.

(** The framework's reading of a JSON value as a [datetime]. *)
Variable v_datetime : json -> option datetime.

(** The start of the stay: the [try] of the source around the parse. *)
Definition start_of (c : doc Checkin.t) : M datetime :=
  let created_at := ts_or (Checkin.createdAt (fields c)) (created_at c) in
  match created_at with
  | PDatetime d => ret d
  | PStr s =>
      match fromisoformat s with
      | Some d => ret d
      | None => now
      end
  | PNone =>
      match fromisoformat "None" with
      | Some d => ret d
      | None => now
      end
  end.

(** [POST /api/checkout]. *)
Definition create_final_bill (req : CheckoutRequest.t) : M string :=
  c <- find_one checkin_c
         (active_stay (CheckoutRequest.room req) (CheckoutRequest.phone req)) ;;
  match c with
  | None => raise 404 "Active check-in not found"
  | Some c =>
      start_dt <- start_of c ;;
      t <- now ;;
      delta <- sub_datetime t start_dt ;;
      let nights := stay_nights delta in
      let rate := Checkin.rate (fields c) in
      let room_charges := (inject_Z nights * rate)%Q in
      orders <- find_all order_c (unpaid_inhouse (CheckoutRequest.room req)) ;;
      let food_total := Py.sum (map (fun o => Order.total (fields o)) orders) in
      let subtotal := (room_charges + food_total)%Q in
      let tax := Py.round (subtotal * tax_rate) in
      let grand := (subtotal + inject_Z tax - Checkin.advance (fields c))%Q in
      r <- urandom4 ;;
      tb <- now ;;
      let bill :=
        Bill.mk ("BILL-" ++ hex_upper 8 r) (Checkin.name (fields c))
          (Checkin.phone (fields c)) (Checkin.room (fields c)) nights
          room_charges food_total (Checkin.advance (fields c)) (inject_Z tax)
          grand "Unpaid" "Cash" (PDatetime tb) in
      create_document bill_c bill ;;;
      ts <- now ;;
      update_many order_c (id_in (map _id orders))
        (set_doc (Order.set_synced (Some true)) ts) ;;;
      tc <- now ;;
      update_one checkin_c (id_is (_id c))
        (set_doc (Checkin.set_status "Checked-out") tc) ;;;
      ret (Bill.id bill)
  end.

(** [Optional[datetime]]. *)
Definition v_stamp (j : json) : option tsval :=
  match j with
  | JNull => Some PNone
  | _ => option_map PDatetime (v_datetime j)
  end.

Definition and_then {A B} (o : option A) (k : A -> option B) : option B :=
  match o with Some a => k a | None => None end.

(** [class Order(BaseModel)], field by field with its default. *)
Definition validate_Order (j : json) : option Order.t :=
  match j with
  | JObj l =>
      and_then (defaulted v_str "type" "inhouse"%string l) (fun type =>
      and_then (defaulted (optional v_str) "room" None l) (fun room =>
      and_then (defaulted (optional v_str) "name" None l) (fun name =>
      and_then (required v_str "phone" l) (fun phone =>
      and_then (defaulted v_items "items" [] l) (fun items =>
      and_then (defaulted v_float "total" 0%Q l) (fun total =>
      and_then (defaulted v_str "status" "Unpaid"%string l) (fun status =>
      and_then (defaulted v_str "mode" "Cash"%string l) (fun mode =>
      and_then (defaulted v_stamp "createdAt" PNone l) (fun createdAt =>
      and_then (defaulted (optional v_bool) "synced" (Some false) l) (fun synced =>
      Some (Order.mk type room name phone items total status mode createdAt
              synced)))))))))))
  | _ => None
  end.

(** The route [POST /api/orders] as the framework serves it: the body is
    validated against [Order], then handed to the handler. *)
Definition post_orders (body : json) : M oid :=
  match validate_Order body with
  | Some payload => create_order payload
  | None => throw RequestValidationError
  end.

End Library.

(** ** The listings ([GET /api/checkins], [/api/orders], [/api/bills]) *)

(** A document as a listing returns it: its [_id] replaced by its text. *)
Record listed (A : Type) := mk_listed {
  listed_id : string;
  listed_fields : A;
  listed_created_at : tsval;
  listed_updated_at : tsval
}.
Arguments mk_listed {A}.
Arguments listed_id {A}.
Arguments listed_fields {A}.
Arguments listed_created_at {A}.
Arguments listed_updated_at {A}.

(** The empty filter [{}]. *)
Definition any_doc {A} (_ : doc A) : bool := true.

Section Listing.

(** [str] of a store identifier, a function of the store's driver. *)
Variable str_oid : oid -> string.

(** The order in which the store hands back the documents of a query: the
    adapter promises none. *)
Variable arrange : forall A, list (doc A) -> list (doc A).

(** Modelled from the spec: [get_documents] of [database.py], which is not
    among the sources.  The adapter is [find(collection, filter) -> [doc]]:
    the matching documents, in the order of the store's choosing. *)
Definition get_documents {A} (c : collection A) (q : doc A -> bool) :
    M (list (doc A)) :=
  docs <- find_all c q ;;
  ret (arrange A docs).

(** [d["_id"] = str(d.get("_id"))]. *)
Definition normalize_id {A} (d : doc A) : listed A :=
  mk_listed (str_oid (_id d)) (fields d) (created_at d) (updated_at d).

Definition list_checkins : M (list (listed Checkin.t)) :=
  docs <- get_documents checkin_c any_doc ;;
  ret (map normalize_id docs).

Definition list_orders : M (list (listed Order.t)) :=
  docs <- get_documents order_c any_doc ;;
  ret (map normalize_id docs).

Definition list_bills : M (list (listed Bill.t)) :=
  docs <- get_documents bill_c any_doc ;;
  ret (map normalize_id docs).

End Listing.
(** * Binary64 amounts

    The embedding above holds amounts as exact rationals.  The claims on the
    night count, on the tax and on the stored total of an order turn on the
    rounding of the interpreter's [float], on the exceptions its arithmetic
    raises, and on the framework's lax validation.  For them the order and
    checkout handlers are embedded a second time, in [B64], with every
    amount the binary64 value the interpreter holds. *)

(** ** Binary64 numbers

    A binary64 value is a signed zero, a finite number that is not zero
    (held as the rational it denotes), an infinity, or a NaN.  Every
    operation is the exact one followed by rounding to nearest, ties to
    even, as IEEE 754 asks and the interpreter's C doubles do. *)

Module F64.

Inductive t :=
| Zero (neg : bool)
| Fin (q : Q)
| Inf (neg : bool)
| NaN.

Definition value (x : t) : Q :=
  match x with
  | Fin q => q
  | _ => 0%Q
  end.

(** [q * 2 ^ k]. *)
Definition scale2 (q : Q) (k : Z) : Q :=
  match k with
  | Z0 => q
  | Zpos p => (q * inject_Z (2 ^ Zpos p))%Q
  | Zneg p => (q / inject_Z (2 ^ Zpos p))%Q
  end.

(** The binary exponent of a positive rational: [2 ^ e <= q < 2 ^ (e + 1)]. *)
Definition ilog2 (q : Q) : Z :=
  if Qle_bool 1 q then Z.log2 (Qfloor q)
  else - Z.log2_up (Qceiling (/ q)).

Definition Qneg (q : Q) : bool := negb (Qle_bool 0 q).

(** Rounding of a rational to the nearest binary64, ties to even: 53 bits
    of mantissa, exponents down to [-1074] (the subnormals) and overflow to
    an infinity from [2 ^ 1024].  The rational is first put in lowest
    terms, so that equal rationals round to the same value. *)
Definition nearest (x : Q) : t :=
  let q := Qred x in
  if Qeq_bool q 0 then Zero false
  else
    let a := Qabs q in
    let s := Z.max (ilog2 a - 52) (-1074) in
    let m := Py.round (scale2 a (- s)) in
    let v := scale2 (inject_Z m) s in
    if m =? 0 then Zero (Qneg q)
    else if Qle_bool (inject_Z (2 ^ 1024)) v then Inf (Qneg q)
    else Fin (Qred (if Qneg q then - v else v)%Q).

Definition sign (x : t) : bool :=
  match x with
  | Zero s | Inf s => s
  | Fin q => Qneg q
  | NaN => false
  end.

Definition is_zero (x : t) : bool :=
  match x with
  | Zero _ => true
  | Fin q => Qeq_bool q 0
  | _ => false
  end.

Definition is_finite (x : t) : bool :=
  match x with
  | Zero _ | Fin _ => true
  | _ => false
  end.

Definition neg (x : t) : t :=
  match x with
  | Zero s => Zero (negb s)
  | Fin q => Fin (- q)%Q
  | Inf s => Inf (negb s)
  | NaN => NaN
  end.

Definition abs (x : t) : t :=
  match x with
  | Zero _ => Zero false
  | Fin q => Fin (Qabs q)
  | Inf _ => Inf false
  | NaN => NaN
  end.

Definition add (x y : t) : t :=
  match x, y with
  | NaN, _ | _, NaN => NaN
  | Inf a, Inf b => if Bool.eqb a b then Inf a else NaN
  | Inf a, _ => Inf a
  | _, Inf b => Inf b
  | Zero a, Zero b => Zero (a && b)
  | _, _ => nearest (value x + value y)%Q
  end.

Definition sub (x y : t) : t := add x (neg y).

Definition mul (x y : t) : t :=
  match x, y with
  | NaN, _ | _, NaN => NaN
  | Inf a, _ => if is_zero y then NaN else Inf (xorb a (sign y))
  | _, Inf b => if is_zero x then NaN else Inf (xorb (sign x) b)
  | Fin p, Fin q =>
      if Qeq_bool (p * q)%Q 0 then Zero (xorb (sign x) (sign y))
      else nearest (p * q)%Q
  | _, _ => Zero (xorb (sign x) (sign y))
  end.

Definition div (x y : t) : t :=
  match x, y with
  | NaN, _ | _, NaN => NaN
  | Inf a, Inf _ => NaN
  | Inf a, _ => Inf (xorb a (sign y))
  | _, Inf b => Zero (xorb (sign x) b)
  | _, _ =>
      if is_zero y then
        if is_zero x then NaN else Inf (xorb (sign x) (sign y))
      else if is_zero x then Zero (xorb (sign x) (sign y))
      else nearest (value x / value y)%Q
  end.

(** Truncation towards zero. *)
Definition Qtrunc (q : Q) : Z := Z.quot (Qnum q) (Zpos (Qden q)).

(** C's [fmod]: exact, with the sign of the dividend. *)
Definition fmod (x y : t) : t :=
  match x, y with
  | NaN, _ | _, NaN => NaN
  | Inf _, _ => NaN
  | _, Inf _ => x
  | _, _ =>
      if is_zero y then NaN
      else if is_zero x then x
      else
        let r := (value x - value y * inject_Z (Qtrunc (value x / value y)))%Q in
        if Qeq_bool r 0 then Zero (sign x) else Fin (Qred r)
  end.

(** C's [floor]. *)
Definition floor (x : t) : t :=
  match x with
  | Fin q => if Qfloor q =? 0 then Zero (Qneg q) else Fin (inject_Z (Qfloor q))
  | _ => x
  end.

(** [x < y]; a comparison with a NaN is false. *)
Definition ltb (x y : t) : bool :=
  match x, y with
  | NaN, _ | _, NaN => false
  | Inf a, Inf b => a && negb b
  | Inf a, _ => a
  | _, Inf b => negb b
  | _, _ => negb (Qle_bool (value y) (value x))
  end.

(** [x >= y]. *)
Definition geb (x y : t) : bool :=
  match x, y with
  | NaN, _ | _, NaN => false
  | _, _ => negb (ltb x y)
  end.

Definition zero : t := Zero false.
Definition one : t := Fin 1.
Definition half : t := Fin (1 # 2).

(** A float written as its exact integer. *)
Definition of_Z (z : Z) : t := if z =? 0 then zero else Fin (inject_Z z).

End F64.

(** A binary64 value of the Standard Library's [SpecFloat], sign, mantissa
    and exponent, as a value of [F64]. *)
Definition of_spec (x : spec_float) : F64.t :=
  match x with
  | S754_zero s => F64.Zero s
  | S754_infinity s => F64.Inf s
  | S754_nan => F64.NaN
  | S754_finite s m e =>
      F64.Fin (Qred (F64.scale2 (inject_Z (if s then Zneg m else Zpos m)) e))
  end.

(** The four operations of [F64] give on two operands what the Standard
    Library's IEEE 754 operations give, at 53 bits and exponents up to
    1024. *)
Definition agrees_on (a b : spec_float) : Prop :=
  of_spec (SFadd 53 1024 a b) = F64.add (of_spec a) (of_spec b)
  /\ of_spec (SFsub 53 1024 a b) = F64.sub (of_spec a) (of_spec b)
  /\ of_spec (SFmul 53 1024 a b) = F64.mul (of_spec a) (of_spec b)
  /\ of_spec (SFdiv 53 1024 a b) = F64.div (of_spec a) (of_spec b).

Module B64.

(** ** Exceptions and outcomes *)

Inductive pyexc :=
| TypeError
| OverflowError
| ValueError
| ZeroDivisionError
| RequestValidationError.

Inductive outcome (A : Type) :=
| Done (a : A)
| HTTPException (status_code : nat) (detail : string)
| Uncaught (e : pyexc).
Arguments Done {A}.
Arguments HTTPException {A}.
Arguments Uncaught {A}.

(** Sequencing of computations that touch no state. *)
Definition and_then {A B} (r : outcome A) (k : A -> outcome B) : outcome B :=
  match r with
  | Done a => k a
  | HTTPException c d => HTTPException c d
  | Uncaught e => Uncaught e
  end.

(** The status code of the HTTP response. *)
Definition status_of {A} (r : outcome A) : nat :=
  match r with
  | Done _ => 200
  | HTTPException c _ => c
  | Uncaught RequestValidationError => 422
  | Uncaught _ => 500
  end%nat.

(** ** Python arithmetic on [int] and [float] *)

(** [float(n)] and the conversion of the [int] operand of a mixed
    operation: correctly rounded, [OverflowError] beyond the range. *)
Definition float_of_int (n : Z) : outcome F64.t :=
  match F64.nearest (inject_Z n) with
  | F64.Inf _ => Uncaught OverflowError
  | x => Done x
  end.

(** [n * x] for an [int] and a [float]. *)
Definition int_mul_float (n : Z) (x : F64.t) : outcome F64.t :=
  and_then (float_of_int n) (fun y => Done (F64.mul y x)).

(** [vx // wx] on floats, the steps of the interpreter's [float_floor_div]:
    the exact remainder, the quotient of what is left, the adjustment when
    the remainder's sign differs from the divisor's, and the snap to the
    nearest integral value. *)
Definition float_floordiv (vx wx : F64.t) : outcome F64.t :=
  if F64.is_zero wx then Uncaught ZeroDivisionError
  else
    let mod_ := F64.fmod vx wx in
    let div := F64.div (F64.sub vx mod_) wx in
    let div :=
      if F64.is_zero mod_ then div
      else if negb (Bool.eqb (F64.ltb wx F64.zero) (F64.ltb mod_ F64.zero))
           then F64.sub div F64.one
           else div in
    if F64.is_zero div then Done (F64.Zero (F64.sign (F64.div vx wx)))
    else
      let fl := F64.floor div in
      Done (if F64.ltb F64.half (F64.sub div fl) then F64.add fl F64.one
            else fl).

(** [int(x)] on a float. *)
Definition float_int (x : F64.t) : outcome Z :=
  match x with
  | F64.Zero _ => Done 0
  | F64.Fin q => Done (F64.Qtrunc q)
  | F64.Inf _ => Uncaught OverflowError
  | F64.NaN => Uncaught ValueError
  end.

(** [round(x)] on a float. *)
Definition float_round (x : F64.t) : outcome Z :=
  match x with
  | F64.Zero _ => Done 0
  | F64.Fin q => Done (Py.round q)
  | F64.Inf _ => Uncaught OverflowError
  | F64.NaN => Uncaught ValueError
  end.

(** Truth value of a float: the zeros are falsy, a NaN is not. *)
Definition float_truthy (x : F64.t) : bool := negb (F64.is_zero x).

(** [sum] sums floats in two ways, by the release of the interpreter: up to
    3.11 one addition per item; from 3.12 with Neumaier's compensation,
    added at the end when it is finite and not zero. *)
Inductive release := Upto311 | From312.

Fixpoint compensated (f c : F64.t) (xs : list F64.t) : F64.t :=
  match xs with
  | [] =>
      if float_truthy c && F64.is_finite c then F64.add f c else f
  | x :: xs' =>
      let t := F64.add f x in
      let c' :=
        if F64.geb (F64.abs f) (F64.abs x)
        then F64.add c (F64.add (F64.sub f t) x)
        else F64.add c (F64.add (F64.sub x t) f) in
      compensated t c' xs'
  end.

(** [float(sum(xs))] over floats, from the integer [0]. *)
Definition sum (r : release) (xs : list F64.t) : F64.t :=
  match xs with
  | [] => F64.zero
  | x :: xs' =>
      let first := F64.add F64.zero x in
      match r with
      | Upto311 => fold_left F64.add xs' first
      | From312 => compensated first F64.zero xs'
      end
  end.

(** [td.total_seconds()]: the microseconds over [10 ** 6], one correctly
    rounded division. *)
Definition total_seconds (td : timedelta) : outcome F64.t :=
  match F64.nearest (td # 1000000) with
  | F64.Inf _ => Uncaught OverflowError
  | x => Done x
  end.

(** [max(1, int(delta.total_seconds() // 86400) + 1)]. *)
Definition stay_nights (delta : timedelta) : outcome Z :=
  and_then (total_seconds delta) (fun seconds =>
  and_then (float_floordiv seconds (F64.Fin 86400)) (fun days =>
  and_then (float_int days) (fun whole =>
  Done (Z.max 1 (whole + 1))))).

(** The literal [0.12]. *)
Definition tax_rate : F64.t := F64.nearest (12 # 100).

(** ** The schemas ([schemas.py]) *)

Module Checkin.
Record t := mk {
  name : string;
  phone : string;
  idtype : option string;
  id : option string;
  address : option string;
  room : string;
  roomType : option string;
  rate : F64.t;
  adults : Z;
  children : Z;
  advance : F64.t;
  mode : option string;
  remarks : option string;
  createdAt : tsval;
  status : string
}.

Definition set_status (s : string) (c : t) : t :=
  mk (name c) (phone c) (idtype c) (id c) (address c) (room c) (roomType c)
     (rate c) (adults c) (children c) (advance c) (mode c) (remarks c)
     (createdAt c) s.
End Checkin.

Module OrderItem.
Record t := mk {
  name : string;
  qty : Z;
  price : F64.t
}.
End OrderItem.

Module Order.
Record t := mk {
  type : string;
  room : option string;
  name : option string;
  phone : string;
  items : list OrderItem.t;
  total : F64.t;
  status : string;
  mode : string;
  createdAt : tsval;
  synced : option bool
}.

Definition set_createdAt (v : tsval) (o : t) : t :=
  mk (type o) (room o) (name o) (phone o) (items o) (total o) (status o)
     (mode o) v (synced o).

Definition set_total (x : F64.t) (o : t) : t :=
  mk (type o) (room o) (name o) (phone o) (items o) x (status o)
     (mode o) (createdAt o) (synced o).

Definition set_synced (b : option bool) (o : t) : t :=
  mk (type o) (room o) (name o) (phone o) (items o) (total o) (status o)
     (mode o) (createdAt o) b.
End Order.

Module Bill.
Record t := mk {
  id : string;
  guest : string;
  phone : string;
  room : string;
  nights : Z;
  roomCharges : F64.t;
  foodTotal : F64.t;
  advance : F64.t;
  tax : F64.t;
  total : F64.t;
  status : string;
  mode : string;
  createdAt : tsval
}.
End Bill.

(** ** The document store and the world *)

Record database := mk_db {
  checkin : list (doc Checkin.t);
  order : list (doc Order.t);
  bill : list (doc Bill.t);
  next_oid : oid
}.

Record collection (A : Type) := mk_collection {
  docs : database -> list (doc A);
  with_docs : list (doc A) -> database -> database
}.
Arguments docs {A}.
Arguments with_docs {A}.

Definition checkin_c : collection Checkin.t :=
  mk_collection _ checkin (fun l d => mk_db l (order d) (bill d) (next_oid d)).

Definition order_c : collection Order.t :=
  mk_collection _ order (fun l d => mk_db (checkin d) l (bill d) (next_oid d)).

Definition bill_c : collection Bill.t :=
  mk_collection _ bill (fun l d => mk_db (checkin d) (order d) l (next_oid d)).

Record world := mk_world {
  db : database;
  clock : nat -> Z;
  ticks : nat;
  entropy : nat -> N;
  draws : nat
}.

Definition M (A : Type) := world -> outcome A * world.

Definition ret {A} (a : A) : M A := fun w => (Done a, w).

Definition bind {A B} (m : M A) (k : A -> M B) : M B :=
  fun w =>
    match m w with
    | (Done a, w') => k a w'
    | (HTTPException c d, w') => (HTTPException c d, w')
    | (Uncaught e, w') => (Uncaught e, w')
    end.

Definition raise {A} (status_code : nat) (detail : string) : M A :=
  fun w => (HTTPException status_code detail, w).

Definition throw {A} (e : pyexc) : M A := fun w => (Uncaught e, w).

(** A computation that touches no state, run inside a handler. *)
Definition lift {A} (r : outcome A) : M A := fun w => (r, w).

#[local] Set Warnings "-notation-overridden".
Notation "x <- m ;; k" := (bind m (fun x => k))
  (at level 100, m at next level, right associativity).
Notation "m ;;; k" := (bind m (fun _ => k))
  (at level 100, right associativity).

Definition tick (w : world) : world :=
  mk_world (db w) (clock w) (S (ticks w)) (entropy w) (draws w).

Definition draw (w : world) : world :=
  mk_world (db w) (clock w) (ticks w) (entropy w) (S (draws w)).

Definition now : M datetime :=
  fun w => (Done (mk_datetime (clock w (ticks w)) true), tick w).

Definition urandom4 : M N :=
  fun w => (Done (entropy w (draws w) mod 2 ^ 32)%N, draw w).

Definition get_db : M database := fun w => (Done (db w), w).

Definition put_db (d : database) : M unit :=
  fun w => (Done tt, mk_world d (clock w) (ticks w) (entropy w) (draws w)).

Definition find_one {A} (c : collection A) (q : doc A -> bool) :
    M (option (doc A)) :=
  d <- get_db ;; ret (find q (docs c d)).

Definition find_all {A} (c : collection A) (q : doc A -> bool) : M (list (doc A)) :=
  d <- get_db ;; ret (filter q (docs c d)).

Definition update_one {A} (c : collection A) (q : doc A -> bool)
    (f : doc A -> doc A) : M nat :=
  d <- get_db ;;
  put_db (with_docs c (update_first q f (docs c d)) d) ;;;
  ret (matched_one q (docs c d)).

Definition update_many {A} (c : collection A) (q : doc A -> bool)
    (f : doc A -> doc A) : M unit :=
  d <- get_db ;;
  put_db (with_docs c (update_all q f (docs c d)) d).

(** Modelled from the spec: [create_document] of [database.py], which is not
    among the sources.  The adapter is [insert(collection, doc) -> id]: the
    document is appended under a fresh identifier, which is returned. *)
Definition create_document {A} (c : collection A) (data : A) : M oid :=
  d <- get_db ;;
  let i := next_oid d in
  let d' := with_docs c (docs c d ++ [mk_doc i data PNone PNone]) d in
  put_db (mk_db (checkin d') (order d') (bill d') (N.succ i)) ;;;
  ret i.

(** ** Request bodies and their validation *)

(** A parsed body: [json.loads] reads a number with a fraction or an
    exponent, and the literals [NaN] and [Infinity], as a float. *)
Inductive json :=
| JNull
| JBool (b : bool)
| JInt (z : Z)
| JFloat (x : F64.t)
| JStr (s : string)
| JArr (l : list json)
| JObj (l : list (string * json)).

Definition jget (k : string) (l : list (string * json)) : option json :=
  option_map snd (find (fun kv => (fst kv =? k)%string) (rev l)).

Definition required {A} (v : json -> option A) (k : string)
    (l : list (string * json)) : option A :=
  match jget k l with Some j => v j | None => None end.

Definition defaulted {A} (v : json -> option A) (k : string) (default : A)
    (l : list (string * json)) : option A :=
  match jget k l with Some j => v j | None => Some default end.

Definition optional {A} (v : json -> option A) (j : json) : option (option A) :=
  match j with
  | JNull => Some None
  | _ => option_map Some (v j)
  end.

Fixpoint v_list {A} (v : json -> option A) (l : list json) : option (list A) :=
  match l with
  | [] => Some []
  | j :: l' =>
      match v j, v_list v l' with
      | Some a, Some r => Some (a :: r)
      | _, _ => None
      end
  end.

Definition opt_then {A B} (o : option A) (k : A -> option B) : option B :=
  match o with Some a => k a | None => None end.

(** ** The handlers ([main.py]) *)

Definition sub_datetime (a b : datetime) : M timedelta :=
  if Bool.eqb (aware a) (aware b) then ret (micros a - micros b)
  else throw TypeError.

Definition stamped (createdAt : tsval) : M tsval :=
  if ts_truthy createdAt then ret createdAt
  else (t <- now ;; ret (PDatetime t)).

(** [it.get("qty", 0) * it.get("price", 0)] for each item, in order; the
    first quantity that does not fit a float stops the generator. *)
Fixpoint products (items : list OrderItem.t) : outcome (list F64.t) :=
  match items with
  | [] => Done []
  | it :: items' =>
      and_then (int_mul_float (OrderItem.qty it) (OrderItem.price it)) (fun p =>
      and_then (products items') (fun ps => Done (p :: ps)))
  end.

Definition active_stay (room phone : string) (d : doc Checkin.t) : bool :=
  (Checkin.room (fields d) =? room)%string
  && (Checkin.phone (fields d) =? phone)%string
  && (Checkin.status (fields d) =? "Occupied")%string.

Definition unpaid_inhouse (room : string) (d : doc Order.t) : bool :=
  (Order.type (fields d) =? "inhouse")%string
  && match Order.room (fields d) with
     | Some r => (r =? room)%string
     | None => false
     end
  && (Order.status (fields d) =? "Unpaid")%string.

Section Library.

(** The release of the interpreter, for [sum]. *)
Variable python : release.

(** [datetime.fromisoformat], a function of Python's library. *)
Variable fromisoformat : string -> option datetime.

(** The framework's reading of a JSON value as a [datetime]. *)
Variable v_datetime : json -> option datetime.

(** The framework's lax coercions of a value that is not of the field's
    own JSON type (numeric text, a boolean for a number, [0] or ["yes"]
    for a boolean, ...), functions of the validation library. *)
Variable lax_int : json -> option Z.
Variable lax_float : json -> option F64.t.
Variable lax_bool : json -> option bool.

(** The field validators: a value of the field's own type is taken as it
    is, an integer for a [float] field is converted, anything else goes
    through the lax coercion. *)
Definition v_str (j : json) : option string :=
  match j with JStr s => Some s | _ => None end.

Definition v_int (j : json) : option Z :=
  match j with
  | JInt z => Some z
  | _ => lax_int j
  end.

Definition v_float (j : json) : option F64.t :=
  match j with
  | JFloat x => Some x
  | JInt z =>
      match float_of_int z with
      | Done x => Some x
      | _ => None
      end
  | _ => lax_float j
  end.

Definition v_bool (j : json) : option bool :=
  match j with
  | JBool b => Some b
  | _ => lax_bool j
  end.

(** [class OrderItem(BaseModel)]: [name: str], [qty: int], [price: float]. *)
Definition validate_OrderItem (j : json) : option OrderItem.t :=
  match j with
  | JObj l =>
      match required v_str "name" l, required v_int "qty" l,
            required v_float "price" l with
      | Some n, Some q, Some p => Some (OrderItem.mk n q p)
      | _, _, _ => None
      end
  | _ => None
  end.

Definition v_items (j : json) : option (list OrderItem.t) :=
  match j with
  | JArr l => v_list validate_OrderItem l
  | _ => None
  end.

Definition v_stamp (j : json) : option tsval :=
  match j with
  | JNull => Some PNone
  | _ => option_map PDatetime (v_datetime j)
  end.

(** [class Order(BaseModel)], field by field with its default.  The
    default of [total] is the integer [0], which every operation of the
    handlers takes as the float [0.0]. *)
Definition validate_Order (j : json) : option Order.t :=
  match j with
  | JObj l =>
      opt_then (defaulted v_str "type" "inhouse"%string l) (fun type =>
      opt_then (defaulted (optional v_str) "room" None l) (fun room =>
      opt_then (defaulted (optional v_str) "name" None l) (fun name =>
      opt_then (required v_str "phone" l) (fun phone =>
      opt_then (defaulted v_items "items" [] l) (fun items =>
      opt_then (defaulted v_float "total" F64.zero l) (fun total =>
      opt_then (defaulted v_str "status" "Unpaid"%string l) (fun status =>
      opt_then (defaulted v_str "mode" "Cash"%string l) (fun mode =>
      opt_then (defaulted v_stamp "createdAt" PNone l) (fun createdAt =>
      opt_then (defaulted (optional v_bool) "synced" (Some false) l) (fun synced =>
      Some (Order.mk type room name phone items total status mode createdAt
              synced)))))))))))
  | _ => None
  end.

(** [POST /api/orders]. *)
Definition create_order (payload : Order.t) : M oid :=
  createdAt <- stamped (Order.createdAt payload) ;;
  let data := Order.set_createdAt createdAt payload in
  data <-
    match Order.items data with
    | [] => ret data
    | _ :: _ =>
        ps <- lift (products (Order.items data)) ;;
        let s := sum python ps in
        ret (Order.set_total (if float_truthy s then s else Order.total data)
               data)
    end ;;
  new_id <- create_document order_c data ;;
  ret new_id.

(** The route as the framework serves it: the body is validated against
    [Order], then handed to the handler. *)
Definition post_orders (body : json) : M oid :=
  match validate_Order body with
  | Some payload => create_order payload
  | None => throw RequestValidationError
  end.

(** The start of the stay: the [try] of the source around the parse. *)
Definition start_of (c : doc Checkin.t) : M datetime :=
  let created_at := ts_or (Checkin.createdAt (fields c)) (created_at c) in
  match created_at with
  | PDatetime d => ret d
  | PStr s =>
      match fromisoformat s with
      | Some d => ret d
      | None => now
      end
  | PNone =>
      match fromisoformat "None" with
      | Some d => ret d
      | None => now
      end
  end.

(** [POST /api/checkout]. *)
Definition create_final_bill (req : CheckoutRequest.t) : M string :=
  c <- find_one checkin_c
         (active_stay (CheckoutRequest.room req) (CheckoutRequest.phone req)) ;;
  match c with
  | None => raise 404 "Active check-in not found"
  | Some c =>
      start_dt <- start_of c ;;
      t <- now ;;
      delta <- sub_datetime t start_dt ;;
      nights <- lift (stay_nights delta) ;;
      let rate := Checkin.rate (fields c) in
      room_charges <- lift (int_mul_float nights rate) ;;
      orders <- find_all order_c (unpaid_inhouse (CheckoutRequest.room req)) ;;
      let food_total := sum python (map (fun o => Order.total (fields o)) orders) in
      let subtotal := F64.add room_charges food_total in
      tax <- lift (float_round (F64.mul subtotal tax_rate)) ;;
      tax_f <- lift (float_of_int tax) ;;
      let grand :=
        F64.sub (F64.add subtotal tax_f) (Checkin.advance (fields c)) in
      r <- urandom4 ;;
      tb <- now ;;
      let bill :=
        Bill.mk ("BILL-" ++ hex_upper 8 r) (Checkin.name (fields c))
          (Checkin.phone (fields c)) (Checkin.room (fields c)) nights
          room_charges food_total (Checkin.advance (fields c)) tax_f
          grand "Unpaid" "Cash" (PDatetime tb) in
      create_document bill_c bill ;;;
      ts <- now ;;
      update_many order_c (id_in (map _id orders))
        (set_doc (Order.set_synced (Some true)) ts) ;;;
      tc <- now ;;
      update_one checkin_c (id_is (_id c))
        (set_doc (Checkin.set_status "Checked-out") tc) ;;;
      ret (Bill.id bill)
  end.

End Library.

End B64.

(** ** Vocabulary of the statements *)

(** The time from [start] to the reading [t] of the clock, in days. *)
Definition elapsed_days (t : Z) (start : datetime) : Q :=
  (t - micros start) # 86400000000.

(** An order that a checkout of [room] bills: in-house, of that room, unpaid. *)
Definition billable (room : string) (o : Order.t) : Prop :=
  Order.type o = "inhouse"%string
  /\ Order.room o = Some room
  /\ Order.status o = "Unpaid"%string.




(** The bill a checkout builds from the stay, the folded orders, the nights,
    the entropy drawn and the clock reading. *)
Definition checkout_bill (c : doc Checkin.t) (orders : list (doc Order.t))
    (nights : Z) (r : N) (tb : datetime) : Bill.t :=
  let room_charges := (inject_Z nights * Checkin.rate (fields c))%Q in
  let food_total := Py.sum (map (fun o => Order.total (fields o)) orders) in
  let subtotal := (room_charges + food_total)%Q in
  let tax := Py.round (subtotal * tax_rate) in
  Bill.mk ("BILL-" ++ hex_upper 8 r) (Checkin.name (fields c))
    (Checkin.phone (fields c)) (Checkin.room (fields c)) nights room_charges
    food_total (Checkin.advance (fields c)) (inject_Z tax)
    (subtotal + inject_Z tax - Checkin.advance (fields c))%Q
    "Unpaid" "Cash" (PDatetime tb).

(** The store after the three writes of a checkout. *)
Definition checked_out_db (d : database) (c : doc Checkin.t)
    (orders : list (doc Order.t)) (b : Bill.t) (ts tc : datetime) : database :=
  mk_db
    (update_first (id_is (_id c))
       (set_doc (Checkin.set_status "Checked-out") tc) (checkin d))
    (update_all (id_in (map _id orders))
       (set_doc (Order.set_synced (Some true)) ts) (order d))
    (bill d ++ [mk_doc (next_oid d) b PNone PNone])
    (N.succ (next_oid d)).

(** ** A sample store

    Room 101 is occupied since [stay_start]; room 102 was vacated.  The clock
    reads 25 hours after [stay_start], then a little later at each reading. *)

Definition stay_start : Z := 1700000000000000.

Definition sample_stay : Checkin.t :=
  Checkin.mk "Asha" "9800000001" None None None "101" (Some "Deluxe"%string)
    1000 2 0 200 (Some "Cash"%string) None
    (PDatetime (mk_datetime stay_start true)) "Occupied".

Definition sample_past_stay : Checkin.t :=
  Checkin.mk "Ravi" "9800000002" None None None "102" None
    800 1 0 0 (Some "Card"%string) None
    (PDatetime (mk_datetime 1690000000000000 true)) "Checked-out".

Definition sample_tea : Order.t :=
  Order.mk "inhouse" (Some "101"%string) None "9800000001"
    [OrderItem.mk "tea" 3 50] 150 "Unpaid" "Cash"
    (PDatetime (mk_datetime 1700003600000000 true)) (Some false).

Definition sample_paid_lunch : Order.t :=
  Order.mk "inhouse" (Some "101"%string) None "9800000001"
    [OrderItem.mk "lunch" 1 400] 400 "Paid" "Cash"
    (PDatetime (mk_datetime 1700007200000000 true)) (Some false).

Definition sample_other_room : Order.t :=
  Order.mk "inhouse" (Some "102"%string) None "9800000002"
    [OrderItem.mk "soup" 1 120] 120 "Unpaid" "Cash"
    (PDatetime (mk_datetime 1690003600000000 true)) (Some false).

Definition sample_bill : Bill.t :=
  Bill.mk "BILL-0000AAAA" "Ravi" "9800000002" "102" 1 800 0 0 96 896
    "Paid" "Card" (PDatetime (mk_datetime 1690050000000000 true)).

Definition sample_db : database :=
  mk_db
    [mk_doc 1%N sample_past_stay PNone PNone; mk_doc 2%N sample_stay PNone PNone]
    [mk_doc 3%N sample_other_room PNone PNone;
     mk_doc 4%N sample_paid_lunch PNone PNone;
     mk_doc 5%N sample_tea PNone PNone]
    [mk_doc 6%N sample_bill PNone
       (PDatetime (mk_datetime 1690060000000000 true))]
    7%N.

Definition sample_clock (n : nat) : Z :=
  nth n
    [1700090000000000; 1700090000000150; 1700090000000300; 1700090000000450;
     1700090000000600; 1700090000000750; 1700090000000900; 1700090000001050;
     1700090000001200; 1700090000001350; 1700090000001500]
    1700090000002000.

Definition sample_entropy (n : nat) : N :=
  nth n [3735928559; 3405691582; 4207856382]%N 195935983%N.

Definition sample_world : world :=
  mk_world sample_db sample_clock 0 sample_entropy 0.

Definition sample_checkout : CheckoutRequest.t :=
  (CheckoutRequest.mk "101" "9800000001").

(** A parser that knows no text: every parse fails. *)
Definition no_parse {A} (_ : A) : option datetime := None.

(** A check-in request for a room of the sample store. *)
Definition sample_arrival (room : string) : Checkin.t :=
  Checkin.mk "Meera" "9800000003" None None None room None
    1200 1 0 0 (Some "Cash"%string) None PNone "".

(** The sample checkout, run. *)
Definition sample_after : world :=
  snd (create_final_bill no_parse sample_checkout sample_world).

(** The room is taken again and checked out again, with no order in between. *)
Definition sample_return : world :=
  snd (create_checkin (sample_arrival "101") sample_after).

Definition sample_second_checkout : CheckoutRequest.t :=
  (CheckoutRequest.mk "101" "9800000003").

Definition sample_rebilled : world :=
  snd (create_final_bill no_parse sample_second_checkout sample_return).

(** ** Invariants of the store *)

(** No room has two Occupied check-ins. *)
Definition one_occupied_per_room (d : database) : Prop :=
  forall room, (List.length (filter (occupied_in room) (checkin d)) <= 1)%nat.

(** An upper-case hexadecimal digit. *)
Definition is_hex_upper (a : ascii) : bool :=
  let n := N_of_ascii a in
  ((48 <=? n) && (n <=? 57) || (65 <=? n) && (n <=? 70))%N.

(** ** More sample stores *)

(** Room 201 holds a stay whose stamp has no time zone, room 202 one whose
    stamp is text that does not parse. *)
Definition sample_naive_stay : Checkin.t :=
  Checkin.mk "Kiran" "9800000004" None None None "201" None
    900 1 0 0 (Some "Cash"%string) None
    (PDatetime (mk_datetime 1700000000000000 false)) "Occupied".

Definition sample_text_stay : Checkin.t :=
  Checkin.mk "Lata" "9800000005" None None None "202" None
    700 1 0 100 (Some "Cash"%string) None (PStr "yesterday") "Occupied".

Definition sample_odd_db : database :=
  mk_db
    [mk_doc 1%N sample_naive_stay PNone PNone;
     mk_doc 2%N sample_text_stay PNone PNone]
    [] [] 3%N.

Definition sample_odd_world : world :=
  mk_world sample_odd_db sample_clock 0 sample_entropy 0.

(** A body with no phone. *)
Definition sample_no_phone : json :=
  JObj [("room"%string, JStr "101"); ("total"%string, JInt 80)].

Definition sample_coffee : Order.t :=
  Order.mk "inhouse" (Some "101"%string) None "9800000001"
    [OrderItem.mk "coffee" 2 60] 0 "Unpaid" "Cash" PNone (Some false).

(** The sample store after the coffee order, after a payment of the bill of
    room 102, and after a check-in into room 103. *)
Definition sample_with_coffee : world :=
  snd (create_order sample_coffee sample_world).

Definition sample_paid : world :=
  snd (mark_bill_paid "BILL-0000AAAA" (PayRequest.mk "UPI") sample_world).


(** ** Vocabulary of the statements on binary64 amounts *)

(** The bill a checkout builds, or the exception its arithmetic raises:
    from the stay, the folded orders, the time elapsed, the entropy drawn
    and the clock reading. *)
Definition checkout_bill64 (python : B64.release) (c : doc B64.Checkin.t)
    (orders : list (doc B64.Order.t)) (delta : timedelta) (r : N)
    (tb : datetime) : B64.outcome B64.Bill.t :=
  B64.and_then (B64.stay_nights delta) (fun nights =>
  B64.and_then (B64.int_mul_float nights (B64.Checkin.rate (fields c)))
    (fun room_charges =>
  let food_total :=
    B64.sum python (map (fun o => B64.Order.total (fields o)) orders) in
  let subtotal := F64.add room_charges food_total in
  B64.and_then (B64.float_round (F64.mul subtotal B64.tax_rate)) (fun tax =>
  B64.and_then (B64.float_of_int tax) (fun tax_f =>
  B64.Done
    (B64.Bill.mk ("BILL-" ++ hex_upper 8 r) (B64.Checkin.name (fields c))
       (B64.Checkin.phone (fields c)) (B64.Checkin.room (fields c)) nights
       room_charges food_total (B64.Checkin.advance (fields c)) tax_f
       (F64.sub (F64.add subtotal tax_f) (B64.Checkin.advance (fields c)))
       "Unpaid" "Cash" (PDatetime tb)))))).

(** The store after the three writes of a checkout. *)
Definition checked_out_db64 (d : B64.database) (c : doc B64.Checkin.t)
    (orders : list (doc B64.Order.t)) (b : B64.Bill.t) (ts tc : datetime) :
    B64.database :=
  B64.mk_db
    (update_first (id_is (_id c))
       (set_doc (B64.Checkin.set_status "Checked-out") tc) (B64.checkin d))
    (update_all (id_in (map _id orders))
       (set_doc (B64.Order.set_synced (Some true)) ts) (B64.order d))
    (B64.bill d ++ [mk_doc (B64.next_oid d) b PNone PNone])
    (N.succ (B64.next_oid d)).

(** The creation stamp of a stay is of no use: it is neither a datetime nor
    text that parses. *)
Definition unparsed64 (fromisoformat : string -> option datetime)
    (c : doc B64.Checkin.t) : Prop :=
  match ts_or (B64.Checkin.createdAt (fields c)) (created_at c) with
  | PDatetime _ => False
  | PStr s => fromisoformat s = None
  | PNone => fromisoformat "None"%string = None
  end.

(** Sample operands, as sign, mantissa and exponent: 999.95 and 137.55, 1137.5 and 0.12, 0.1 and 0.2, 
    0.30000000000000004 and -0.3, 1e16 and 1.0, 1e308 and 1e308, 
    5e-324 and 0.5, -7.25 and 1e-310, 19872000000.0 and 86400.0, 2.5 
    and -2.5, 0.0 and -0.0, inf and -0.0, inf and -inf and 1.0 and 
    nan. *)
Definition sample_operands : list (spec_float * spec_float) :=
  [(S754_finite false 8795653217556890 (-43),
    S754_finite false 4839610380818842 (-45));
   (S754_finite false 5002777906380800 (-42),
    S754_finite false 8646911284551352 (-56));
   (S754_finite false 7205759403792794 (-56),
    S754_finite false 7205759403792794 (-55));
   (S754_finite false 5404319552844596 (-54),
    S754_finite true 5404319552844595 (-54));
   (S754_finite false 5000000000000000 (1),
    S754_finite false 4503599627370496 (-52));
   (S754_finite false 5010420900022432 (971),
    S754_finite false 5010420900022432 (971));
   (S754_finite false 1 (-1074),
    S754_finite false 4503599627370496 (-53));
   (S754_finite true 8162774324609024 (-50),
    S754_finite false 20240225330731 (-1074));
   (S754_finite false 5209325568000000 (-18),
    S754_finite false 5937362789990400 (-36));
   (S754_finite false 5629499534213120 (-51),
    S754_finite true 5629499534213120 (-51));
   (S754_zero false,
    S754_zero true);
   (S754_infinity false,
    S754_zero true);
   (S754_infinity false,
    S754_infinity true);
   (S754_finite false 4503599627370496 (-52),
    S754_nan)].

(** The stays shorter than [2 ^ 34] seconds, in microseconds: some 544
    years. *)
Definition exact_span : Z := 17179869184000000.

(** A quantity fits a float. *)
Definition fits_float (z : Z) : bool :=
  match B64.float_of_int z with
  | B64.Done _ => true
  | _ => false
  end.

(** [qty * price] of an item whose quantity fits a float. *)
Definition item_amount (it : B64.OrderItem.t) : F64.t :=
  F64.mul (F64.nearest (inject_Z (B64.OrderItem.qty it))) (B64.OrderItem.price it).

(** The total an order with items is stored with: the sum of the item
    amounts unless it is zero, then the total the client sent. *)
Definition stored_total (python : B64.release) (payload : B64.Order.t) : F64.t :=
  let s := B64.sum python (map item_amount (B64.Order.items payload)) in
  if B64.float_truthy s then s else B64.Order.total payload.

(** The body of an item and of an order with a phone and items, every
    number of its field's own JSON type. *)
Definition item_json (it : B64.OrderItem.t) : B64.json :=
  B64.JObj [("name"%string, B64.JStr (B64.OrderItem.name it));
            ("qty"%string, B64.JInt (B64.OrderItem.qty it));
            ("price"%string, B64.JFloat (B64.OrderItem.price it))].

Definition order_json (phone : string) (items : list B64.OrderItem.t) : B64.json :=
  B64.JObj [("phone"%string, B64.JStr phone);
            ("items"%string, B64.JArr (map item_json items))].

(** The order such a body validates to: every other field at its default. *)
Definition order_of (phone : string) (items : list B64.OrderItem.t) : B64.Order.t :=
  B64.Order.mk "inhouse" None None phone items F64.zero "Unpaid" "Cash" PNone
    (Some false).

(** ** A sample store over binary64 amounts

    Room 101 is occupied since an hour before the first reading of the
    clock, at 999.95 a night, with one unpaid order of 137.55; room 301
    holds a stay entered with a creation stamp of the year 1394, and room
    302 one whose stamp is text that does not parse. *)

(** The float a decimal literal denotes. *)
Definition decimal (n : Z) (d : positive) : F64.t := F64.nearest (n # d).

Definition sample64_stay : B64.Checkin.t :=
  B64.Checkin.mk "Asha" "9800000001" None None None "101"
    (Some "Deluxe"%string) (decimal 99995 100) 2 0 F64.zero
    (Some "Cash"%string) None
    (PDatetime (mk_datetime 1700086400000000 true)) "Occupied".

Definition sample64_old_start : datetime :=
  mk_datetime (-18171909999999999) true.

Definition sample64_old_stay : B64.Checkin.t :=
  B64.Checkin.mk "Kabir" "9800000004" None None None "301" None
    (decimal 100 1) 1 0 F64.zero (Some "Cash"%string) None
    (PDatetime sample64_old_start) "Occupied".

Definition sample64_text_stay : B64.Checkin.t :=
  B64.Checkin.mk "Lila" "9800000005" None None None "302" None
    (decimal 750 1) 1 0 F64.zero (Some "Cash"%string) None
    (PStr "yesterday") "Occupied".

Definition sample64_snack : B64.Order.t :=
  B64.Order.mk "inhouse" (Some "101"%string) None "9800000001"
    [B64.OrderItem.mk "snack" 1 (decimal 13755 100)] (decimal 13755 100)
    "Unpaid" "Cash" (PDatetime (mk_datetime 1700088000000000 true))
    (Some false).

Definition sample64_db : B64.database :=
  B64.mk_db
    [mk_doc 1%N sample64_stay PNone PNone;
     mk_doc 2%N sample64_old_stay PNone PNone;
     mk_doc 3%N sample64_text_stay PNone PNone]
    [mk_doc 4%N sample64_snack PNone PNone]
    []
    5%N.

Definition sample64_world : B64.world :=
  B64.mk_world sample64_db sample_clock 0 sample_entropy 0.

Definition sample64_old_checkout : CheckoutRequest.t :=
  CheckoutRequest.mk "301" "9800000004".

Definition sample64_text_checkout : CheckoutRequest.t :=
  CheckoutRequest.mk "302" "9800000005".

Definition sample64_after : B64.world :=
  snd (B64.create_final_bill B64.Upto311 no_parse sample_checkout
         sample64_world).

(** Orders as requests carry them: tea and biscuits; water at no charge
    beside a total entered by hand; three items at 0.1 against one at 0.3
    returned; a quantity beyond the range of a float. *)
Definition sample64_tea : B64.Order.t :=
  B64.Order.mk "inhouse" (Some "101"%string) None "9800000001"
    [B64.OrderItem.mk "tea" 3 (decimal 50 1);
     B64.OrderItem.mk "biscuits" 2 (decimal 1250 100)]
    F64.zero "Unpaid" "Cash" PNone (Some false).

Definition sample64_free_water : B64.Order.t :=
  B64.Order.mk "inhouse" (Some "101"%string) None "9800000001"
    [B64.OrderItem.mk "water" 2 F64.zero] (decimal 300 1) "Unpaid" "Cash"
    PNone (Some false).

Definition sample64_returned : B64.Order.t :=
  B64.Order.mk "inhouse" (Some "101"%string) None "9800000001"
    [B64.OrderItem.mk "sweet" 3 (decimal 1 10);
     B64.OrderItem.mk "returned" (-1) (decimal 3 10)]
    (decimal 300 1) "Unpaid" "Cash" PNone (Some false).

Definition sample64_huge : B64.Order.t :=
  B64.Order.mk "inhouse" (Some "101"%string) None "9800000001"
    [B64.OrderItem.mk "tea" (10 ^ 400) (decimal 50 1)]
    F64.zero "Unpaid" "Cash" PNone (Some false).

(** An item with a negative quantity and a negative price. *)
Definition sample64_refund : B64.OrderItem.t :=
  B64.OrderItem.mk "refund" (-2) (decimal (-7550) 100).

(** A validation library that coerces nothing. *)
Definition no_lax {A} (_ : B64.json) : option A := None.

(** ** Facts about the arithmetic *)

Lemma round_nearest (x : Q) : (Qabs (inject_Z (Py.round x) - x) <= 1 # 2)%Q.
Proof.
  unfold Py.round.
  pose proof (Qfloor_le x) as Hlo.
  pose proof (Qlt_floor x) as Hhi.
  rewrite inject_Z_plus in Hhi.
  change (inject_Z 1) with 1%Q in Hhi.
  destruct (Qcompare_spec (x - inject_Z (Qfloor x)) (1 # 2)) as [E|E|E];
    try destruct (Z.even (Qfloor x));
    try rewrite inject_Z_plus;
    change (inject_Z 1) with 1%Q;
    apply Qabs_case; intros _; lra.
Qed.

Lemma round_tie_even (x : Q) :
  (x - inject_Z (Qfloor x) == 1 # 2)%Q -> Z.even (Py.round x) = true.
Proof.
  intros E. unfold Py.round.
  apply Qeq_alt in E. rewrite E.
  destruct (Z.even (Qfloor x)) eqn:Ev; [exact Ev|].
  rewrite Z.even_add, Ev. reflexivity.
Qed.

Lemma round_comp : Proper (Qeq ==> eq) Py.round.
Proof.
  intros x y E. unfold Py.round.
  rewrite (Qfloor_comp _ _ E).
  assert (Hc : Qcompare (x - inject_Z (Qfloor y)) (1 # 2)
               = Qcompare (y - inject_Z (Qfloor y)) (1 # 2)).
  { apply Qcompare_comp; [rewrite E|]; reflexivity. }
  rewrite Hc. reflexivity.
Qed.

Lemma int_of_integer (z : Z) : Py.int (inject_Z z) = z.
Proof.
  unfold Py.int. destruct (Qle_bool 0 (inject_Z z)).
  - apply Qfloor_Z.
  - apply Qceiling_Z.
Qed.

(** The elapsed whole days, read off the microseconds. *)
Lemma whole_days (delta : timedelta) :
  Py.int (Py.floordiv (total_seconds delta) 86400) = delta / 86400000000.
Proof.
  unfold Py.floordiv. rewrite int_of_integer.
  unfold total_seconds.
  assert (E : (inject_Z delta / 1000000 / 86400 == delta # 86400000000)%Q).
  { unfold Qeq, Qdiv, Qmult, Qinv, inject_Z. simpl. lia. }
  rewrite (Qfloor_comp _ _ E). reflexivity.
Qed.

Lemma stay_nights_days (delta : timedelta) :
  stay_nights delta = Z.max 1 (delta / 86400000000 + 1).
Proof. unfold stay_nights. rewrite whole_days. reflexivity. Qed.



(** ** The checkout, step by step *)

Section Checkout.

Variable fromisoformat : string -> option datetime.

(** Resolving the start never fails and leaves the store alone. *)
Lemma start_of_done (c : doc Checkin.t) (w : world) :
  exists start w1,
    start_of fromisoformat c w = (Done start, w1)
    /\ (w1 = w \/ w1 = tick w /\ start = mk_datetime (clock w (ticks w)) true).
Proof.
  unfold start_of.
  destruct (ts_or (Checkin.createdAt (fields c)) (created_at c)) as [|s|d].
  - destruct (fromisoformat "None") as [d|].
    + exists d, w. split; [reflexivity | left; reflexivity].
    + eexists _, _. split; [reflexivity | right; split; reflexivity].
  - destruct (fromisoformat s) as [d|].
    + exists d, w. split; [reflexivity | left; reflexivity].
    + eexists _, _. split; [reflexivity | right; split; reflexivity].
  - exists d, w. split; [reflexivity | left; reflexivity].
Qed.

Lemma start_of_native (c : doc Checkin.t) (w : world) (d : datetime) :
  Checkin.createdAt (fields c) = PDatetime d ->
  start_of fromisoformat c w = (Done d, w).
Proof.
  intros E. unfold start_of, ts_or. rewrite E. reflexivity.
Qed.

Lemma start_of_text (c : doc Checkin.t) (w : world) (s : string)
    (d : datetime) :
  Checkin.createdAt (fields c) = PStr s -> s <> EmptyString ->
  fromisoformat s = Some d ->
  start_of fromisoformat c w = (Done d, w).
Proof.
  intros E Hs Hp. unfold start_of, ts_or, ts_truthy. rewrite E.
  destruct (String.eqb_spec s "") as [H|_]; [contradiction|].
  cbn [negb]. rewrite Hp. reflexivity.
Qed.

Lemma start_of_frame (c : doc Checkin.t) (w w1 : world) (r : outcome datetime) :
  start_of fromisoformat c w = (r, w1) ->
  db w1 = db w /\ clock w1 = clock w /\ entropy w1 = entropy w
  /\ draws w1 = draws w /\ (ticks w <= ticks w1)%nat.
Proof.
  intros E.
  destruct (start_of_done c w) as (start & w2 & E2 & [->| [-> _]]);
    rewrite E2 in E; inversion E; subst; simpl;
    repeat split; try reflexivity; lia.
Qed.

(** A checkout whose stay is found, in one equation. *)
Lemma checkout_run (req : CheckoutRequest.t) (w w1 : world) (c : doc Checkin.t)
    (start : datetime) :
  find (active_stay (CheckoutRequest.room req) (CheckoutRequest.phone req))
      (checkin (db w)) = Some c ->
  start_of fromisoformat c w = (Done start, w1) ->
  create_final_bill fromisoformat req w =
    if aware start then
      let orders := filter (unpaid_inhouse (CheckoutRequest.room req))
            (order (db w1)) in
      let b :=
        checkout_bill c orders
          (stay_nights (clock w1 (ticks w1) - micros start))
          (entropy w1 (draws w1) mod 2 ^ 32)%N
          (mk_datetime (clock w1 (1 + ticks w1)%nat) true) in
      (Done (Bill.id b),
       mk_world
         (checked_out_db (db w1) c orders b
            (mk_datetime (clock w1 (2 + ticks w1)%nat) true)
            (mk_datetime (clock w1 (3 + ticks w1)%nat) true))
         (clock w1) (4 + ticks w1)%nat (entropy w1) (S (draws w1)))
    else (Uncaught TypeError, tick w1).
Proof.
  intros Hc Hs.
  unfold create_final_bill, bind at 1, find_one, bind at 1, get_db, ret.
  cbv beta iota. change (docs checkin_c (db w)) with (checkin (db w)).
  rewrite Hc. unfold bind at 1. rewrite Hs.
  destruct (aware start) eqn:Ha.
  - unfold bind, now, sub_datetime, ret. cbv beta iota. simpl aware.
    rewrite Ha. reflexivity.
  - unfold bind, now, sub_datetime, throw. cbv beta iota. simpl aware.
    rewrite Ha. reflexivity.
Qed.

(** A checkout whose stay is not found. *)
Lemma checkout_missing (req : CheckoutRequest.t) (w : world) :
  find (active_stay (CheckoutRequest.room req) (CheckoutRequest.phone req))
      (checkin (db w)) = None ->
  create_final_bill fromisoformat req w
  = (HTTPException 404 "Active check-in not found", w).
Proof.
  intros Hc.
  unfold create_final_bill, bind at 1, find_one, bind at 1, get_db, ret.
  cbv beta iota. change (docs checkin_c (db w)) with (checkin (db w)).
  rewrite Hc. reflexivity.
Qed.

End Checkout.

(** ** Lists under the store's updates *)

Lemma find_update_first {A} (q : A -> bool) (f : A -> A) (l : list A) :
  (forall x, q x = true -> q (f x) = true) ->
  find q (update_first q f l) = option_map f (find q l).
Proof.
  intros Hq. induction l as [|x l IH]; simpl; [reflexivity|].
  destruct (q x) eqn:E; simpl.
  - rewrite (Hq x E). reflexivity.
  - rewrite E. exact IH.
Qed.

Lemma find_update_all {A} (p q : A -> bool) (f : A -> A) (l : list A) :
  (forall x, p (f x) = p x) ->
  (forall x, p x = true -> q x = true) ->
  find p (update_all q f l) = option_map f (find p l).
Proof.
  intros Hp Hq. induction l as [|x l IH]; simpl; [reflexivity|].
  destruct (p x) eqn:E.
  - rewrite (Hq x E), Hp, E. reflexivity.
  - destruct (q x); [rewrite Hp|]; rewrite E; exact IH.
Qed.

Lemma find_in {A} (q : A -> bool) (l : list A) (x : A) :
  In x l -> q x = true -> exists y, find q l = Some y.
Proof.
  intros Hin Hq. destruct (find q l) as [y|] eqn:E; [eauto|].
  rewrite (find_none q l E x Hin) in Hq. discriminate.
Qed.

Lemma id_is_self {A} (d : doc A) : id_is (_id d) d = true.
Proof. unfold id_is. apply N.eqb_refl. Qed.

(** Under unique identifiers a document is found by its own. *)
Lemma find_by_id_unique {A} (l : list (doc A)) (x : doc A) :
  NoDup (map _id l) -> In x l -> find (id_is (_id x)) l = Some x.
Proof.
  induction l as [|y l IH]; intros Hnd Hin; [destruct Hin|].
  simpl in Hnd. inversion Hnd as [|i ids Hfresh Hnd']; subst.
  simpl. unfold id_is at 1.
  destruct (N.eqb_spec (_id y) (_id x)) as [E|E].
  - destruct Hin as [->|Hin]; [reflexivity|].
    destruct Hfresh. rewrite E. apply in_map. exact Hin.
  - destruct Hin as [->|Hin]; [destruct E; reflexivity|].
    exact (IH Hnd' Hin).
Qed.

Lemma id_in_map {A} (l : list (doc A)) (d : doc A) :
  In d l -> id_in (map _id l) d = true.
Proof.
  intros Hin. unfold id_in. apply existsb_exists.
  exists (_id d). split; [apply in_map; exact Hin | apply N.eqb_refl].
Qed.

(** Marking the folded orders leaves the selection of a checkout as it was,
    order for order. *)
Lemma filter_synced (room : string) (ids : list oid) (ts : datetime)
    (l : list (doc Order.t)) :
  (forall d, In d l -> unpaid_inhouse room d = true -> id_in ids d = true) ->
  filter (unpaid_inhouse room)
    (update_all (id_in ids) (set_doc (Order.set_synced (Some true)) ts) l)
  = map (set_doc (Order.set_synced (Some true)) ts)
      (filter (unpaid_inhouse room) l).
Proof.
  induction l as [|d l IH]; intros Hids; simpl; [reflexivity|].
  assert (IH' := IH (fun x Hx => Hids x (or_intror Hx))).
  destruct (unpaid_inhouse room d) eqn:E.
  - rewrite (Hids d (or_introl eq_refl) E).
    change (unpaid_inhouse room (set_doc (Order.set_synced (Some true)) ts d))
      with (unpaid_inhouse room d).
    rewrite E. simpl. f_equal. exact IH'.
  - destruct (id_in ids d).
    + change (unpaid_inhouse room (set_doc (Order.set_synced (Some true)) ts d))
        with (unpaid_inhouse room d).
      rewrite E. exact IH'.
    + rewrite E. exact IH'.
Qed.

(** The query of the checkout selects the billable orders. *)
Lemma unpaid_inhouse_billable (room : string) (d : doc Order.t) :
  unpaid_inhouse room d = true <-> billable room (fields d).
Proof.
  unfold unpaid_inhouse, billable.
  rewrite !andb_true_iff, !String.eqb_eq.
  destruct (Order.room (fields d)) as [r|].
  - rewrite String.eqb_eq. split.
    + intros [[Ht Hr] Hs]. subst r. auto.
    + intros (Ht & Hr & Hs). inversion Hr. auto.
  - split; [intros [[_ H] _]; discriminate | intros (_ & H & _); discriminate].
Qed.

Lemma active_stay_spec (room phone : string) (d : doc Checkin.t) :
  active_stay room phone d = true <->
  Checkin.room (fields d) = room /\ Checkin.phone (fields d) = phone
  /\ Checkin.status (fields d) = "Occupied"%string.
Proof.
  unfold active_stay. rewrite !andb_true_iff, !String.eqb_eq. tauto.
Qed.



(** ** The checkout: what a bill holds and what the store becomes *)

Section CheckoutProperties.

Variable fromisoformat : string -> option datetime.

(** A checkout that answers with a bill identifier went all the way. *)
Lemma checkout_done (req : CheckoutRequest.t) (w w' : world) (bill_id : string) :
  create_final_bill fromisoformat req w = (Done bill_id, w') ->
  exists c start w1,
    find (active_stay (CheckoutRequest.room req) (CheckoutRequest.phone req))
        (checkin (db w)) = Some c
    /\ start_of fromisoformat c w = (Done start, w1)
    /\ aware start = true
    /\ let orders := filter (unpaid_inhouse (CheckoutRequest.room req))
          (order (db w)) in
       let b :=
         checkout_bill c orders
           (stay_nights (clock w (ticks w1) - micros start))
           (entropy w (draws w) mod 2 ^ 32)%N
           (mk_datetime (clock w (1 + ticks w1)%nat) true) in
       bill_id = Bill.id b
       /\ db w' =
          checked_out_db (db w) c orders b
            (mk_datetime (clock w (2 + ticks w1)%nat) true)
            (mk_datetime (clock w (3 + ticks w1)%nat) true).
Proof.
  intros Hrun.
  destruct (find (active_stay (CheckoutRequest.room req) (CheckoutRequest.phone req))
      (checkin (db w)))
    as [c|] eqn:Hc.
  - destruct (start_of_done fromisoformat c w) as (start & w1 & Hs & _).
    rewrite (checkout_run fromisoformat req w w1 c start Hc Hs) in Hrun.
    destruct (start_of_frame fromisoformat c w w1 _ Hs)
      as (Hdb & Hclock & Hent & Hdraws & _).
    destruct (aware start) eqn:Ha; [|discriminate].
    cbv zeta in Hrun. rewrite Hdb, Hclock, Hent, Hdraws in Hrun.
    inversion Hrun as [[Hid Hw]].
    exists c, start, w1.
    split; [reflexivity|]. split; [exact Hs|]. split; [exact Ha|].
    split; reflexivity.
  - rewrite (checkout_missing fromisoformat req w Hc) in Hrun. discriminate.
Qed.


(** C7: a checkout whose room and phone match no Occupied check-in answers
    404 and leaves the world as it was: no bill, no order marked, no
    check-in changed. *)
Theorem checkout_not_found (req : CheckoutRequest.t) (w : world) :
  (forall d, In d (checkin (db w)) ->
     ~ (Checkin.room (fields d) = CheckoutRequest.room req
        /\ Checkin.phone (fields d) = CheckoutRequest.phone req
        /\ Checkin.status (fields d) = "Occupied"%string)) ->
  exists r w',
    create_final_bill fromisoformat req w = (r, w')
    /\ r = HTTPException 404 "Active check-in not found"
    /\ status_of r = 404%nat
    /\ w' = w
    /\ bill (db w') = bill (db w)
    /\ order (db w') = order (db w)
    /\ checkin (db w') = checkin (db w).
Proof.
  intros Hnone.
  assert (Hc : find (active_stay (CheckoutRequest.room req) (CheckoutRequest.phone req))
                 (checkin (db w)) = None).
  { destruct (find _ _) as [c|] eqn:E; [|reflexivity].
    destruct (find_some _ _ E) as [Hin Hq].
    apply active_stay_spec in Hq. destruct (Hnone c Hin Hq). }
  rewrite (checkout_missing fromisoformat req w Hc).
  eexists _, _. repeat split.
Qed.

(** C1: the stay located for the checkout has rate 1000 and advance 200 and
    was created 25 hours before the clock is read (its createdAt is that
    instant, as a datetime or as text that parses to it); one order is
    in-house, of the room and unpaid, with total 150.  Then the checkout
    answers with a bill of 2 nights, roomCharges 2000, foodTotal 150, tax 258,
    total 2208 and status Unpaid; afterwards the document of the stay reads Checked-out
    and the document of the order reads synced, and with identifiers unique
    in the store these are the stay and the order themselves, otherwise
    untouched. *)
Theorem checkout_scenario (req : CheckoutRequest.t) (w : world)
    (c : doc Checkin.t) (o : doc Order.t) (T : Z) :
  find (active_stay (CheckoutRequest.room req) (CheckoutRequest.phone req))
      (checkin (db w)) = Some c ->
  (Checkin.rate (fields c) == 1000)%Q ->
  (Checkin.advance (fields c) == 200)%Q ->
  (Checkin.createdAt (fields c) = PDatetime (mk_datetime T true)
   \/ exists s, Checkin.createdAt (fields c) = PStr s /\ s <> EmptyString
                /\ fromisoformat s = Some (mk_datetime T true)) ->
  clock w (ticks w) = T + 25 * 3600 * 1000000 ->
  filter (unpaid_inhouse (CheckoutRequest.room req)) (order (db w)) = [o] ->
  (Order.total (fields o) == 150)%Q ->
  exists bill_id w' b c' o',
    create_final_bill fromisoformat req w = (Done bill_id, w')
    /\ bill (db w') = bill (db w) ++ [b]
    /\ Bill.id (fields b) = bill_id
    /\ Bill.nights (fields b) = 2
    /\ (Bill.roomCharges (fields b) == 2000)%Q
    /\ (Bill.foodTotal (fields b) == 150)%Q
    /\ (Bill.tax (fields b) == 258)%Q
    /\ (Bill.total (fields b) == 2208)%Q
    /\ Bill.status (fields b) = "Unpaid"%string
    /\ find (id_is (_id c)) (checkin (db w')) = Some c'
    /\ Checkin.status (fields c') = "Checked-out"%string
    /\ find (id_is (_id o)) (order (db w')) = Some o'
    /\ Order.synced (fields o') = Some true
    /\ (NoDup (map _id (checkin (db w))) ->
        fields c' = Checkin.set_status "Checked-out" (fields c))
    /\ (NoDup (map _id (order (db w))) ->
        fields o' = Order.set_synced (Some true) (fields o)).
Proof.
  intros Hc Hrate Hadv Hcreated Hclock Hfold Htotal.
  assert (Hs : start_of fromisoformat c w = (Done (mk_datetime T true), w)).
  { destruct Hcreated as [Hnative | (s & Htext & Hne & Hparse)].
    - exact (start_of_native fromisoformat c w _ Hnative).
    - exact (start_of_text fromisoformat c w s _ Htext Hne Hparse). }
  pose proof (checkout_run fromisoformat req w w c _ Hc Hs) as Hrun.
  cbn [aware micros] in Hrun. cbv zeta in Hrun.
  assert (Hn : stay_nights (clock w (ticks w) - T) = 2).
  { rewrite Hclock, stay_nights_days.
    replace (T + 25 * 3600 * 1000000 - T) with 90000000000 by lia.
    reflexivity. }
  rewrite Hn, Hfold in Hrun.
  assert (Hfood : (Py.sum (map (fun x => Order.total (fields x)) [o]) == 150)%Q).
  { unfold Py.sum. simpl. rewrite Htotal. reflexivity. }
  assert (Hroom : (inject_Z 2 * Checkin.rate (fields c) == 2000)%Q).
  { rewrite Hrate. reflexivity. }
  assert (Htax :
    Py.round ((inject_Z 2 * Checkin.rate (fields c)
               + Py.sum (map (fun x => Order.total (fields x)) [o])) * tax_rate)
    = 258).
  { assert (E : ((inject_Z 2 * Checkin.rate (fields c)
                  + Py.sum (map (fun x => Order.total (fields x)) [o]))
                 * tax_rate == 258)%Q).
    { rewrite Hroom, Hfood. reflexivity. }
    rewrite (round_comp _ _ E). reflexivity. }
  assert (HtaxQ :
    (inject_Z
       (Py.round ((inject_Z 2 * Checkin.rate (fields c)
                   + Py.sum (map (fun x => Order.total (fields x)) [o]))
                  * tax_rate)) == 258)%Q).
  { rewrite Htax. reflexivity. }
  assert (Hgrand :
    (inject_Z 2 * Checkin.rate (fields c)
     + Py.sum (map (fun x => Order.total (fields x)) [o])
     + inject_Z
         (Py.round ((inject_Z 2 * Checkin.rate (fields c)
                     + Py.sum (map (fun x => Order.total (fields x)) [o]))
                    * tax_rate))
     - Checkin.advance (fields c) == 2208)%Q).
  { rewrite Htax, Hroom, Hfood, Hadv. reflexivity. }
  destruct (find_some _ _ Hc) as [Hcin _].
  destruct (find_in (id_is (_id c)) _ c Hcin (id_is_self c)) as [c0 Hc0].
  assert (Hoin : In o (order (db w))).
  { assert (H : In o (filter (unpaid_inhouse (CheckoutRequest.room req))
        (order (db w))))
      by (rewrite Hfold; left; reflexivity).
    apply filter_In in H. tauto. }
  destruct (find_in (id_is (_id o)) _ o Hoin (id_is_self o)) as [o0 Ho0].
  eexists _, _, _.
  exists (set_doc (Checkin.set_status "Checked-out")
            (mk_datetime (clock w (3 + ticks w)%nat) true) c0).
  exists (set_doc (Order.set_synced (Some true))
            (mk_datetime (clock w (2 + ticks w)%nat) true) o0).
  split; [exact Hrun|].
  cbn [db bill checkin order checked_out_db fields checkout_bill
       Bill.id Bill.nights Bill.roomCharges Bill.foodTotal Bill.tax Bill.total
       Bill.status].
  split; [reflexivity|]. split; [reflexivity|]. split; [reflexivity|].
  split; [exact Hroom|]. split; [exact Hfood|].
  split; [exact HtaxQ|]. split; [exact Hgrand|].
  split; [reflexivity|].
  split.
  { rewrite find_update_first by (intros x Hx; exact Hx).
    rewrite Hc0. reflexivity. }
  split; [reflexivity|].
  split.
  { rewrite find_update_all.
    - rewrite Ho0. reflexivity.
    - intros x. reflexivity.
    - intros x Hx. unfold id_in. simpl. unfold id_is in Hx. rewrite Hx.
      reflexivity. }
  split; [reflexivity|].
  split.
  - intros Hnd. rewrite (find_by_id_unique _ c Hnd Hcin) in Hc0.
    inversion Hc0. reflexivity.
  - intros Hnd. rewrite (find_by_id_unique _ o Hnd Hoin) in Ho0.
    inversion Ho0. reflexivity.
Qed.

(** C10: on a successful checkout every folded order is kept in the store with
    its synced flag set and its updated-at stamp renewed and every other field
    as before; its status stays Unpaid, the selection of a checkout of the
    room finds the same orders again, and a later checkout of that room over
    these orders bills the same food total once more. *)
Theorem checkout_sync_only (req : CheckoutRequest.t) (w w' : world)
    (bill_id : string) :
  create_final_bill fromisoformat req w = (Done bill_id, w') ->
  exists (ts : datetime) (b : doc Bill.t),
    bill (db w') = bill (db w) ++ [b]
    /\ (forall o,
          In o (filter (unpaid_inhouse (CheckoutRequest.room req))
                (order (db w))) ->
          let f := fields o in
          let o' :=
            mk_doc (_id o)
              (Order.mk (Order.type f) (Order.room f) (Order.name f)
                 (Order.phone f) (Order.items f) (Order.total f)
                 (Order.status f) (Order.mode f) (Order.createdAt f)
                 (Some true))
              (created_at o) (PDatetime ts) in
          In o' (order (db w'))
          /\ Order.status (fields o') = "Unpaid"%string
          /\ unpaid_inhouse (CheckoutRequest.room req) o' = true)
    /\ filter (unpaid_inhouse (CheckoutRequest.room req)) (order (db w'))
       = map (set_doc (Order.set_synced (Some true)) ts)
           (filter (unpaid_inhouse (CheckoutRequest.room req)) (order (db w)))
    /\ (forall (req2 : CheckoutRequest.t) (w2 w2' : world) (bill_id2 : string),
          CheckoutRequest.room req2 = CheckoutRequest.room req ->
          order (db w2) = order (db w') ->
          create_final_bill fromisoformat req2 w2 = (Done bill_id2, w2') ->
          exists b2,
            bill (db w2') = bill (db w2) ++ [b2]
            /\ Bill.foodTotal (fields b2) = Bill.foodTotal (fields b)).
Proof.
  intros Hrun.
  destruct (checkout_done req w w' bill_id Hrun)
    as (c & start & w1 & Hc & Hs & Ha & Hid & Hdb).
  set (folded := filter (unpaid_inhouse (CheckoutRequest.room req))
        (order (db w))) in *.
  set (ts := mk_datetime (clock w (2 + ticks w1)%nat) true) in *.
  assert (Hsel : filter (unpaid_inhouse (CheckoutRequest.room req)) (order (db w'))
                 = map (set_doc (Order.set_synced (Some true)) ts) folded).
  { rewrite Hdb. cbn [order checked_out_db].
    apply filter_synced. intros d Hd Hq.
    apply id_in_map. apply filter_In. split; assumption. }
  exists ts. eexists. rewrite Hdb at 1.
  split; [reflexivity|].
  split; [|split; [exact Hsel|]].
  - intros o Ho. cbv zeta.
    assert (Hq : unpaid_inhouse (CheckoutRequest.room req) o = true).
    { apply filter_In in Ho. tauto. }
    split; [|split].
    + assert (Hin : In (set_doc (Order.set_synced (Some true)) ts o)
                      (filter (unpaid_inhouse (CheckoutRequest.room req))
                            (order (db w')))).
      { rewrite Hsel. apply in_map. exact Ho. }
      apply filter_In in Hin. exact (proj1 Hin).
    + apply unpaid_inhouse_billable in Hq. exact (proj2 (proj2 Hq)).
    + exact Hq.
  - intros req2 w2 w2' bill_id2 Hroom Horders Hrun2.
    destruct (checkout_done req2 w2 w2' bill_id2 Hrun2)
      as (c2 & start2 & w3 & _ & _ & _ & _ & Hdb2).
    eexists. rewrite Hdb2.
    split; [reflexivity|].
    cbn [fields Bill.foodTotal checkout_bill].
    rewrite Hroom, Horders, Hsel, map_map. reflexivity.
Qed.

End CheckoutProperties.

(** ** Check-ins, orders and payments *)

Lemma stamped_done (v : tsval) (w : world) :
  exists v' w1,
    stamped v w = (Done v', w1) /\ db w1 = db w
    /\ (ts_truthy v = true -> v' = v /\ w1 = w).
Proof.
  unfold stamped. destruct (ts_truthy v).
  - exists v, w. repeat split; reflexivity.
  - eexists _, _. unfold bind, now, ret. cbv beta iota.
    split; [reflexivity|]. split; [reflexivity|]. intros H. discriminate H.
Qed.

Lemma occupied_in_spec (room : string) (d : doc Checkin.t) :
  occupied_in room d = true <->
  Checkin.room (fields d) = room /\ Checkin.status (fields d) = "Occupied"%string.
Proof.
  unfold occupied_in. rewrite andb_true_iff, !String.eqb_eq. tauto.
Qed.

(** The check-in handler, in one equation. *)
Lemma create_checkin_run (payload : Checkin.t) (w w1 : world) (v : tsval) :
  stamped (Checkin.createdAt payload) w = (Done v, w1) ->
  db w1 = db w ->
  create_checkin payload w =
    let data :=
      Checkin.set_status (str_or (Checkin.status payload) "Occupied")
        (Checkin.set_createdAt v payload) in
    match find (occupied_in (Checkin.room payload)) (checkin (db w)) with
    | Some _ => (HTTPException 400 "Room is already occupied", w1)
    | None =>
        (Done (next_oid (db w)),
         mk_world
           (mk_db (checkin (db w) ++ [mk_doc (next_oid (db w)) data PNone PNone])
              (order (db w)) (bill (db w)) (N.succ (next_oid (db w))))
           (clock w1) (ticks w1) (entropy w1) (draws w1))
    end.
Proof.
  intros Hs Hdb.
  unfold create_checkin, bind at 1. rewrite Hs.
  unfold bind at 1, find_one, bind at 1, get_db, ret. cbv beta iota.
  change (docs checkin_c (db w1)) with (checkin (db w1)).
  rewrite Hdb. cbv zeta.
  change (Checkin.room (Checkin.set_status _ (Checkin.set_createdAt v payload)))
    with (Checkin.room payload).
  destruct (find (occupied_in (Checkin.room payload)) (checkin (db w))).
  - reflexivity.
  - unfold create_document, bind, get_db, put_db, ret. cbv beta iota.
    rewrite Hdb. reflexivity.
Qed.

(** What an order is stored as. *)
Lemma create_order_run (payload : Order.t) (w w1 : world) (v : tsval) :
  stamped (Order.createdAt payload) w = (Done v, w1) ->
  db w1 = db w ->
  create_order payload w =
    let data := Order.set_createdAt v payload in
    let data :=
      match Order.items payload with
      | [] => data
      | _ :: _ =>
          Order.set_total
            (Py.or (items_total (Order.items payload)) (Order.total payload)) data
      end in
    (Done (next_oid (db w)),
     mk_world
       (mk_db (checkin (db w))
          (order (db w) ++ [mk_doc (next_oid (db w)) data PNone PNone])
          (bill (db w)) (N.succ (next_oid (db w))))
       (clock w1) (ticks w1) (entropy w1) (draws w1)).
Proof.
  intros Hs Hdb.
  unfold create_order, bind at 1. rewrite Hs.
  unfold create_document, bind, get_db, put_db, ret. cbv beta iota.
  rewrite Hdb. reflexivity.
Qed.

Lemma update_first_split {A} (q : A -> bool) (f : A -> A) (pre post : list A)
    (d : A) :
  (forall x, In x pre -> q x = false) -> q d = true ->
  update_first q f (pre ++ d :: post) = pre ++ f d :: post.
Proof.
  intros Hpre Hd. induction pre as [|x pre IH]; simpl.
  - rewrite Hd. reflexivity.
  - rewrite (Hpre x (or_introl eq_refl)).
    rewrite IH; [reflexivity|]. intros y Hy. apply Hpre. right. exact Hy.
Qed.

Lemma update_first_none {A} (q : A -> bool) (f : A -> A) (l : list A) :
  existsb q l = false -> update_first q f l = l.
Proof.
  induction l as [|x l IH]; simpl; [reflexivity|].
  destruct (q x); simpl; [discriminate|].
  intros H. rewrite (IH H). reflexivity.
Qed.

(** The payment handler, in one equation. *)
Lemma mark_bill_paid_run (bill_id : string) (payload : PayRequest.t) (w : world) :
  mark_bill_paid bill_id payload w =
    let t := mk_datetime (clock w (ticks w)) true in
    let w' :=
      mk_world
        (mk_db (checkin (db w)) (order (db w))
           (update_first (has_bill_id bill_id)
              (set_doc (Bill.set_paid (PayRequest.mode payload)) t) (bill (db w)))
           (next_oid (db w)))
        (clock w) (S (ticks w)) (entropy w) (draws w) in
    if existsb (has_bill_id bill_id) (bill (db w)) then (Done tt, w')
    else (HTTPException 404 "Bill not found", w').
Proof.
  unfold mark_bill_paid, bind, now, update_one, bind, get_db, put_db, ret,
    matched_one.
  cbv beta iota.
  change (docs bill_c (db (tick w))) with (bill (db w)).
  destruct (existsb (has_bill_id bill_id) (bill (db w))); reflexivity.
Qed.

(** C6: a check-in request for a room that has an Occupied check-in in the
    store is answered 400 and the store is left as it was; with no such
    check-in, the record is appended under the identifier that is returned. *)
Theorem checkin_conflict (payload : Checkin.t) (w : world) :
  exists r w',
    create_checkin payload w = (r, w')
    /\ ((exists d, In d (checkin (db w))
                   /\ Checkin.room (fields d) = Checkin.room payload
                   /\ Checkin.status (fields d) = "Occupied"%string) ->
        r = HTTPException 400 "Room is already occupied"
        /\ status_of r = 400%nat
        /\ db w' = db w)
    /\ (~ (exists d, In d (checkin (db w))
                     /\ Checkin.room (fields d) = Checkin.room payload
                     /\ Checkin.status (fields d) = "Occupied"%string) ->
        exists v,
          let data :=
            Checkin.set_status (str_or (Checkin.status payload) "Occupied")
              (Checkin.set_createdAt v payload) in
          r = Done (next_oid (db w))
          /\ (ts_truthy (Checkin.createdAt payload) = true ->
              v = Checkin.createdAt payload)
          /\ db w' =
             mk_db
               (checkin (db w) ++ [mk_doc (next_oid (db w)) data PNone PNone])
               (order (db w)) (bill (db w)) (N.succ (next_oid (db w)))).
Proof.
  destruct (stamped_done (Checkin.createdAt payload) w)
    as (v & w1 & Hs & Hdb & Hv).
  rewrite (create_checkin_run payload w w1 v Hs Hdb). cbv zeta.
  destruct (find (occupied_in (Checkin.room payload)) (checkin (db w)))
    as [d|] eqn:E.
  - eexists _, _. split; [reflexivity|]. split.
    + intros _. repeat split. exact Hdb.
    + intros Hnone. destruct Hnone. exists d.
      destruct (find_some _ _ E) as [Hin Hq].
      apply occupied_in_spec in Hq. tauto.
  - eexists _, _. split; [reflexivity|]. split.
    + intros (d & Hin & Hroom & Hst).
      assert (Hq : occupied_in (Checkin.room payload) d = true)
        by (apply occupied_in_spec; tauto).
      rewrite (find_none _ _ E d Hin) in Hq. discriminate.
    + intros _. exists v. cbv zeta.
      split; [reflexivity|]. split; [|reflexivity].
      intros Ht. exact (proj1 (Hv Ht)).
Qed.

(** C8: paying answers 404 exactly when no bill of the store carries the given
    bill identifier, and then writes nothing; otherwise the first bill that
    carries it gets status Paid, the mode of the request and the clock reading
    as updated-at, whatever its status was before. *)
Theorem pay_bill (bill_id : string) (payload : PayRequest.t) (w : world) :
  exists r w',
    mark_bill_paid bill_id payload w = (r, w')
    /\ (r = HTTPException 404 "Bill not found" <->
        ~ exists d, In d (bill (db w)) /\ Bill.id (fields d) = bill_id)
    /\ (r = HTTPException 404 "Bill not found" ->
        status_of r = 404%nat /\ db w' = db w)
    /\ (forall pre d post,
          bill (db w) = pre ++ d :: post ->
          Bill.id (fields d) = bill_id ->
          (forall x, In x pre -> Bill.id (fields x) <> bill_id) ->
          let b := fields d in
          let paid :=
            Bill.mk (Bill.id b) (Bill.guest b) (Bill.phone b) (Bill.room b)
              (Bill.nights b) (Bill.roomCharges b) (Bill.foodTotal b)
              (Bill.advance b) (Bill.tax b) (Bill.total b)
              "Paid" (PayRequest.mode payload) (Bill.createdAt b) in
          r = Done tt
          /\ bill (db w') =
             pre ++ mk_doc (_id d) paid (created_at d)
                      (PDatetime (mk_datetime (clock w (ticks w)) true)) :: post
          /\ checkin (db w') = checkin (db w)
          /\ order (db w') = order (db w)).
Proof.
  rewrite mark_bill_paid_run. cbv zeta.
  assert (Hspec : forall d, has_bill_id bill_id d = true
                            <-> Bill.id (fields d) = bill_id).
  { intros d. unfold has_bill_id. apply String.eqb_eq. }
  destruct (existsb (has_bill_id bill_id) (bill (db w))) eqn:E.
  - eexists _, _. split; [reflexivity|].
    apply existsb_exists in E. destruct E as (d0 & Hin0 & Hq0).
    split; [|split].
    + split; [discriminate|]. intros Hnone. destruct Hnone.
      exists d0. split; [exact Hin0 | apply Hspec; exact Hq0].
    + discriminate.
    + intros pre d post Hl Hd Hpre. cbv zeta. cbn [db bill checkin order].
      split; [reflexivity|]. split; [|split; reflexivity].
      rewrite Hl. rewrite update_first_split; [reflexivity| |].
      * intros x Hx. destruct (has_bill_id bill_id x) eqn:Hx'; [|reflexivity].
        apply Hspec in Hx'. destruct (Hpre x Hx Hx').
      * apply Hspec. exact Hd.
  - eexists _, _. split; [reflexivity|].
    split; [|split].
    + split; [|reflexivity]. intros _ (d & Hin & Hd).
      apply Hspec in Hd.
      assert (Ht : existsb (has_bill_id bill_id) (bill (db w)) = true)
        by (apply existsb_exists; eauto).
      rewrite E in Ht. discriminate.
    + intros _. split; [reflexivity|]. cbn [db].
      rewrite (update_first_none _ _ _ E). destruct (db w). reflexivity.
    + intros pre d post Hl Hd Hpre. exfalso.
      assert (Ht : existsb (has_bill_id bill_id) (bill (db w)) = true).
      { apply existsb_exists. exists d. split; [|apply Hspec; exact Hd].
        rewrite Hl. apply in_or_app. right. left. reflexivity. }
      rewrite E in Ht. discriminate.
Qed.


(** ** Nights and whole days *)

(** ** The bill identifier *)

Lemma length_app_string (s t : string) :
  String.length (s ++ t) = (String.length s + String.length t)%nat.
Proof.
  induction s as [|a s IH]; simpl; [reflexivity|]. rewrite IH. reflexivity.
Qed.

Lemma hex_upper_length (k : nat) (n : N) : String.length (hex_upper k n) = k.
Proof.
  revert n. induction k as [|k IH]; intros n; simpl; [reflexivity|].
  rewrite length_app_string, IH. simpl. lia.
Qed.

Lemma hex_digit_upper (n : N) : (n < 16)%N -> is_hex_upper (hex_digit n) = true.
Proof.
  intros Hn. unfold is_hex_upper, hex_digit.
  destruct (N.ltb_spec n 10) as [H|H];
    rewrite N_ascii_embedding by lia.
  - apply orb_true_iff. left. apply andb_true_iff.
    split; apply N.leb_le; lia.
  - apply orb_true_iff. right. apply andb_true_iff.
    split; apply N.leb_le; lia.
Qed.

Lemma list_ascii_app (s t : string) :
  list_ascii_of_string (s ++ t) = list_ascii_of_string s ++ list_ascii_of_string t.
Proof.
  induction s as [|a s IH]; simpl; [reflexivity|]. rewrite IH. reflexivity.
Qed.

Lemma hex_upper_digits (k : nat) (n : N) :
  Forall (fun a => is_hex_upper a = true) (list_ascii_of_string (hex_upper k n)).
Proof.
  revert n. induction k as [|k IH]; intros n; simpl; [constructor|].
  rewrite list_ascii_app. apply Forall_app. split; [apply IH|].
  simpl. constructor; [|constructor].
  apply hex_digit_upper. apply N.mod_lt. discriminate.
Qed.

Lemma hex_digit_inj (n m : N) :
  (n < 16)%N -> (m < 16)%N -> hex_digit n = hex_digit m -> n = m.
Proof.
  intros Hn Hm E. apply (f_equal N_of_ascii) in E. unfold hex_digit in E.
  destruct (N.ltb_spec n 10); destruct (N.ltb_spec m 10);
    rewrite !N_ascii_embedding in E by lia; lia.
Qed.

Lemma append_last_inj (s t : string) (a b : ascii) :
  (s ++ String a EmptyString = t ++ String b EmptyString)%string ->
  s = t /\ a = b.
Proof.
  revert t. induction s as [|x s IH]; intros [|y t] E; simpl in E.
  - inversion E. auto.
  - inversion E as [[Hx Hrest]]. destruct t; discriminate Hrest.
  - inversion E as [[Hx Hrest]]. destruct s; discriminate Hrest.
  - inversion E as [[Hx Hrest]]. destruct (IH t Hrest) as [-> ->]. auto.
Qed.

Lemma hex_upper_inj (k : nat) (n m : N) :
  hex_upper k n = hex_upper k m ->
  (n mod 16 ^ N.of_nat k = m mod 16 ^ N.of_nat k)%N.
Proof.
  revert n m. induction k as [|k IH]; intros n m E.
  - simpl. rewrite !N.mod_1_r. reflexivity.
  - simpl in E. apply append_last_inj in E. destruct E as [Ehigh Elow].
    apply IH in Ehigh.
    apply hex_digit_inj in Elow;
      try (apply N.mod_lt; discriminate).
    rewrite Nat2N.inj_succ, N.pow_succ_r'.
    rewrite !N.Div0.mod_mul_r. rewrite Ehigh, Elow. reflexivity.
Qed.

Lemma append_inj_l (s t u : string) : (s ++ t = s ++ u)%string -> t = u.
Proof.
  induction s as [|a s IH]; simpl; intros E; [exact E|].
  inversion E as [H]. exact (IH H).
Qed.

(** ** More on the checkout *)




Section CheckoutExtras.

Variable fromisoformat : string -> option datetime.

(** X2: the identifier a successful checkout returns is the text BILL-
    followed by eight upper-case hexadecimal digits, thirteen characters in
    all. *)
Theorem checkout_bill_id_format (req : CheckoutRequest.t) (w w' : world)
    (bill_id : string) :
  create_final_bill fromisoformat req w = (Done bill_id, w') ->
  exists h,
    bill_id = ("BILL-" ++ h)%string
    /\ String.length h = 8%nat
    /\ Forall (fun a => is_hex_upper a = true) (list_ascii_of_string h)
    /\ String.length bill_id = 13%nat.
Proof.
  intros Hrun.
  destruct (checkout_done fromisoformat req w w' bill_id Hrun)
    as (c & start & w1 & _ & _ & _ & Hid & _).
  cbv zeta in Hid. cbn [checkout_bill Bill.id] in Hid.
  exists (hex_upper 8 (entropy w (draws w) mod 2 ^ 32)%N).
  split; [exact Hid|]. split; [apply hex_upper_length|].
  split; [apply hex_upper_digits|].
  rewrite Hid, length_app_string, hex_upper_length. reflexivity.
Qed.

(** X3: two successful checkouts return the same bill identifier exactly
    when they drew the same four bytes of entropy; nothing else enters the
    identifier, and the store is not asked whether it is taken. *)
Theorem checkout_bill_id_draw (req1 req2 : CheckoutRequest.t)
    (w1 w1' w2 w2' : world) (id1 id2 : string) :
  create_final_bill fromisoformat req1 w1 = (Done id1, w1') ->
  create_final_bill fromisoformat req2 w2 = (Done id2, w2') ->
  (id1 = id2 <->
   (entropy w1 (draws w1) mod 2 ^ 32 = entropy w2 (draws w2) mod 2 ^ 32)%N).
Proof.
  intros Hrun1 Hrun2.
  destruct (checkout_done fromisoformat req1 w1 w1' id1 Hrun1)
    as (c1 & s1 & u1 & _ & _ & _ & Hid1 & _).
  destruct (checkout_done fromisoformat req2 w2 w2' id2 Hrun2)
    as (c2 & s2 & u2 & _ & _ & _ & Hid2 & _).
  cbv zeta in Hid1, Hid2. cbn [checkout_bill Bill.id] in Hid1, Hid2.
  subst id1 id2. split.
  - intros E. apply append_inj_l in E. rename E into Hh.
    apply hex_upper_inj in Hh.
    change (16 ^ N.of_nat 8)%N with (2 ^ 32)%N in Hh.
    rewrite !N.Div0.mod_mod in Hh. exact Hh.
  - intros E. rewrite E. reflexivity.
Qed.


(** X5: a located stay whose creation stamp is a datetime without time zone
    cannot be checked out: the subtraction from the aware clock reading
    raises, the answer is 500, and nothing has been written. *)
Theorem checkout_naive_stay (req : CheckoutRequest.t) (w : world)
    (c : doc Checkin.t) (d : datetime) :
  find (active_stay (CheckoutRequest.room req) (CheckoutRequest.phone req))
    (checkin (db w)) = Some c ->
  Checkin.createdAt (fields c) = PDatetime d ->
  aware d = false ->
  exists r w',
    create_final_bill fromisoformat req w = (r, w')
    /\ r = Uncaught TypeError
    /\ status_of r = 500%nat
    /\ db w' = db w.
Proof.
  intros Hc Hd Ha.
  pose proof (start_of_native fromisoformat c w d Hd) as Hs.
  rewrite (checkout_run fromisoformat req w w c d Hc Hs), Ha.
  eexists _, _. repeat split.
Qed.


End CheckoutExtras.

(** ** Invariants and frames *)

Lemma filter_find_none {A} (q : A -> bool) (l : list A) :
  find q l = None -> filter q l = [].
Proof.
  induction l as [|x l IH]; simpl; [reflexivity|].
  destruct (q x); [discriminate | exact IH].
Qed.

Lemma filter_update_first_le {A} (p q : A -> bool) (f : A -> A) (l : list A) :
  (forall x, q (f x) = false) ->
  (List.length (filter q (update_first p f l)) <= List.length (filter q l))%nat.
Proof.
  intros Hq. induction l as [|x l IH]; simpl; [lia|].
  destruct (p x); simpl.
  - rewrite Hq. destruct (q x); simpl; lia.
  - destruct (q x); simpl; lia.
Qed.

Lemma at_most_one {A} (l : list A) (a b : A) :
  (List.length l <= 1)%nat -> In a l -> In b l -> a = b.
Proof.
  destruct l as [|x [|y l]]; simpl; intros Hlen Ha Hb.
  - destruct Ha.
  - destruct Ha as [<-|[]]. destruct Hb as [<-|[]]. reflexivity.
  - lia.
Qed.

Lemma same_id_same_doc {A} (l : list (doc A)) (a b : doc A) :
  NoDup (map _id l) -> In a l -> In b l -> _id a = _id b -> a = b.
Proof.
  intros Hnd Ha Hb E.
  pose proof (find_by_id_unique l a Hnd Ha) as Fa.
  pose proof (find_by_id_unique l b Hnd Hb) as Fb.
  rewrite E in Fa. rewrite Fa in Fb. inversion Fb. reflexivity.
Qed.

Lemma update_first_as_map {A} (i : oid) (f : doc A -> doc A)
    (l : list (doc A)) :
  NoDup (map _id l) ->
  update_first (id_is i) f l = map (fun d => if id_is i d then f d else d) l.
Proof.
  induction l as [|x l IH]; intros Hnd; simpl; [reflexivity|].
  simpl in Hnd. inversion Hnd as [|j ids Hfresh Hnd']; subst.
  destruct (id_is i x) eqn:E.
  - f_equal. rewrite <- (map_id l) at 1. apply map_ext_in.
    intros d Hd. destruct (id_is i d) eqn:Ed; [|reflexivity].
    exfalso. apply Hfresh. unfold id_is in E, Ed.
    apply N.eqb_eq in E. apply N.eqb_eq in Ed.
    rewrite E, <- Ed. apply in_map. exact Hd.
  - f_equal. exact (IH Hnd').
Qed.

Lemma id_in_selected {A} (q : doc A -> bool) (l : list (doc A)) (d : doc A) :
  NoDup (map _id l) -> In d l ->
  id_in (map _id (filter q l)) d = q d.
Proof.
  intros Hnd Hd. destruct (q d) eqn:E.
  - apply id_in_map. apply filter_In. split; assumption.
  - destruct (id_in (map _id (filter q l)) d) eqn:Hin; [|reflexivity].
    unfold id_in in Hin. apply existsb_exists in Hin.
    destruct Hin as (i & Hi & Heq). apply N.eqb_eq in Heq.
    apply in_map_iff in Hi. destruct Hi as (d0 & Hid & Hd0).
    apply filter_In in Hd0. destruct Hd0 as [Hd0 Hq0].
    assert (d0 = d) by (apply (same_id_same_doc l); congruence).
    subst d0. congruence.
Qed.

Lemma map_id_update_first {A} (q : doc A -> bool) (f : doc A -> doc A)
    (l : list (doc A)) :
  (forall d, _id (f d) = _id d) ->
  map _id (update_first q f l) = map _id l.
Proof.
  intros Hf. induction l as [|x l IH]; simpl; [reflexivity|].
  destruct (q x); simpl; [rewrite Hf; reflexivity | rewrite IH; reflexivity].
Qed.

Lemma checked_out_not_occupied (room : string) (tc : datetime)
    (x : doc Checkin.t) :
  occupied_in room (set_doc (Checkin.set_status "Checked-out") tc x) = false.
Proof.
  unfold occupied_in. cbn [fields set_doc Checkin.status Checkin.set_status].
  apply andb_false_r.
Qed.

Section StoreExtras.

Variable fromisoformat : string -> option datetime.

(** Whatever a checkout answers, the store is as before or has had the three
    writes. *)
Lemma checkout_db_cases (req : CheckoutRequest.t) (w w' : world)
    (r : outcome string) :
  create_final_bill fromisoformat req w = (r, w') ->
  db w' = db w
  \/ exists c orders b ts tc,
       find (active_stay (CheckoutRequest.room req) (CheckoutRequest.phone req))
         (checkin (db w)) = Some c
       /\ db w' = checked_out_db (db w) c orders b ts tc.
Proof.
  intros Hrun.
  destruct (find (active_stay (CheckoutRequest.room req)
                    (CheckoutRequest.phone req)) (checkin (db w)))
    as [c|] eqn:Hc.
  - destruct (start_of_done fromisoformat c w) as (start & w1 & Hs & _).
    rewrite (checkout_run fromisoformat req w w1 c start Hc Hs) in Hrun.
    destruct (start_of_frame fromisoformat c w w1 _ Hs) as (Hdb & _).
    destruct (aware start).
    + cbv zeta in Hrun. inversion Hrun as [[Hr Hw]]. right.
      exists c. eexists _, _, _, _. split; [reflexivity|].
      cbn [db]. rewrite Hdb. reflexivity.
    + inversion Hrun as [[Hr Hw]]. left. exact Hdb.
  - rewrite (checkout_missing fromisoformat req w Hc) in Hrun.
    inversion Hrun. left. reflexivity.
Qed.

(** X8: a check-in request, accepted or refused, leaves no room with two
    Occupied check-ins if none had two before. *)
Theorem checkin_keeps_one_occupied (payload : Checkin.t) (w w' : world)
    (r : outcome oid) :
  create_checkin payload w = (r, w') ->
  one_occupied_per_room (db w) ->
  one_occupied_per_room (db w').
Proof.
  intros Hrun Hinv.
  destruct (stamped_done (Checkin.createdAt payload) w)
    as (v & w1 & Hs & Hdb & _).
  rewrite (create_checkin_run payload w w1 v Hs Hdb) in Hrun. cbv zeta in Hrun.
  destruct (find (occupied_in (Checkin.room payload)) (checkin (db w)))
    as [d|] eqn:E; inversion Hrun as [[Hr Hw]].
  - rewrite <- Hw, Hdb. exact Hinv.
  - intros room. cbn [db checkin]. rewrite filter_app, length_app.
    cbn [filter].
    destruct (occupied_in room (mk_doc (next_oid (db w)) _ PNone PNone)) eqn:Hq.
    + apply occupied_in_spec in Hq. destruct Hq as [Hroom _].
      cbn [fields] in Hroom.
      change (Checkin.room payload = room) in Hroom. subst room.
      rewrite (filter_find_none _ _ E). simpl. lia.
    + specialize (Hinv room). simpl. lia.
Qed.

(** X9: a checkout, whatever it answers, leaves no room with two Occupied
    check-ins if none had two before. *)
Theorem checkout_keeps_one_occupied (req : CheckoutRequest.t) (w w' : world)
    (r : outcome string) :
  create_final_bill fromisoformat req w = (r, w') ->
  one_occupied_per_room (db w) ->
  one_occupied_per_room (db w').
Proof.
  intros Hrun Hinv.
  destruct (checkout_db_cases req w w' r Hrun)
    as [Hdb | (c & orders & b & ts & tc & _ & Hdb)]; rewrite Hdb.
  - exact Hinv.
  - intros room. cbn [checkin checked_out_db].
    etransitivity; [|exact (Hinv room)].
    apply filter_update_first_le. intros x. apply checked_out_not_occupied.
Qed.

(** X11: with identifiers distinct, a successful checkout rewrites the
    located stay and the orders it folded, each in place, appends the bill,
    and leaves every other check-in, order and bill as it was. *)
Theorem checkout_touches_only (req : CheckoutRequest.t) (w w' : world)
    (bill_id : string) :
  create_final_bill fromisoformat req w = (Done bill_id, w') ->
  NoDup (map _id (checkin (db w))) ->
  NoDup (map _id (order (db w))) ->
  exists c b ts tc,
    find (active_stay (CheckoutRequest.room req) (CheckoutRequest.phone req))
      (checkin (db w)) = Some c
    /\ checkin (db w')
       = map (fun d =>
                if id_is (_id c) d
                then set_doc (Checkin.set_status "Checked-out") tc d
                else d)
           (checkin (db w))
    /\ (forall d, In d (checkin (db w)) -> id_is (_id c) d = true -> d = c)
    /\ order (db w')
       = map (fun o =>
                if unpaid_inhouse (CheckoutRequest.room req) o
                then set_doc (Order.set_synced (Some true)) ts o
                else o)
           (order (db w))
    /\ bill (db w') = bill (db w) ++ [b].
Proof.
  intros Hrun Hndc Hndo.
  destruct (checkout_done fromisoformat req w w' bill_id Hrun)
    as (c & start & w1 & Hc & Hs & Ha & Hid & Hdb).
  destruct (find_some _ _ Hc) as [Hcin _].
  exists c. eexists _, _, _. rewrite Hdb.
  cbn [checkin order bill checked_out_db].
  split; [exact Hc|]. split; [apply update_first_as_map; exact Hndc|].
  split.
  { intros d Hd Hq. unfold id_is in Hq. apply N.eqb_eq in Hq.
    apply (same_id_same_doc _ d c Hndc Hd Hcin Hq). }
  split; [|reflexivity].
  unfold update_all. apply map_ext_in. intros o Ho.
  rewrite (id_in_selected _ _ o Hndo Ho). reflexivity.
Qed.

(** With identifiers distinct and no room doubly occupied, a successful
    checkout leaves no Occupied check-in in the room. *)
Lemma checkout_vacates (req : CheckoutRequest.t) (w w' : world)
    (bill_id : string) :
  create_final_bill fromisoformat req w = (Done bill_id, w') ->
  NoDup (map _id (checkin (db w))) ->
  one_occupied_per_room (db w) ->
  forall d, In d (checkin (db w')) ->
            occupied_in (CheckoutRequest.room req) d = false.
Proof.
  intros Hrun Hnd Hinv d Hd.
  destruct (checkout_done fromisoformat req w w' bill_id Hrun)
    as (c & start & w1 & Hc & Hs & Ha & Hid & Hdb).
  destruct (find_some _ _ Hc) as [Hcin Hq].
  rewrite Hdb in Hd. cbn [checkin checked_out_db] in Hd.
  rewrite (update_first_as_map _ _ _ Hnd) in Hd.
  apply in_map_iff in Hd. destruct Hd as (x & Hx & Hxin).
  destruct (id_is (_id c) x) eqn:Ex; subst d;
    [apply checked_out_not_occupied|].
  destruct (occupied_in (CheckoutRequest.room req) x) eqn:Eo; [|reflexivity].
  assert (Hco : occupied_in (CheckoutRequest.room req) c = true).
  { apply active_stay_spec in Hq. apply occupied_in_spec. tauto. }
  assert (x = c).
  { apply (at_most_one (filter (occupied_in (CheckoutRequest.room req))
                          (checkin (db w)))).
    - apply Hinv.
    - apply filter_In. split; assumption.
    - apply filter_In. split; assumption. }
  subst x. rewrite id_is_self in Ex. discriminate.
Qed.

(** X12: with identifiers distinct and no room doubly occupied, a checkout of
    the same room right after a successful one answers 404 and writes
    nothing, whatever phone it gives. *)
Theorem checkout_twice_not_found (req : CheckoutRequest.t) (w w' : world)
    (bill_id phone : string) :
  create_final_bill fromisoformat req w = (Done bill_id, w') ->
  NoDup (map _id (checkin (db w))) ->
  one_occupied_per_room (db w) ->
  create_final_bill fromisoformat
    (CheckoutRequest.mk (CheckoutRequest.room req) phone) w'
  = (HTTPException 404 "Active check-in not found", w').
Proof.
  intros Hrun Hnd Hinv.
  apply checkout_missing. cbn [CheckoutRequest.room CheckoutRequest.phone].
  destruct (find _ _) as [d|] eqn:E; [|reflexivity].
  destruct (find_some _ _ E) as [Hin Hq].
  pose proof (checkout_vacates req w w' bill_id Hrun Hnd Hinv d Hin) as Hv.
  apply active_stay_spec in Hq.
  assert (occupied_in (CheckoutRequest.room req) d = true)
    by (apply occupied_in_spec; tauto).
  congruence.
Qed.

(** X13: with identifiers distinct and no room doubly occupied, the room of a
    successful checkout is free: the next check-in request for it is
    accepted and stored. *)
Theorem checkin_after_checkout (req : CheckoutRequest.t) (w w' : world)
    (bill_id : string) (payload : Checkin.t) :
  create_final_bill fromisoformat req w = (Done bill_id, w') ->
  NoDup (map _id (checkin (db w))) ->
  one_occupied_per_room (db w) ->
  Checkin.room payload = CheckoutRequest.room req ->
  exists w'' d,
    create_checkin payload w' = (Done (_id d), w'')
    /\ checkin (db w'') = checkin (db w') ++ [d]
    /\ Checkin.room (fields d) = CheckoutRequest.room req
    /\ Checkin.status (fields d) = str_or (Checkin.status payload) "Occupied".
Proof.
  intros Hrun Hnd Hinv Hroom.
  destruct (stamped_done (Checkin.createdAt payload) w')
    as (v & w1 & Hs & Hdb & _).
  rewrite (create_checkin_run payload w' w1 v Hs Hdb). cbv zeta.
  destruct (find (occupied_in (Checkin.room payload)) (checkin (db w')))
    as [d|] eqn:E.
  - destruct (find_some _ _ E) as [Hin Hq]. rewrite Hroom in Hq.
    rewrite (checkout_vacates req w w' bill_id Hrun Hnd Hinv d Hin) in Hq.
    discriminate.
  - eexists _, (mk_doc (next_oid (db w')) _ PNone PNone).
    split; [reflexivity|]. split; [reflexivity|].
    split; [exact Hroom | reflexivity].
Qed.

End StoreExtras.

(** ** Orders, payments and listings, and how the handlers follow one another *)


Lemma update_first_app_hit {A} (q : A -> bool) (f : A -> A) (l l' : list A) :
  existsb q l = true -> update_first q f (l ++ l') = update_first q f l ++ l'.
Proof.
  induction l as [|x l IH]; simpl; [discriminate|].
  destruct (q x); simpl; [reflexivity|].
  intros H. rewrite (IH H). reflexivity.
Qed.

Lemma existsb_update_first {A} (q : A -> bool) (f : A -> A) (l : list A) :
  (forall x, q (f x) = q x) ->
  existsb q (update_first q f l) = existsb q l.
Proof.
  intros Hq. induction l as [|x l IH]; simpl; [reflexivity|].
  destruct (q x) eqn:E; simpl.
  - rewrite Hq, E. reflexivity.
  - rewrite E. exact IH.
Qed.

Lemma fields_update_twice {A} (q : doc A -> bool) (f g : doc A -> doc A)
    (l : list (doc A)) :
  (forall x, q (f x) = q x) ->
  (forall x, fields (g (f x)) = fields (f x)) ->
  map fields (update_first q g (update_first q f l))
  = map fields (update_first q f l).
Proof.
  intros Hq Hg. induction l as [|x l IH]; simpl; [reflexivity|].
  destruct (q x) eqn:E; simpl.
  - rewrite Hq, E. simpl. rewrite Hg. reflexivity.
  - rewrite E. simpl. rewrite IH. reflexivity.
Qed.


(** X17: paying a bill a second time with the same request succeeds and
    changes no field of any bill; only the updated-at stamp of the paid bill
    moves, and check-ins and orders are not touched. *)
Theorem pay_twice_same_bills (bill_id : string) (payload : PayRequest.t)
    (w w1 : world) :
  mark_bill_paid bill_id payload w = (Done tt, w1) ->
  exists w2,
    mark_bill_paid bill_id payload w1 = (Done tt, w2)
    /\ map fields (bill (db w2)) = map fields (bill (db w1))
    /\ map _id (bill (db w2)) = map _id (bill (db w1))
    /\ checkin (db w2) = checkin (db w)
    /\ order (db w2) = order (db w).
Proof.
  intros Hrun. rewrite mark_bill_paid_run in Hrun. cbv zeta in Hrun.
  destruct (existsb (has_bill_id bill_id) (bill (db w))) eqn:E;
    [|discriminate].
  inversion Hrun as [Hw]. clear Hrun.
  rewrite mark_bill_paid_run. cbv zeta. cbn [db bill clock ticks].
  rewrite existsb_update_first by (intros x; reflexivity).
  rewrite E. eexists. split; [reflexivity|].
  cbn [db bill checkin order].
  split; [|split; [|split; reflexivity]].
  - apply fields_update_twice; intros x; reflexivity.
  - apply map_id_update_first. intros x. reflexivity.
Qed.

(** X19: a body for [POST /api/orders] that is no object, or an object with
    no phone, is refused with 422 before the handler runs: the world is as
    it was. *)
Theorem order_without_phone_refused (v_datetime : json -> option datetime)
    (body : json) (w : world) :
  (forall l, body = JObj l -> jget "phone" l = None) ->
  post_orders v_datetime body w = (Uncaught RequestValidationError, w)
  /\ status_of (fst (post_orders v_datetime body w)) = 422%nat.
Proof.
  intros Hphone.
  assert (Hv : validate_Order v_datetime body = None).
  { destruct body as [| | | | | |l]; try reflexivity.
    unfold validate_Order, and_then.
    destruct (defaulted v_str "type" "inhouse"%string l); [|reflexivity].
    destruct (defaulted (optional v_str) "room" None l); [|reflexivity].
    destruct (defaulted (optional v_str) "name" None l); [|reflexivity].
    unfold required. rewrite (Hphone l eq_refl). reflexivity. }
  unfold post_orders. rewrite Hv. split; reflexivity.
Qed.

Section Flows.

Variable fromisoformat : string -> option datetime.


(** X16: the identifier a successful checkout returns can be paid at once:
    the payment never answers 404.  When no older bill carries the
    identifier, it is the new bill that reads Paid with the mode of the
    request; when an older bill carries it, the new bill is left as it
    was. *)
Theorem checkout_then_pay (req : CheckoutRequest.t) (payload : PayRequest.t)
    (w w1 : world) (bill_id : string) :
  create_final_bill fromisoformat req w = (Done bill_id, w1) ->
  exists w2 b,
    mark_bill_paid bill_id payload w1 = (Done tt, w2)
    /\ bill (db w1) = bill (db w) ++ [b]
    /\ Bill.id (fields b) = bill_id
    /\ ((forall d, In d (bill (db w)) -> Bill.id (fields d) <> bill_id) ->
        bill (db w2)
        = bill (db w)
          ++ [set_doc (Bill.set_paid (PayRequest.mode payload))
                (mk_datetime (clock w1 (ticks w1)) true) b])
    /\ ((exists d, In d (bill (db w)) /\ Bill.id (fields d) = bill_id) ->
        exists older, bill (db w2) = older ++ [b]).
Proof.
  intros Hrun.
  destruct (checkout_done fromisoformat req w w1 bill_id Hrun)
    as (c & start & u & Hc & Hs & Ha & Hbid & Hdb).
  cbv zeta in Hbid, Hdb.
  set (b := mk_doc (next_oid (db w))
              (checkout_bill c
                 (filter (unpaid_inhouse (CheckoutRequest.room req))
                    (order (db w)))
                 (stay_nights (clock w (ticks u) - micros start))
                 (entropy w (draws w) mod 2 ^ 32)%N
                 (mk_datetime (clock w (1 + ticks u)%nat) true))
              PNone PNone) in *.
  assert (Hbills : bill (db w1) = bill (db w) ++ [b])
    by (rewrite Hdb; reflexivity).
  assert (Hq : has_bill_id bill_id b = true).
  { unfold has_bill_id. apply String.eqb_eq. symmetry. exact Hbid. }
  rewrite mark_bill_paid_run. cbv zeta. rewrite Hbills.
  assert (Hex : existsb (has_bill_id bill_id) (bill (db w) ++ [b]) = true).
  { rewrite existsb_app. simpl. rewrite Hq. apply orb_true_iff. right.
    reflexivity. }
  rewrite Hex. eexists _, b.
  split; [reflexivity|]. split; [reflexivity|].
  split; [symmetry; exact Hbid|].
  cbn [db bill]. split.
  - intros Hfresh. apply update_first_split; [|exact Hq].
    intros x Hx. unfold has_bill_id.
    apply String.eqb_neq. exact (Hfresh x Hx).
  - intros (d & Hd & Hdid).
    eexists. apply update_first_app_hit.
    apply existsb_exists. exists d. split; [exact Hd|].
    unfold has_bill_id. apply String.eqb_eq. exact Hdid.
Qed.

End Flows.

Lemma filter_any {A} (l : list (doc A)) : filter any_doc l = l.
Proof.
  induction l as [|x l IH]; simpl; [reflexivity|]. rewrite IH. reflexivity.
Qed.

Section ListingExtras.

Variable str_oid : oid -> string.

Variable arrange : forall A, list (doc A) -> list (doc A).

Variable fromisoformat : string -> option datetime.

(** Whatever its order, a listing holds the documents of the query, each
    once. *)
Hypothesis arrange_permutes :
  forall A (l : list (doc A)), Permutation (arrange A l) l.

Lemma list_checkins_run (w : world) :
  list_checkins str_oid arrange w
  = (Done (map (normalize_id str_oid) (arrange _ (checkin (db w)))), w).
Proof.
  unfold list_checkins, get_documents, find_all, bind, get_db, ret.
  cbv beta iota. change (docs checkin_c (db w)) with (checkin (db w)).
  rewrite filter_any. reflexivity.
Qed.

Lemma list_orders_run (w : world) :
  list_orders str_oid arrange w
  = (Done (map (normalize_id str_oid) (arrange _ (order (db w)))), w).
Proof.
  unfold list_orders, get_documents, find_all, bind, get_db, ret.
  cbv beta iota. change (docs order_c (db w)) with (order (db w)).
  rewrite filter_any. reflexivity.
Qed.

Lemma list_bills_run (w : world) :
  list_bills str_oid arrange w
  = (Done (map (normalize_id str_oid) (arrange _ (bill (db w)))), w).
Proof.
  unfold list_bills, get_documents, find_all, bind, get_db, ret.
  cbv beta iota. change (docs bill_c (db w)) with (bill (db w)).
  rewrite filter_any. reflexivity.
Qed.

(** A listing after one more document is, up to order, the listing from
    before with the new record. *)
Lemma listed_after_append {A} (l : list (doc A)) (d : doc A) :
  Permutation (map (normalize_id str_oid) (arrange A (l ++ [d])))
    (normalize_id str_oid d :: map (normalize_id str_oid) (arrange A l)).
Proof.
  change (normalize_id str_oid d :: map (normalize_id str_oid) (arrange A l))
    with (map (normalize_id str_oid) (d :: arrange A l)).
  apply Permutation_map.
  apply perm_trans with (l ++ [d]); [apply arrange_permutes|].
  apply perm_trans with (d :: l).
  - apply Permutation_sym. apply Permutation_cons_append.
  - apply perm_skip. apply Permutation_sym. apply arrange_permutes.
Qed.

(** X20: what a handler stores, the listing of its collection shows: after
    an accepted check-in, a stored order or a successful checkout, the
    listing holds the records listed before and the new record, whose
    identifier is the text of the one returned (for a bill, whose bill
    identifier is the one returned), in whatever order the store returns
    them; a listing leaves the world as it is. *)
Theorem listing_after_insert :
  (forall payload w i w1,
      create_checkin payload w = (Done i, w1) ->
      exists prev next it,
        list_checkins str_oid arrange w = (Done prev, w)
        /\ list_checkins str_oid arrange w1 = (Done next, w1)
        /\ Permutation next (it :: prev)
        /\ listed_id it = str_oid i
        /\ Checkin.name (listed_fields it) = Checkin.name payload
        /\ Checkin.phone (listed_fields it) = Checkin.phone payload
        /\ Checkin.room (listed_fields it) = Checkin.room payload)
  /\ (forall payload w i w1,
        create_order payload w = (Done i, w1) ->
        exists prev next it,
          list_orders str_oid arrange w = (Done prev, w)
          /\ list_orders str_oid arrange w1 = (Done next, w1)
          /\ Permutation next (it :: prev)
          /\ listed_id it = str_oid i
          /\ Order.phone (listed_fields it) = Order.phone payload
          /\ Order.items (listed_fields it) = Order.items payload)
  /\ (forall req w bill_id w1,
        create_final_bill fromisoformat req w = (Done bill_id, w1) ->
        exists prev next it,
          list_bills str_oid arrange w = (Done prev, w)
          /\ list_bills str_oid arrange w1 = (Done next, w1)
          /\ Permutation next (it :: prev)
          /\ Bill.id (listed_fields it) = bill_id
          /\ Bill.status (listed_fields it) = "Unpaid"%string).
Proof.
  split; [|split].
  - intros payload w i w1 Hrun.
    destruct (stamped_done (Checkin.createdAt payload) w)
      as (v & u & Hs & Hdb & _).
    rewrite (create_checkin_run payload w u v Hs Hdb) in Hrun.
    cbv zeta in Hrun.
    destruct (find (occupied_in (Checkin.room payload)) (checkin (db w)));
      [discriminate|].
    inversion Hrun as [[Hi Hw]].
    rewrite !list_checkins_run. cbn [db checkin].
    eexists _, _, _. split; [reflexivity|]. split; [reflexivity|].
    split; [apply listed_after_append|].
    repeat split.
  - intros payload w i w1 Hrun.
    destruct (stamped_done (Order.createdAt payload) w)
      as (v & u & Hs & Hdb & _).
    rewrite (create_order_run payload w u v Hs Hdb) in Hrun.
    cbv zeta in Hrun. inversion Hrun as [[Hi Hw]].
    rewrite !list_orders_run. cbn [db order].
    eexists _, _, _. split; [reflexivity|]. split; [reflexivity|].
    split; [apply listed_after_append|].
    split; [reflexivity|].
    cbn [normalize_id listed_fields fields].
    destruct (Order.items payload) eqn:E; simpl; rewrite ?E; split; reflexivity.
  - intros req w bill_id w1 Hrun.
    destruct (checkout_done fromisoformat req w w1 bill_id Hrun)
      as (c & start & u & Hc & Hs & Ha & Hbid & Hdb).
    rewrite !list_bills_run. rewrite Hdb. cbn [bill checked_out_db].
    eexists _, _, _. split; [reflexivity|]. split; [reflexivity|].
    split; [apply listed_after_append|].
    split; [symmetry; exact Hbid | reflexivity].
Qed.

End ListingExtras.
(** ** Facts about binary64 rounding *)

Lemma round_of_integer (n : Z) : Py.round (inject_Z n) = n.
Proof.
  unfold Py.round. rewrite Qfloor_Z.
  assert (E : (inject_Z n - inject_Z n ?= 1 # 2)%Q = Lt).
  { apply -> Qlt_alt. lra. }
  rewrite E. reflexivity.
Qed.

(** The rounding of a fraction, in integers. *)
Lemma round_frac_bounds (n : Z) (d : positive) :
  2 * Py.round (n # d) * Zpos d <= 2 * n + Zpos d
  /\ 2 * n - Zpos d <= 2 * Py.round (n # d) * Zpos d.
Proof.
  pose proof (round_nearest (n # d)) as H.
  apply Qabs_Qle_condition in H. destruct H as [H1 H2].
  unfold Qle, Qminus, Qplus, Qopp, inject_Z in H1, H2. simpl in H1, H2.
  split; nia.
Qed.

Lemma Qred_inject_Z (z : Z) : Qred (inject_Z z) = inject_Z z.
Proof.
  unfold Qred, inject_Z.
  pose proof (Z.ggcd_gcd z 1) as Hg.
  pose proof (Z.ggcd_correct_divisors z 1) as Hd.
  destruct (Z.ggcd z 1) as [g [a b]]. simpl in *.
  rewrite Z.gcd_1_r in Hg. subst g. destruct Hd as [Ha Hb].
  replace a with z by lia. replace b with 1 by lia. reflexivity.
Qed.

Lemma nearest_comp (p q : Q) : (p == q)%Q -> F64.nearest p = F64.nearest q.
Proof.
  intros E. unfold F64.nearest. rewrite (Qred_complete _ _ E). reflexivity.
Qed.

Lemma nearest_zero (q : Q) : (q == 0)%Q -> F64.nearest q = F64.Zero false.
Proof.
  intros E. rewrite (nearest_comp _ _ E). reflexivity.
Qed.

Lemma Qeq_bool_false (p q : Q) : ~ (p == q)%Q -> Qeq_bool p q = false.
Proof.
  intros H. destruct (Qeq_bool p q) eqn:E; [|reflexivity].
  apply Qeq_bool_iff in E. contradiction.
Qed.

Lemma Qle_bool_false (p q : Q) : (q < p)%Q -> Qle_bool p q = false.
Proof.
  intros H. destruct (Qle_bool p q) eqn:E; [|reflexivity].
  apply Qle_bool_iff in E. lra.
Qed.

Lemma Qle_bool_true (p q : Q) : (p <= q)%Q -> Qle_bool p q = true.
Proof. intros H. apply Qle_bool_iff. exact H. Qed.


Lemma scale2_up (n k : Z) :
  0 <= k -> (F64.scale2 (inject_Z n) k == inject_Z (n * 2 ^ k))%Q.
Proof.
  intros Hk. destruct k as [|p|p]; [| |lia].
  - simpl. rewrite Z.mul_1_r. reflexivity.
  - unfold F64.scale2. rewrite inject_Z_mult. reflexivity.
Qed.

Lemma scale2_down (n k : Z) :
  0 <= k -> (F64.scale2 (inject_Z (n * 2 ^ k)) (- k) == inject_Z n)%Q.
Proof.
  intros Hk. destruct k as [|p|p]; [| |lia].
  - simpl. rewrite Z.mul_1_r. reflexivity.
  - unfold F64.scale2. simpl Z.opp. cbv iota.
    assert (Hp : 0 < 2 ^ Zpos p) by (apply Z.pow_pos_nonneg; lia).
    rewrite inject_Z_mult.
    assert (Hq : ~ (inject_Z (2 ^ Zpos p) == 0)%Q).
    { intros E. unfold Qeq in E. simpl in E. lia. }
    field. exact Hq.
Qed.

Lemma Qneg_spec (q : Q) : F64.Qneg q = true <-> (q < 0)%Q.
Proof.
  unfold F64.Qneg. destruct (Qle_bool 0 q) eqn:E; simpl.
  - apply Qle_bool_iff in E. split; [discriminate | lra].
  - split; [intros _|reflexivity].
    destruct (Qlt_le_dec q 0) as [H|H]; [exact H|].
    apply Qle_bool_iff in H. congruence.
Qed.

(** An integer below [2 ^ 53] is a binary64 value. *)
Lemma nearest_int (q : Q) (z : Z) :
  (q == inject_Z z)%Q -> z <> 0 -> Z.abs z < 2 ^ 53 ->
  F64.nearest q = F64.Fin (inject_Z z).
Proof.
  intros E Hz Hb. rewrite (nearest_comp _ _ E). clear E q.
  unfold F64.nearest. rewrite Qred_inject_Z.
  rewrite Qeq_bool_false.
  2:{ intros E. apply Hz. unfold Qeq in E. simpl in E. lia. }
  assert (Ha : Qabs (inject_Z z) = inject_Z (Z.abs z)) by reflexivity.
  rewrite Ha.
  assert (H1 : 1 <= Z.abs z) by lia.
  unfold F64.ilog2.
  rewrite Qle_bool_true.
  2:{ change 1%Q with (inject_Z 1). rewrite <- Zle_Qle. exact H1. }
  rewrite Qfloor_Z.
  assert (He : Z.log2 (Z.abs z) < 53).
  { apply Z.log2_lt_pow2; lia. }
  assert (He0 : 0 <= Z.log2 (Z.abs z)) by apply Z.log2_nonneg.
  rewrite Z.max_l by lia.
  set (k := 52 - Z.log2 (Z.abs z)).
  replace (Z.log2 (Z.abs z) - 52) with (- k) by (unfold k; lia).
  rewrite Z.opp_involutive.
  assert (Hk : 0 <= k) by (unfold k; lia).
  cbv zeta.
  rewrite (round_comp _ _ (scale2_up (Z.abs z) k Hk)), round_of_integer.
  assert (Hp : 0 < 2 ^ k) by (apply Z.pow_pos_nonneg; lia).
  assert (Hm : (Z.abs z * 2 ^ k =? 0) = false) by (apply Z.eqb_neq; nia).
  rewrite Hm.
  pose proof (scale2_down (Z.abs z) k Hk) as Hv.
  rewrite Qle_bool_false.
  2:{ rewrite Hv. rewrite <- Zlt_Qlt.
      apply Z.lt_trans with (2 ^ 53); [exact Hb|].
      apply Z.pow_lt_mono_r; lia. }
  f_equal. etransitivity; [apply Qred_complete | apply Qred_inject_Z].
  destruct (F64.Qneg (inject_Z z)) eqn:Hn.
  - apply Qneg_spec in Hn. rewrite Hv.
    change 0%Q with (inject_Z 0) in Hn. rewrite <- Zlt_Qlt in Hn.
    rewrite <- inject_Z_opp. rewrite Z.abs_neq by lia.
    rewrite Z.opp_involutive. reflexivity.
  - rewrite Hv.
    assert (Hz0 : 0 <= z).
    { destruct (Z_lt_le_dec z 0) as [H|H]; [|exact H].
      assert (Hn' : F64.Qneg (inject_Z z) = true).
      { apply Qneg_spec. change 0%Q with (inject_Z 0). rewrite <- Zlt_Qlt. exact H. }
      congruence. }
    rewrite Z.abs_eq by lia. reflexivity.
Qed.

(** On the sample operands, sums, differences, products and quotients are
    those of the Standard Library's IEEE 754 operations. *)
Lemma binary64_agrees :
  Forall (fun ab => agrees_on (fst ab) (snd ab)) sample_operands.
Proof.
  unfold sample_operands.
  repeat (constructor; [vm_compute; repeat split|]). constructor.
Qed.

(** ** Floor division by the seconds of a day *)

(** The truncated quotient of a rational by [86400] and what is left. *)
Lemma trunc_day_facts (v : Q) :
  let t := F64.Qtrunc (v / 86400) in
  let r := (v - 86400 * inject_Z t)%Q in
  (Qabs (inject_Z (86400 * t)) <= Qabs v)%Q
  /\ ((r == 0)%Q /\ Qfloor (v / 86400) = t
      \/ (0 < r)%Q /\ Qfloor (v / 86400) = t /\ 0 <= t
      \/ (r < 0)%Q /\ Qfloor (v / 86400) = t - 1 /\ t <= 0).
Proof.
  destruct v as [n d].
  unfold F64.Qtrunc, Qdiv, Qmult, Qinv. simpl Qnum. simpl Qden.
  cbv zeta.
  set (b := Zpos (d * 86400)).
  assert (Hb : b = Zpos d * 86400) by reflexivity.
  assert (Hb0 : 0 < b) by reflexivity.
  rewrite Z.mul_1_r.
  pose proof (Z.quot_rem' n b) as Hqr.
  pose proof (Z.rem_bound_abs n b ltac:(lia)) as Hrb.
  assert (Hsign : 0 <= n /\ 0 <= Z.rem n b \/ n < 0 /\ Z.rem n b <= 0).
  { destruct (Z_lt_le_dec n 0) as [H|H].
    - right. split; [exact H|]. apply Z.rem_nonpos; lia.
    - left. split; [exact H|]. apply Z.rem_nonneg; lia. }
  set (t := Z.quot n b) in *. set (R := Z.rem n b) in *.
  assert (HR : ((n # d) - 86400 * inject_Z t == R # d)%Q).
  { unfold Qeq, Qminus, Qplus, Qopp, Qmult, inject_Z. cbn [Qnum Qden].
    rewrite ?Pos2Z.inj_mul. nia. }
  assert (Hfl : Qfloor (n # d * 86400) = n / b) by reflexivity.
  split.
  - unfold Qle, Qabs, inject_Z. cbn [Qnum Qden].
    destruct Hsign as [[Hn HR0]|[Hn HR0]].
    + assert (Ht : 0 <= t) by nia.
      rewrite (Z.abs_eq n), (Z.abs_eq (86400 * t)) by lia. nia.
    + assert (Ht : t <= 0) by nia.
      rewrite (Z.abs_neq n), (Z.abs_neq (86400 * t)) by lia. nia.
  - rewrite HR, Hfl.
    destruct (Z.compare_spec R 0) as [E|E|E].
    + left. split; [unfold Qeq; simpl; lia|].
      symmetry. apply (Z.div_unique n b t 0); lia.
    + right. right. split; [unfold Qlt; simpl; lia|].
      split; [|nia].
      symmetry. apply (Z.div_unique n b (t - 1) (R + b)); lia.
    + right. left. split; [unfold Qlt; simpl; lia|].
      split; [|nia].
      symmetry. apply (Z.div_unique n b t R); lia.
Qed.

Lemma is_zero_int (n : Z) : n <> 0 -> F64.is_zero (F64.Fin (inject_Z n)) = false.
Proof.
  intros Hn. apply Qeq_bool_false. intros E. unfold Qeq in E. simpl in E. lia.
Qed.

Lemma floor_int (n : Z) :
  n <> 0 -> F64.floor (F64.Fin (inject_Z n)) = F64.Fin (inject_Z n).
Proof.
  intros Hn. unfold F64.floor. rewrite Qfloor_Z.
  destruct (Z.eqb_spec n 0); [contradiction | reflexivity].
Qed.

Lemma sub_self_int (n : Z) :
  F64.sub (F64.Fin (inject_Z n)) (F64.Fin (inject_Z n)) = F64.Zero false.
Proof.
  unfold F64.sub, F64.neg, F64.add, F64.value. apply nearest_zero. ring.
Qed.

Lemma float_int_int (n : Z) : B64.float_int (F64.Fin (inject_Z n)) = B64.Done n.
Proof.
  unfold B64.float_int, F64.Qtrunc. simpl. rewrite Z.quot_1_r. reflexivity.
Qed.

(** The snap of [float_floor_div] leaves an integral quotient alone. *)
Lemma snap_int (n : Z) :
  n <> 0 ->
  (let fl := F64.floor (F64.Fin (inject_Z n)) in
   if F64.ltb F64.half (F64.sub (F64.Fin (inject_Z n)) fl)
   then F64.add fl F64.one else fl) = F64.Fin (inject_Z n).
Proof.
  intros Hn. cbv zeta. rewrite (floor_int n Hn), sub_self_int. reflexivity.
Qed.

Lemma nearest_of_Z (q : Q) (z : Z) :
  (q == inject_Z z)%Q -> Z.abs z < 2 ^ 53 -> F64.nearest q = F64.of_Z z.
Proof.
  intros E Hb. unfold F64.of_Z.
  destruct (Z.eqb_spec z 0) as [E0|E0].
  - apply nearest_zero. rewrite E, E0. reflexivity.
  - apply nearest_int; assumption.
Qed.

Lemma sub_one_of_Z (t : Z) :
  t <= 0 -> Z.abs t < 2 ^ 52 ->
  F64.sub (F64.of_Z t) F64.one = F64.Fin (inject_Z (t - 1)).
Proof.
  intros Ht Hb. unfold F64.of_Z.
  destruct (Z.eqb_spec t 0) as [E0|E0].
  - subst t. reflexivity.
  - unfold F64.sub, F64.neg, F64.one, F64.add, F64.value.
    apply nearest_int; [ | lia | ].
    + unfold Z.sub. rewrite inject_Z_plus. reflexivity.
    + apply Z.le_lt_trans with (Z.abs t + 1); [lia|].
      apply Z.lt_le_trans with (2 ^ 52 + 1); [lia | discriminate].
Qed.

(** [x // 86400] followed by [int] is the exact floor of [x / 86400] on
    every value below [2 ^ 52]. *)
Lemma floordiv_day (v : Q) :
  ~ (v == 0)%Q -> (Qabs v < inject_Z (2 ^ 52))%Q ->
  exists d,
    B64.float_floordiv (F64.Fin v) (F64.Fin 86400) = B64.Done d
    /\ B64.float_int d = B64.Done (Qfloor (v / 86400)).
Proof.
  intros Hv Hb.
  destruct (trunc_day_facts v) as [Habs Hcases]. cbv zeta in Habs, Hcases.
  set (t := F64.Qtrunc (v / 86400)) in *.
  set (r := (v - 86400 * inject_Z t)%Q) in *.
  assert (Ht : Z.abs (86400 * t) < 2 ^ 52).
  { change (Qabs (inject_Z (86400 * t))) with (inject_Z (Z.abs (86400 * t))) in Habs.
    rewrite Zlt_Qlt. lra. }
  assert (Hmod : F64.fmod (F64.Fin v) (F64.Fin 86400)
                 = if Qeq_bool r 0 then F64.Zero (F64.Qneg v) else F64.Fin (Qred r)).
  { unfold F64.fmod.
    change (F64.is_zero (F64.Fin 86400)) with false. cbv iota.
    unfold F64.is_zero. rewrite (Qeq_bool_false _ _ Hv). reflexivity. }
  assert (Hsub : forall q, (q == - r)%Q ->
            F64.nearest (v + q) = F64.of_Z (86400 * t)).
  { intros q Eq. apply nearest_of_Z.
    - rewrite Eq. unfold r. rewrite inject_Z_mult.
      change (inject_Z 86400) with 86400%Q. ring.
    - apply Z.lt_trans with (2 ^ 52); [exact Ht | reflexivity]. }
  assert (Hdiv : F64.div (F64.of_Z (86400 * t)) (F64.Fin 86400) = F64.of_Z t).
  { unfold F64.of_Z.
    destruct (Z.eqb_spec t 0) as [E0|E0]; [rewrite E0; reflexivity|].
    destruct (Z.eqb_spec (86400 * t) 0) as [E1|E1]; [lia|].
    unfold F64.div.
    change (F64.is_zero (F64.Fin 86400)) with false. cbv iota.
    rewrite is_zero_int by lia.
    apply nearest_int; [ | exact E0 | lia].
    unfold F64.value. rewrite inject_Z_mult. change (inject_Z 86400) with 86400%Q.
    field. }
  assert (Hrest : F64.sub (F64.Fin v) (F64.fmod (F64.Fin v) (F64.Fin 86400))
                  = F64.of_Z (86400 * t)).
  { rewrite Hmod. destruct (Qeq_bool r 0) eqn:Er.
    - apply Qeq_bool_iff in Er.
      unfold F64.sub, F64.neg, F64.add, F64.value.
      apply Hsub. rewrite Er. reflexivity.
    - unfold F64.sub, F64.neg, F64.add, F64.value.
      apply Hsub. rewrite Qred_correct. reflexivity. }
  unfold B64.float_floordiv.
  change (F64.is_zero (F64.Fin 86400)) with false. cbv beta iota zeta.
  rewrite Hrest, Hdiv, Hmod.
  change (F64.ltb (F64.Fin 86400) F64.zero) with false.
  destruct Hcases as [[Hr Hfl] | [(Hr & Hfl & Ht0) | (Hr & Hfl & Ht0)]].
  - (* the remainder is zero *)
    rewrite (proj2 (Qeq_bool_iff r 0) Hr).
    assert (Et : t <> 0).
    { intros E0. apply Hv. unfold r in Hr. rewrite E0 in Hr.
      change (inject_Z 0) with 0%Q in Hr. lra. }
    change (F64.is_zero (F64.Zero (F64.Qneg v))) with true. cbv iota.
    unfold F64.of_Z. destruct (Z.eqb_spec t 0) as [E0|_]; [contradiction|].
    rewrite (is_zero_int t Et).
    exists (F64.Fin (inject_Z t)). split.
    + f_equal. apply (snap_int t Et).
    + rewrite float_int_int, Hfl. reflexivity.
  - (* a positive remainder *)
    rewrite (Qeq_bool_false r 0) by lra.
    assert (Hz : F64.is_zero (F64.Fin (Qred r)) = false).
    { apply Qeq_bool_false. rewrite Qred_correct. lra. }
    rewrite Hz.
    assert (Hl : F64.ltb (F64.Fin (Qred r)) F64.zero = false).
    { unfold F64.ltb, F64.zero, F64.value. rewrite Qle_bool_true; [reflexivity|].
      rewrite Qred_correct. lra. }
    rewrite Hl. cbn [Bool.eqb negb].
    unfold F64.of_Z. destruct (Z.eqb_spec t 0) as [E0|E0].
    + change (F64.is_zero F64.zero) with true. cbv iota.
      eexists. split; [reflexivity|]. rewrite Hfl, E0. reflexivity.
    + rewrite (is_zero_int t E0).
      exists (F64.Fin (inject_Z t)). split.
      * f_equal. apply (snap_int t E0).
      * rewrite float_int_int, Hfl. reflexivity.
  - (* a negative remainder: one is taken off the quotient *)
    rewrite (Qeq_bool_false r 0) by lra.
    assert (Hz : F64.is_zero (F64.Fin (Qred r)) = false).
    { apply Qeq_bool_false. rewrite Qred_correct. lra. }
    rewrite Hz.
    assert (Hl : F64.ltb (F64.Fin (Qred r)) F64.zero = true).
    { unfold F64.ltb, F64.zero, F64.value. rewrite Qle_bool_false; [reflexivity|].
      rewrite Qred_correct. lra. }
    rewrite Hl. cbn [Bool.eqb negb].
    rewrite sub_one_of_Z by lia.
    assert (Et : t - 1 <> 0) by lia.
    rewrite (is_zero_int _ Et).
    exists (F64.Fin (inject_Z (t - 1))). split.
    + f_equal. apply (snap_int _ Et).
    + rewrite float_int_int, Hfl. reflexivity.
Qed.

(** ** The seconds of a stay *)

Lemma Qfloor_unique (x : Q) (k : Z) :
  (inject_Z k <= x)%Q -> (x < inject_Z (k + 1))%Q -> Qfloor x = k.
Proof.
  intros Hlo Hhi.
  pose proof (Qfloor_le x) as H1. pose proof (Qlt_floor x) as H2.
  assert (A : k < Qfloor x + 1) by (rewrite Zlt_Qlt; lra).
  assert (B : Qfloor x < k + 1) by (rewrite Zlt_Qlt; lra).
  lia.
Qed.

(** [total_seconds] within that span: a mantissa [m] over a power of two
    [pp] of at least [2 ^ 19], within half a unit of the exact quotient. *)
Lemma total_seconds_near (delta : Z) :
  delta <> 0 -> Z.abs delta < exact_span ->
  exists (m : Z) (pp : positive),
    524288 <= Zpos pp
    /\ 0 < m
    /\ 2 * m * 1000000 <= 2 * Z.abs delta * Zpos pp + 1000000
    /\ 2 * Z.abs delta * Zpos pp - 1000000 <= 2 * m * 1000000
    /\ B64.total_seconds delta
       = B64.Done (F64.Fin (Qred (if delta <? 0 then - (m # pp) else m # pp)%Q)).
Proof.
  intros H0 Hb. unfold exact_span in Hb.
  unfold B64.total_seconds, F64.nearest.
  set (q := Qred (delta # 1000000)).
  assert (Eq : (q == delta # 1000000)%Q) by apply Qred_correct.
  assert (Hq0 : ~ (q == 0)%Q).
  { rewrite Eq. unfold Qeq. simpl. lia. }
  rewrite (Qeq_bool_false _ _ Hq0).
  assert (Ea : (Qabs q == Z.abs delta # 1000000)%Q).
  { rewrite Eq. reflexivity. }
  assert (Hneg : F64.Qneg q = (delta <? 0)).
  { destruct (Z.ltb_spec delta 0) as [H|H].
    - apply Qneg_spec. rewrite Eq. unfold Qlt. simpl. lia.
    - destruct (F64.Qneg q) eqn:E; [|reflexivity].
      apply Qneg_spec in E. rewrite Eq in E. unfold Qlt in E. simpl in E. lia. }
  assert (He : F64.ilog2 (Qabs q) <= 33).
  { unfold F64.ilog2. destruct (Qle_bool 1 (Qabs q)) eqn:E1.
    - apply Qle_bool_iff in E1.
      assert (Hf1 : 1 <= Qfloor (Qabs q)).
      { change 1 with (Qfloor 1) at 1. apply Qfloor_resp_le. exact E1. }
      assert (Hf2 : Qfloor (Qabs q) < 2 ^ 34).
      { rewrite Zlt_Qlt. apply Qle_lt_trans with (Qabs q); [apply Qfloor_le|].
        rewrite Ea. unfold Qlt. simpl. lia. }
      assert (Z.log2 (Qfloor (Qabs q)) < 34) by (apply Z.log2_lt_pow2; lia).
      lia.
    - pose proof (Z.log2_up_nonneg (Qceiling (/ Qabs q))). lia. }
  pose proof (Z.le_max_r (F64.ilog2 (Qabs q) - 52) (-1074)) as Hs1.
  assert (Hs2 : Z.max (F64.ilog2 (Qabs q) - 52) (-1074) <= -19) by lia.
  destruct (Z.max (F64.ilog2 (Qabs q) - 52) (-1074)) as [|p|p] eqn:Es; try lia.
  cbv zeta. simpl Z.opp. unfold F64.scale2.
  rewrite <- (Pos2Z.inj_pow 2 p).
  set (pp := (2 ^ p)%positive).
  assert (Hpp : 524288 <= Zpos pp).
  { unfold pp. rewrite Pos2Z.inj_pow. change 524288 with (2 ^ 19).
    apply Z.pow_le_mono_r; lia. }
  assert (Ey : (Qabs q * inject_Z (Zpos pp) == (Z.abs delta * Zpos pp) # 1000000)%Q).
  { rewrite Ea. unfold Qeq, Qmult, inject_Z. simpl. lia. }
  rewrite (round_comp _ _ Ey).
  destruct (round_frac_bounds (Z.abs delta * Zpos pp) 1000000) as [Hhi Hlo].
  set (m := Py.round (Z.abs delta * Zpos pp # 1000000)) in *.
  assert (Hm : 0 < m) by nia.
  exists m, pp.
  split; [exact Hpp|]. split; [exact Hm|]. split; [lia|]. split; [lia|].
  destruct (Z.eqb_spec m 0) as [E|_]; [lia|].
  rewrite Hneg.
  assert (Ev : (inject_Z m / inject_Z (Zpos pp) == m # pp)%Q).
  { unfold Qeq, Qdiv, Qmult, Qinv, inject_Z. simpl. lia. }
  rewrite Qle_bool_false.
  2:{ rewrite Ev. unfold Qlt. cbn [Qnum Qden inject_Z].
      assert (m < 2 ^ 1024 * Zpos pp); [|lia].
      apply Z.lt_le_trans with (2 ^ 35 * Zpos pp); [nia|].
      apply Z.mul_le_mono_nonneg_r; [lia | discriminate]. }
  do 2 f_equal. apply Qred_complete.
  destruct (delta <? 0); rewrite Ev; reflexivity.
Qed.

(** Within the span, the rounding of [total_seconds] crosses no day
    boundary: the nights are those of the exact elapsed days. *)
Lemma stay_nights_exact (delta : Z) :
  Z.abs delta < exact_span ->
  B64.stay_nights delta = B64.Done (Z.max 1 (delta / 86400000000 + 1)).
Proof.
  intros Hb.
  destruct (Z.eq_dec delta 0) as [E0|E0]; [subst delta; reflexivity|].
  destruct (total_seconds_near delta E0 Hb) as (m & pp & Hpp & Hm & Hhi & Hlo & Hs).
  unfold exact_span in Hb.
  unfold B64.stay_nights. rewrite Hs. cbn [B64.and_then].
  set (v := Qred (if delta <? 0 then - (m # pp) else m # pp)%Q) in *.
  assert (Ev : (v == if delta <? 0 then - (m # pp) else m # pp)%Q)
    by apply Qred_correct.
  assert (Hv0 : ~ (v == 0)%Q).
  { rewrite Ev. destruct (delta <? 0); unfold Qeq; simpl; lia. }
  assert (Hv52 : (Qabs v < inject_Z (2 ^ 52))%Q).
  { rewrite Ev. destruct (delta <? 0); [rewrite Qabs_opp|];
      (rewrite Qabs_pos; [|unfold Qle; simpl; lia]);
      unfold Qlt; cbn [Qnum Qden inject_Z];
      (assert (m < 2 ^ 35 * Zpos pp) by nia);
      (assert (2 ^ 35 * Zpos pp <= 2 ^ 52 * Zpos pp)
         by (apply Z.mul_le_mono_nonneg_r; [lia | discriminate])); lia. }
  destruct (floordiv_day v Hv0 Hv52) as (d & Hd & Hi).
  rewrite Hd. cbn [B64.and_then]. rewrite Hi. cbn [B64.and_then].
  f_equal.
  assert (Efl : Qfloor (v / 86400)
                = Qfloor ((if delta <? 0 then - (m # pp) else m # pp) / 86400)%Q).
  { apply Qfloor_comp. rewrite Ev. reflexivity. }
  rewrite Efl. clear Efl.
  destruct (Z.ltb_spec delta 0) as [Hd0|Hd0].
  - (* the start lies after the reading of the clock *)
    assert (H1 : Qfloor (- (m # pp) / 86400) <= -1).
    { assert (Qfloor (- (m # pp) / 86400) < 0); [|lia].
      rewrite Zlt_Qlt.
      apply Qle_lt_trans with (- (m # pp) / 86400)%Q; [apply Qfloor_le|].
      unfold Qlt, Qdiv, Qmult, Qinv, Qopp. simpl. lia. }
    assert (H2 : delta / 86400000000 <= -1).
    { assert (delta / 86400000000 < 0); [|lia].
      apply Z.div_lt_upper_bound; lia. }
    lia.
  - f_equal. f_equal.
    set (k := delta / 86400000000).
    assert (Hk : 86400000000 * k <= delta < 86400000000 * (k + 1)).
    { unfold k. pose proof (Z.mul_div_le delta 86400000000 ltac:(lia)).
      pose proof (Z.mul_succ_div_gt delta 86400000000 ltac:(lia)). lia. }
    assert (Hk0 : 0 <= k) by (unfold k; apply Z.div_pos; lia).
    rewrite Z.abs_eq in Hhi, Hlo by lia.
    apply Qfloor_unique.
    + unfold Qle, Qdiv, Qmult, Qinv, inject_Z. cbn [Qnum Qden].
      rewrite ?Pos2Z.inj_mul. nia.
    + unfold Qlt, Qdiv, Qmult, Qinv, inject_Z. cbn [Qnum Qden].
      rewrite ?Pos2Z.inj_mul. nia.
Qed.

(** ** The checkout over binary64 amounts, step by step *)

Section Checkout64.

Variable python : B64.release.
Variable fromisoformat : string -> option datetime.

Lemma start_of64_done (c : doc B64.Checkin.t) (w : B64.world) :
  exists start w1,
    B64.start_of fromisoformat c w = (B64.Done start, w1)
    /\ (w1 = w
        \/ w1 = B64.tick w
           /\ start = mk_datetime (B64.clock w (B64.ticks w)) true).
Proof.
  unfold B64.start_of.
  destruct (ts_or (B64.Checkin.createdAt (fields c)) (created_at c)) as [|s|d].
  - destruct (fromisoformat "None") as [d|].
    + exists d, w. split; [reflexivity | left; reflexivity].
    + eexists _, _. split; [reflexivity | right; split; reflexivity].
  - destruct (fromisoformat s) as [d|].
    + exists d, w. split; [reflexivity | left; reflexivity].
    + eexists _, _. split; [reflexivity | right; split; reflexivity].
  - exists d, w. split; [reflexivity | left; reflexivity].
Qed.

Lemma start_of64_frame (c : doc B64.Checkin.t) (w w1 : B64.world)
    (r : B64.outcome datetime) :
  B64.start_of fromisoformat c w = (r, w1) ->
  B64.db w1 = B64.db w /\ B64.clock w1 = B64.clock w
  /\ B64.entropy w1 = B64.entropy w /\ B64.draws w1 = B64.draws w.
Proof.
  intros E.
  destruct (start_of64_done c w) as (start & w2 & E2 & [->| [-> _]]);
    rewrite E2 in E; inversion E; subst; simpl; repeat split; reflexivity.
Qed.

(** A checkout whose stay is found, in one equation. *)
Lemma checkout64_run (req : CheckoutRequest.t) (w w1 : B64.world)
    (c : doc B64.Checkin.t) (start : datetime) :
  find (B64.active_stay (CheckoutRequest.room req) (CheckoutRequest.phone req))
      (B64.checkin (B64.db w)) = Some c ->
  B64.start_of fromisoformat c w = (B64.Done start, w1) ->
  B64.create_final_bill python fromisoformat req w =
    if aware start then
      let orders := filter (B64.unpaid_inhouse (CheckoutRequest.room req))
            (B64.order (B64.db w1)) in
      match
        checkout_bill64 python c orders
          (B64.clock w1 (B64.ticks w1) - micros start)
          (B64.entropy w1 (B64.draws w1) mod 2 ^ 32)%N
          (mk_datetime (B64.clock w1 (1 + B64.ticks w1)%nat) true)
      with
      | B64.Done b =>
          (B64.Done (B64.Bill.id b),
           B64.mk_world
             (checked_out_db64 (B64.db w1) c orders b
                (mk_datetime (B64.clock w1 (2 + B64.ticks w1)%nat) true)
                (mk_datetime (B64.clock w1 (3 + B64.ticks w1)%nat) true))
             (B64.clock w1) (4 + B64.ticks w1)%nat (B64.entropy w1)
             (S (B64.draws w1)))
      | B64.HTTPException code detail =>
          (B64.HTTPException code detail, B64.tick w1)
      | B64.Uncaught e => (B64.Uncaught e, B64.tick w1)
      end
    else (B64.Uncaught B64.TypeError, B64.tick w1).
Proof.
  intros Hc Hs.
  unfold B64.create_final_bill, B64.bind at 1, B64.find_one, B64.bind at 1,
    B64.get_db, B64.ret.
  cbv beta iota.
  change (B64.docs B64.checkin_c (B64.db w)) with (B64.checkin (B64.db w)).
  rewrite Hc. unfold B64.bind at 1. rewrite Hs.
  unfold checkout_bill64. cbv zeta.
  unfold B64.bind, B64.now, B64.sub_datetime, B64.lift, B64.find_all,
    B64.get_db, B64.ret, B64.throw.
  cbv beta iota. cbn [aware micros].
  destruct (aware start) eqn:Ha; cbn [Bool.eqb]; [|reflexivity].
  cbv beta iota.
  destruct (B64.stay_nights (B64.clock w1 (B64.ticks w1) - micros start))
    as [nights|code detail|e]; cbn [B64.and_then]; try reflexivity.
  destruct (B64.int_mul_float nights (B64.Checkin.rate (fields c)))
    as [room_charges|code detail|e]; cbn [B64.and_then]; try reflexivity.
  unfold B64.bind. cbv beta iota.
  change (B64.docs B64.order_c (B64.db (B64.tick w1)))
    with (B64.order (B64.db w1)).
  destruct (B64.float_round _) as [tax|code detail|e];
    cbn [B64.and_then]; try reflexivity.
  destruct (B64.float_of_int tax) as [tax_f|code detail|e];
    cbn [B64.and_then]; reflexivity.
Qed.

(** A checkout whose stay is not found. *)
Lemma checkout64_missing (req : CheckoutRequest.t) (w : B64.world) :
  find (B64.active_stay (CheckoutRequest.room req) (CheckoutRequest.phone req))
      (B64.checkin (B64.db w)) = None ->
  B64.create_final_bill python fromisoformat req w
  = (B64.HTTPException 404 "Active check-in not found", w).
Proof.
  intros Hc.
  unfold B64.create_final_bill, B64.bind at 1, B64.find_one, B64.bind at 1,
    B64.get_db, B64.ret.
  cbv beta iota.
  change (B64.docs B64.checkin_c (B64.db w)) with (B64.checkin (B64.db w)).
  rewrite Hc. reflexivity.
Qed.

End Checkout64.

(** ** The checkout over binary64 amounts: nights, tax and total *)

Lemma checkout_bill64_inv (python : B64.release) (c : doc B64.Checkin.t)
    (orders : list (doc B64.Order.t)) (delta : timedelta) (r : N)
    (tb : datetime) (b : B64.Bill.t) :
  checkout_bill64 python c orders delta r tb = B64.Done b ->
  exists nights room_charges tax tax_f,
    B64.stay_nights delta = B64.Done nights
    /\ B64.int_mul_float nights (B64.Checkin.rate (fields c))
       = B64.Done room_charges
    /\ (let food_total :=
          B64.sum python (map (fun o => B64.Order.total (fields o)) orders) in
        let subtotal := F64.add room_charges food_total in
        B64.float_round (F64.mul subtotal B64.tax_rate) = B64.Done tax
        /\ B64.float_of_int tax = B64.Done tax_f
        /\ b = B64.Bill.mk ("BILL-" ++ hex_upper 8 r)
                 (B64.Checkin.name (fields c)) (B64.Checkin.phone (fields c))
                 (B64.Checkin.room (fields c)) nights room_charges food_total
                 (B64.Checkin.advance (fields c)) tax_f
                 (F64.sub (F64.add subtotal tax_f)
                    (B64.Checkin.advance (fields c)))
                 "Unpaid" "Cash" (PDatetime tb)).
Proof.
  unfold checkout_bill64. cbv zeta. intros H.
  destruct (B64.stay_nights delta) as [nights| |] eqn:E1; try discriminate.
  cbn [B64.and_then] in H.
  destruct (B64.int_mul_float nights _) as [rc| |] eqn:E2; try discriminate.
  cbn [B64.and_then] in H.
  destruct (B64.float_round _) as [tax| |] eqn:E3; try discriminate.
  cbn [B64.and_then] in H.
  destruct (B64.float_of_int tax) as [tax_f| |] eqn:E4; try discriminate.
  cbn [B64.and_then] in H. inversion H.
  exists nights, rc, tax, tax_f.
  split; [reflexivity|]. split; [exact E2|].
  split; [exact E3|]. split; [exact E4 | reflexivity].
Qed.

Lemma float_round_near (x : F64.t) (t : Z) :
  B64.float_round x = B64.Done t ->
  (Qabs (inject_Z t - F64.value x) <= 1 # 2)%Q
  /\ ((F64.value x - inject_Z (Qfloor (F64.value x)) == 1 # 2)%Q ->
      Z.even t = true)
  /\ F64.is_finite x = true.
Proof.
  destruct x as [s|q|s|]; intros H; inversion H; subst.
  - split; [|split; [|reflexivity]].
    + apply Qle_bool_iff. reflexivity.
    + intros _. reflexivity.
  - split; [apply round_nearest|]. split; [apply round_tie_even | reflexivity].
Qed.

Section CheckoutProperties64.

Variable python : B64.release.
Variable fromisoformat : string -> option datetime.

(** A checkout that answers with a bill identifier went all the way. *)
Lemma checkout64_done (req : CheckoutRequest.t) (w w' : B64.world)
    (bill_id : string) :
  B64.create_final_bill python fromisoformat req w = (B64.Done bill_id, w') ->
  exists c start w1 b,
    find (B64.active_stay (CheckoutRequest.room req) (CheckoutRequest.phone req))
        (B64.checkin (B64.db w)) = Some c
    /\ B64.start_of fromisoformat c w = (B64.Done start, w1)
    /\ aware start = true
    /\ let orders := filter (B64.unpaid_inhouse (CheckoutRequest.room req))
          (B64.order (B64.db w)) in
       checkout_bill64 python c orders
         (B64.clock w (B64.ticks w1) - micros start)
         (B64.entropy w (B64.draws w) mod 2 ^ 32)%N
         (mk_datetime (B64.clock w (1 + B64.ticks w1)%nat) true) = B64.Done b
       /\ bill_id = B64.Bill.id b
       /\ B64.db w' =
          checked_out_db64 (B64.db w) c orders b
            (mk_datetime (B64.clock w (2 + B64.ticks w1)%nat) true)
            (mk_datetime (B64.clock w (3 + B64.ticks w1)%nat) true).
Proof.
  intros Hrun.
  destruct (find (B64.active_stay (CheckoutRequest.room req)
                    (CheckoutRequest.phone req)) (B64.checkin (B64.db w)))
    as [c|] eqn:Hc.
  - destruct (start_of64_done fromisoformat c w) as (start & w1 & Hs & _).
    rewrite (checkout64_run python fromisoformat req w w1 c start Hc Hs) in Hrun.
    destruct (start_of64_frame fromisoformat c w w1 _ Hs)
      as (Hdb & Hclock & Hent & Hdraws).
    destruct (aware start) eqn:Ha; [|discriminate].
    cbv zeta in Hrun.
    destruct (checkout_bill64 _ _ _ _ _ _) as [b| |] eqn:Hb; try discriminate.
    inversion Hrun as [[Hid Hw]].
    rewrite Hdb, Hclock, Hent, Hdraws in Hb.
    exists c, start, w1, b.
    split; [reflexivity|]. split; [exact Hs|]. split; [exact Ha|].
    cbv zeta. split; [exact Hb|]. split; [reflexivity|].
    cbn [B64.db]. rewrite Hdb, Hclock. reflexivity.
  - rewrite (checkout64_missing python fromisoformat req w Hc) in Hrun.
    discriminate.
Qed.

(** C2: on every successful checkout the bill's nights are
    [max(1, int(S // 86400) + 1)], with [S] the binary64 nearest to the
    seconds from [start] to [now]; [start] is what the handler resolved from
    the stay's creation stamp (the datetime itself, or what its text parses
    to) and [now] the reading of the clock that follows.  The nights are at least 1 on every input.  When [start] and
    [now] are less than [2 ^ 34] seconds apart, the rounding crosses no day
    boundary: the nights are [max(1, floor(days from start to now) + 1)],
    and 1 when [start] lies after [now]. *)
Theorem checkout_nights (req : CheckoutRequest.t) (w w' : B64.world)
    (bill_id : string) :
  B64.create_final_bill python fromisoformat req w = (B64.Done bill_id, w') ->
  exists c start w1 b,
    find (B64.active_stay (CheckoutRequest.room req) (CheckoutRequest.phone req))
        (B64.checkin (B64.db w)) = Some c
    /\ B64.start_of fromisoformat c w = (B64.Done start, w1)
    /\ (forall d, B64.Checkin.createdAt (fields c) = PDatetime d -> start = d)
    /\ (forall s d, B64.Checkin.createdAt (fields c) = PStr s ->
                    s <> EmptyString -> fromisoformat s = Some d -> start = d)
    /\ B64.bill (B64.db w') = B64.bill (B64.db w) ++ [b]
    /\ B64.Bill.id (fields b) = bill_id
    /\ (let now := B64.clock w (B64.ticks w1) in
        B64.stay_nights (now - micros start)
        = B64.Done (B64.Bill.nights (fields b))
        /\ 1 <= B64.Bill.nights (fields b)
        /\ (Z.abs (now - micros start) < exact_span ->
            B64.Bill.nights (fields b)
            = Z.max 1 (Qfloor (elapsed_days now start) + 1)
            /\ (now < micros start -> B64.Bill.nights (fields b) = 1))).
Proof.
  intros Hrun.
  destruct (checkout64_done req w w' bill_id Hrun)
    as (c & start & w1 & b & Hc & Hs & Ha & Hb & Hid & Hdb).
  destruct (checkout_bill64_inv _ _ _ _ _ _ _ Hb)
    as (nights & rc & tax & tax_f & Hn & _ & _ & _ & ->).
  exists c, start, w1. eexists.
  split; [exact Hc|]. split; [exact Hs|].
  split.
  { intros d Hd. unfold B64.start_of, ts_or in Hs. rewrite Hd in Hs.
    inversion Hs. reflexivity. }
  split.
  { intros s d Hd Hne Hp. unfold B64.start_of, ts_or, ts_truthy in Hs.
    rewrite Hd in Hs.
    destruct (String.eqb_spec s "") as [H|_]; [contradiction|].
    cbn [negb] in Hs. rewrite Hp in Hs. inversion Hs. reflexivity. }
  rewrite Hdb.
  split; [reflexivity|]. split; [symmetry; exact Hid|].
  cbn [fields B64.Bill.nights]. cbv zeta.
  split; [exact Hn|].
  assert (H1 : 1 <= nights).
  { unfold B64.stay_nights in Hn.
    destruct (B64.total_seconds _) as [s| |]; try discriminate.
    cbn [B64.and_then] in Hn.
    destruct (B64.float_floordiv _ _) as [d| |]; try discriminate.
    cbn [B64.and_then] in Hn.
    destruct (B64.float_int _) as [n| |]; try discriminate.
    cbn [B64.and_then] in Hn. inversion Hn. apply Z.le_max_l. }
  split; [exact H1|].
  intros Hspan. rewrite (stay_nights_exact _ Hspan) in Hn.
  inversion Hn as [Hn']. clear Hn.
  split; [reflexivity|].
  intros Hfuture.
  assert (Hneg : (B64.clock w (B64.ticks w1) - micros start) / 86400000000 < 0).
  { apply Z.div_lt_upper_bound; lia. }
  lia.
Qed.

(** C3: on every successful checkout the bill's tax is [round(p)], where
    [p] is the binary64 product of the binary64 sum of roomCharges and
    foodTotal with the binary64 nearest to 0.12: [p] is finite, the tax is
    the integer nearest to the value of [p], at most half a unit away and
    even on a tie.  The bill's total is the binary64 result of
    [(roomCharges + foodTotal) + tax - advance], each operation rounded,
    with the advance of the stay. *)
Theorem checkout_tax_total (req : CheckoutRequest.t) (w w' : B64.world)
    (bill_id : string) :
  B64.create_final_bill python fromisoformat req w = (B64.Done bill_id, w') ->
  exists c b t,
    find (B64.active_stay (CheckoutRequest.room req) (CheckoutRequest.phone req))
        (B64.checkin (B64.db w)) = Some c
    /\ B64.bill (B64.db w') = B64.bill (B64.db w) ++ [b]
    /\ B64.Bill.id (fields b) = bill_id
    /\ let subtotal :=
         F64.add (B64.Bill.roomCharges (fields b)) (B64.Bill.foodTotal (fields b)) in
       let p := F64.mul subtotal (F64.nearest (12 # 100)) in
       F64.is_finite p = true
       /\ t = Py.round (F64.value p)
       /\ B64.float_of_int t = B64.Done (B64.Bill.tax (fields b))
       /\ (Z.abs t < 2 ^ 53 -> B64.Bill.tax (fields b) = F64.of_Z t)
       /\ (Qabs (inject_Z t - F64.value p) <= 1 # 2)%Q
       /\ ((F64.value p - inject_Z (Qfloor (F64.value p)) == 1 # 2)%Q ->
           Z.even t = true)
       /\ B64.Bill.total (fields b)
          = F64.sub (F64.add subtotal (B64.Bill.tax (fields b)))
              (B64.Checkin.advance (fields c))
       /\ B64.Bill.advance (fields b) = B64.Checkin.advance (fields c).
Proof.
  intros Hrun.
  destruct (checkout64_done req w w' bill_id Hrun)
    as (c & start & w1 & b & Hc & Hs & Ha & Hb & Hid & Hdb).
  destruct (checkout_bill64_inv _ _ _ _ _ _ _ Hb)
    as (nights & rc & tax & tax_f & _ & _ & Hrest).
  cbv zeta in Hrest. destruct Hrest as (Ht & Hf & ->).
  exists c. eexists. exists tax.
  split; [exact Hc|]. rewrite Hdb.
  split; [reflexivity|]. split; [symmetry; exact Hid|].
  cbn [fields B64.Bill.tax B64.Bill.total B64.Bill.roomCharges
       B64.Bill.foodTotal B64.Bill.advance].
  cbv zeta. fold B64.tax_rate.
  destruct (float_round_near _ _ Ht) as (Hnear & Htie & Hfin).
  split; [exact Hfin|].
  split.
  { destruct (F64.mul _ _) as [s|q|s|]; simpl in Ht |- *;
      inversion Ht; reflexivity. }
  split; [exact Hf|].
  split.
  { intros Hsmall. unfold B64.float_of_int in Hf.
    rewrite (nearest_of_Z (inject_Z tax) tax (Qeq_refl _) Hsmall) in Hf.
    unfold F64.of_Z in *. destruct (tax =? 0); inversion Hf; reflexivity. }
  split; [exact Hnear|]. split; [exact Htie|].
  split; reflexivity.
Qed.

End CheckoutProperties64.

(** ** Orders over binary64 amounts *)

Lemma stamped64_done (v : tsval) (w : B64.world) :
  exists v' w1,
    B64.stamped v w = (B64.Done v', w1) /\ B64.db w1 = B64.db w
    /\ (ts_truthy v = true -> v' = v)
    /\ (ts_truthy v = false ->
        v' = PDatetime (mk_datetime (B64.clock w (B64.ticks w)) true)).
Proof.
  unfold B64.stamped. destruct (ts_truthy v).
  - exists v, w. repeat split; try reflexivity. discriminate.
  - eexists _, _. unfold B64.bind, B64.now, B64.ret. cbv beta iota.
    split; [reflexivity|]. split; [reflexivity|].
    split; [discriminate | reflexivity].
Qed.

Lemma float_of_int_fits (z : Z) :
  fits_float z = true ->
  B64.float_of_int z = B64.Done (F64.nearest (inject_Z z)).
Proof.
  unfold fits_float, B64.float_of_int.
  destruct (F64.nearest (inject_Z z)); try reflexivity. discriminate.
Qed.

Lemma float_of_int_overflow (z : Z) :
  fits_float z = false ->
  B64.float_of_int z = B64.Uncaught B64.OverflowError.
Proof.
  unfold fits_float, B64.float_of_int.
  destruct (F64.nearest (inject_Z z)); try discriminate. reflexivity.
Qed.

(** Every integer below [2 ^ 53] fits a float, as itself. *)
Lemma fits_float_small (z : Z) : Z.abs z < 2 ^ 53 -> fits_float z = true.
Proof.
  intros Hz. unfold fits_float, B64.float_of_int.
  rewrite (nearest_of_Z (inject_Z z) z (Qeq_refl _) Hz).
  unfold F64.of_Z. destruct (z =? 0); reflexivity.
Qed.

(** The products of the items: all of them, or [OverflowError] at the first
    quantity that does not fit. *)
Lemma products_spec (items : list B64.OrderItem.t) :
  B64.products items =
    if forallb (fun it => fits_float (B64.OrderItem.qty it)) items
    then B64.Done (map item_amount items)
    else B64.Uncaught B64.OverflowError.
Proof.
  induction items as [|it items IH]; [reflexivity|].
  cbn [B64.products forallb map]. unfold B64.int_mul_float.
  destruct (fits_float (B64.OrderItem.qty it)) eqn:E.
  - rewrite (float_of_int_fits _ E). cbn [B64.and_then andb]. rewrite IH.
    destruct (forallb _ items); reflexivity.
  - rewrite (float_of_int_overflow _ E). reflexivity.
Qed.

(** The two summations differ, down to the zero test: [1e16 + 1.0 - 1e16]
    is [0.0] added one by one and [1.0] with the compensation. *)
Lemma sum_depends_on_release :
  B64.sum B64.Upto311
    [decimal 10000000000000000 1; decimal 1 1; decimal (-10000000000000000) 1]
  = F64.zero
  /\ B64.sum B64.From312
       [decimal 10000000000000000 1; decimal 1 1;
        decimal (-10000000000000000) 1]
     = F64.Fin 1.
Proof. split; vm_compute; reflexivity. Qed.

Section Orders64.

Variable python : B64.release.

(** What an order is stored as, or the exception that stops the handler. *)
Lemma create_order64_run (payload : B64.Order.t) (w w1 : B64.world)
    (v : tsval) :
  B64.stamped (B64.Order.createdAt payload) w = (B64.Done v, w1) ->
  B64.db w1 = B64.db w ->
  B64.create_order python payload w =
    let stored data :=
      (B64.Done (B64.next_oid (B64.db w)),
       B64.mk_world
         (B64.mk_db (B64.checkin (B64.db w))
            (B64.order (B64.db w)
             ++ [mk_doc (B64.next_oid (B64.db w)) data PNone PNone])
            (B64.bill (B64.db w)) (N.succ (B64.next_oid (B64.db w))))
         (B64.clock w1) (B64.ticks w1) (B64.entropy w1) (B64.draws w1)) in
    match B64.Order.items payload with
    | [] => stored (B64.Order.set_createdAt v payload)
    | _ :: _ =>
        if forallb (fun it => fits_float (B64.OrderItem.qty it))
             (B64.Order.items payload)
        then stored (B64.Order.set_total (stored_total python payload)
                       (B64.Order.set_createdAt v payload))
        else (B64.Uncaught B64.OverflowError, w1)
    end.
Proof.
  intros Hs Hdb.
  unfold B64.create_order, B64.bind at 1. rewrite Hs.
  cbn [B64.Order.items B64.Order.set_createdAt B64.Order.total].
  destruct (B64.Order.items payload) as [|it items] eqn:Ei.
  - unfold B64.create_document, B64.bind, B64.get_db, B64.put_db, B64.ret.
    cbv beta iota zeta. rewrite Hdb. reflexivity.
  - unfold B64.bind at 1, B64.bind at 1, B64.lift.
    rewrite products_spec.
    unfold stored_total. rewrite Ei.
    destruct (forallb _ (it :: items)); [|reflexivity].
    unfold B64.create_document, B64.bind, B64.get_db, B64.put_db, B64.ret.
    cbv beta iota zeta. rewrite Hdb. reflexivity.
Qed.

(** C4: an order with items whose quantities all fit a float is stored
    with the binary64 sum of [qty * price] over the items as its total,
    whatever total the client sent, unless that sum is zero: then the total
    the client sent is stored.  A quantity beyond the range of a float stops
    the handler with [OverflowError], and nothing is stored. *)
Theorem order_total_from_items (payload : B64.Order.t) (w : B64.world) :
  B64.Order.items payload <> [] ->
  let s := B64.sum python (map item_amount (B64.Order.items payload)) in
  (forallb (fun it => fits_float (B64.OrderItem.qty it))
     (B64.Order.items payload) = true ->
   exists w' d,
     B64.create_order python payload w = (B64.Done (_id d), w')
     /\ B64.order (B64.db w') = B64.order (B64.db w) ++ [d]
     /\ B64.Order.items (fields d) = B64.Order.items payload
     /\ (B64.float_truthy s = true -> B64.Order.total (fields d) = s)
     /\ (B64.float_truthy s = false ->
         B64.Order.total (fields d) = B64.Order.total payload))
  /\ (forallb (fun it => fits_float (B64.OrderItem.qty it))
        (B64.Order.items payload) = false ->
      exists w',
        B64.create_order python payload w
        = (B64.Uncaught B64.OverflowError, w')
        /\ B64.db w' = B64.db w).
Proof.
  intros Hne s.
  destruct (stamped64_done (B64.Order.createdAt payload) w)
    as (v & w1 & Hs & Hdb & _).
  rewrite (create_order64_run payload w w1 v Hs Hdb). cbv zeta.
  destruct (B64.Order.items payload) as [|it items] eqn:Ei; [contradiction|].
  split; intros Hfit; rewrite Hfit.
  - eexists _, (mk_doc (B64.next_oid (B64.db w)) _ PNone PNone).
    split; [reflexivity|]. split; [reflexivity|].
    cbn [fields B64.Order.items B64.Order.total B64.Order.set_total
         B64.Order.set_createdAt].
    split; [exact Ei|].
    unfold stored_total. rewrite Ei. fold s.
    split; intros Ht; rewrite Ht; reflexivity.
  - exists w1. split; [reflexivity | exact Hdb].
Qed.

(** An order whose quantities all fit is appended as it was sent. *)
Lemma create_order64_stored (payload : B64.Order.t) (w : B64.world) :
  forallb (fun it => fits_float (B64.OrderItem.qty it))
    (B64.Order.items payload) = true ->
  exists w' d,
    B64.create_order python payload w = (B64.Done (_id d), w')
    /\ _id d = B64.next_oid (B64.db w)
    /\ B64.order (B64.db w') = B64.order (B64.db w) ++ [d]
    /\ B64.checkin (B64.db w') = B64.checkin (B64.db w)
    /\ B64.bill (B64.db w') = B64.bill (B64.db w)
    /\ B64.Order.type (fields d) = B64.Order.type payload
    /\ B64.Order.room (fields d) = B64.Order.room payload
    /\ B64.Order.name (fields d) = B64.Order.name payload
    /\ B64.Order.phone (fields d) = B64.Order.phone payload
    /\ B64.Order.items (fields d) = B64.Order.items payload
    /\ B64.Order.status (fields d) = B64.Order.status payload
    /\ B64.Order.mode (fields d) = B64.Order.mode payload
    /\ B64.Order.synced (fields d) = B64.Order.synced payload
    /\ (B64.Order.items payload = [] ->
        B64.Order.total (fields d) = B64.Order.total payload)
    /\ (ts_truthy (B64.Order.createdAt payload) = true ->
        B64.Order.createdAt (fields d) = B64.Order.createdAt payload)
    /\ (ts_truthy (B64.Order.createdAt payload) = false ->
        B64.Order.createdAt (fields d)
        = PDatetime (mk_datetime (B64.clock w (B64.ticks w)) true)).
Proof.
  intros Hfit.
  destruct (stamped64_done (B64.Order.createdAt payload) w)
    as (v & w1 & Hs & Hdb & Hkept & Hread).
  rewrite (create_order64_run payload w w1 v Hs Hdb). cbv zeta.
  assert (Hdata : exists data,
            (match B64.Order.items payload with
             | [] =>
                 (B64.Done (B64.next_oid (B64.db w)),
                  B64.mk_world
                    (B64.mk_db (B64.checkin (B64.db w))
                       (B64.order (B64.db w)
                        ++ [mk_doc (B64.next_oid (B64.db w))
                              (B64.Order.set_createdAt v payload) PNone PNone])
                       (B64.bill (B64.db w)) (N.succ (B64.next_oid (B64.db w))))
                    (B64.clock w1) (B64.ticks w1) (B64.entropy w1)
                    (B64.draws w1))
             | _ :: _ =>
                 if forallb (fun it => fits_float (B64.OrderItem.qty it))
                      (B64.Order.items payload)
                 then
                   (B64.Done (B64.next_oid (B64.db w)),
                    B64.mk_world
                      (B64.mk_db (B64.checkin (B64.db w))
                         (B64.order (B64.db w)
                          ++ [mk_doc (B64.next_oid (B64.db w))
                                (B64.Order.set_total
                                   (stored_total python payload)
                                   (B64.Order.set_createdAt v payload))
                                PNone PNone])
                         (B64.bill (B64.db w))
                         (N.succ (B64.next_oid (B64.db w))))
                      (B64.clock w1) (B64.ticks w1) (B64.entropy w1)
                      (B64.draws w1))
                 else (B64.Uncaught B64.OverflowError, w1)
             end
             = (B64.Done (B64.next_oid (B64.db w)),
                B64.mk_world
                  (B64.mk_db (B64.checkin (B64.db w))
                     (B64.order (B64.db w)
                      ++ [mk_doc (B64.next_oid (B64.db w)) data PNone PNone])
                     (B64.bill (B64.db w)) (N.succ (B64.next_oid (B64.db w))))
                  (B64.clock w1) (B64.ticks w1) (B64.entropy w1)
                  (B64.draws w1)))
            /\ B64.Order.type data = B64.Order.type payload
            /\ B64.Order.room data = B64.Order.room payload
            /\ B64.Order.name data = B64.Order.name payload
            /\ B64.Order.phone data = B64.Order.phone payload
            /\ B64.Order.items data = B64.Order.items payload
            /\ B64.Order.status data = B64.Order.status payload
            /\ B64.Order.mode data = B64.Order.mode payload
            /\ B64.Order.synced data = B64.Order.synced payload
            /\ (B64.Order.items payload = [] ->
                B64.Order.total data = B64.Order.total payload)
            /\ B64.Order.createdAt data = v).
  { rewrite Hfit. destruct (B64.Order.items payload) eqn:E;
      eexists; (split; [reflexivity|]); simpl; rewrite ?E;
      repeat split; intros H; discriminate H. }
  destruct Hdata as (data & -> & H1 & H2 & H3 & H4 & H5 & H6 & H7 & H8 & H9 & H10).
  eexists _, (mk_doc (B64.next_oid (B64.db w)) data PNone PNone).
  split; [reflexivity|]. split; [reflexivity|]. split; [reflexivity|].
  split; [reflexivity|]. split; [reflexivity|].
  cbn [fields].
  repeat (split; [assumption|]).
  split; [intros Ht; rewrite H10; exact (Hkept Ht)|].
  intros Ht. rewrite H10. exact (Hread Ht).
Qed.

(** X14: an order request asks nothing of the other collections.  Unless a
    quantity of an item is beyond the range of a float, the order is
    appended under the next identifier with the type, room, name, phone,
    items, status, mode and synced flag it came with, its total untouched
    when it has no items, its creation stamp kept when it has one and read
    off the clock when it has none, and check-ins and bills are left alone;
    with such a quantity the request ends in [OverflowError], a response of
    status 500, and the store is as it was. *)
Theorem order_stored_as_sent (payload : B64.Order.t) (w : B64.world) :
  (forallb (fun it => fits_float (B64.OrderItem.qty it))
     (B64.Order.items payload) = true ->
   exists w' d,
     B64.create_order python payload w = (B64.Done (_id d), w')
     /\ _id d = B64.next_oid (B64.db w)
     /\ B64.order (B64.db w') = B64.order (B64.db w) ++ [d]
     /\ B64.checkin (B64.db w') = B64.checkin (B64.db w)
     /\ B64.bill (B64.db w') = B64.bill (B64.db w)
     /\ B64.Order.type (fields d) = B64.Order.type payload
     /\ B64.Order.room (fields d) = B64.Order.room payload
     /\ B64.Order.name (fields d) = B64.Order.name payload
     /\ B64.Order.phone (fields d) = B64.Order.phone payload
     /\ B64.Order.items (fields d) = B64.Order.items payload
     /\ B64.Order.status (fields d) = B64.Order.status payload
     /\ B64.Order.mode (fields d) = B64.Order.mode payload
     /\ B64.Order.synced (fields d) = B64.Order.synced payload
     /\ (B64.Order.items payload = [] ->
         B64.Order.total (fields d) = B64.Order.total payload)
     /\ (ts_truthy (B64.Order.createdAt payload) = true ->
         B64.Order.createdAt (fields d) = B64.Order.createdAt payload)
     /\ (ts_truthy (B64.Order.createdAt payload) = false ->
         B64.Order.createdAt (fields d)
         = PDatetime (mk_datetime (B64.clock w (B64.ticks w)) true)))
  /\ (forallb (fun it => fits_float (B64.OrderItem.qty it))
        (B64.Order.items payload) = false ->
      exists r w',
        B64.create_order python payload w = (r, w')
        /\ r = B64.Uncaught B64.OverflowError
        /\ B64.status_of r = 500%nat
        /\ B64.db w' = B64.db w).
Proof.
  split; [exact (create_order64_stored payload w)|].
  intros Hfit.
  destruct (stamped64_done (B64.Order.createdAt payload) w)
    as (v & w1 & Hs & Hdb & _).
  rewrite (create_order64_run payload w w1 v Hs Hdb). cbv zeta.
  rewrite Hfit.
  destruct (B64.Order.items payload) as [|it items] eqn:Ei;
    [discriminate Hfit|].
  eexists _, w1. split; [reflexivity|].
  split; [reflexivity|]. split; [reflexivity | exact Hdb].
Qed.

End Orders64.

(** ** Validation of an order request *)

Section Validation64.

Variable python : B64.release.
Variable v_datetime : B64.json -> option datetime.
Variable lax_int : B64.json -> option Z.
Variable lax_float : B64.json -> option F64.t.
Variable lax_bool : B64.json -> option bool.

Lemma validate_item_json (it : B64.OrderItem.t) :
  B64.validate_OrderItem lax_int lax_float (item_json it) = Some it.
Proof. destruct it as [n q p]. reflexivity. Qed.

Lemma validate_items_json (items : list B64.OrderItem.t) :
  B64.v_list (B64.validate_OrderItem lax_int lax_float) (map item_json items)
  = Some items.
Proof.
  induction items as [|it items IH]; [reflexivity|].
  cbn [map B64.v_list]. rewrite validate_item_json, IH. reflexivity.
Qed.

Lemma validate_order_json (phone : string) (items : list B64.OrderItem.t) :
  B64.validate_Order v_datetime lax_int lax_float lax_bool
    (order_json phone items)
  = Some (order_of phone items).
Proof.
  unfold B64.validate_Order, order_json, B64.defaulted, B64.required.
  cbn [B64.jget rev app find fst snd option_map String.eqb Ascii.eqb Bool.eqb
       B64.opt_then B64.v_str B64.v_items].
  rewrite validate_items_json. reflexivity.
Qed.

(** C9: validation bounds neither number of an item.  An item whose
    quantity is any JSON integer and whose price is any JSON float, of
    either sign, validates to itself, and a price that is a JSON integer
    within the range of a float is taken as that float; what validation
    accepts is what the body carries.  An order request with a phone and
    any list of such items validates to the order of those items; a
    request that validates is handed to the handler and one that does not
    is refused before the handler runs; and the handler stores the order
    with its items whenever their quantities fit a float. *)
Theorem order_item_validation :
  (forall it,
     B64.validate_OrderItem lax_int lax_float (item_json it) = Some it)
  /\ (forall name qty price,
        fits_float price = true ->
        B64.validate_OrderItem lax_int lax_float
          (B64.JObj [("name"%string, B64.JStr name);
                     ("qty"%string, B64.JInt qty);
                     ("price"%string, B64.JInt price)])
        = Some (B64.OrderItem.mk name qty (F64.nearest (inject_Z price))))
  /\ (forall j it,
        B64.validate_OrderItem lax_int lax_float j = Some it ->
        exists l,
          j = B64.JObj l
          /\ B64.required B64.v_str "name" l = Some (B64.OrderItem.name it)
          /\ B64.required (B64.v_int lax_int) "qty" l
             = Some (B64.OrderItem.qty it)
          /\ B64.required (B64.v_float lax_float) "price" l
             = Some (B64.OrderItem.price it))
  /\ (forall phone items,
        B64.validate_Order v_datetime lax_int lax_float lax_bool
          (order_json phone items)
        = Some (order_of phone items))
  /\ (forall body w,
        B64.post_orders python v_datetime lax_int lax_float lax_bool body w
        = match B64.validate_Order v_datetime lax_int lax_float lax_bool body
          with
          | Some payload => B64.create_order python payload w
          | None => (B64.Uncaught B64.RequestValidationError, w)
          end)
  /\ (forall phone items w,
        forallb (fun it => fits_float (B64.OrderItem.qty it)) items = true ->
        exists w' d,
          B64.post_orders python v_datetime lax_int lax_float lax_bool
            (order_json phone items) w
          = (B64.Done (_id d), w')
          /\ B64.order (B64.db w') = B64.order (B64.db w) ++ [d]
          /\ B64.Order.items (fields d) = items).
Proof.
  split; [exact validate_item_json|].
  split.
  { intros name qty price Hfit. unfold B64.validate_OrderItem, B64.required.
    cbn [B64.jget rev app find fst snd option_map String.eqb Ascii.eqb
         Bool.eqb B64.v_str B64.v_int B64.v_float].
    rewrite (float_of_int_fits price Hfit). reflexivity. }
  split.
  { intros j it H. destruct j as [| | | | |l|l]; try discriminate.
    exists l. unfold B64.validate_OrderItem in H.
    destruct (B64.required B64.v_str "name" l) as [n|]; [|discriminate].
    destruct (B64.required (B64.v_int lax_int) "qty" l) as [z|];
      [|discriminate].
    destruct (B64.required (B64.v_float lax_float) "price" l) as [p|];
      [|discriminate].
    inversion H. auto. }
  split; [exact validate_order_json|].
  split.
  { intros body w. unfold B64.post_orders.
    destruct (B64.validate_Order _ _ _ _ body); reflexivity. }
  intros phone items w Hfit. unfold B64.post_orders.
  rewrite validate_order_json.
  destruct (create_order64_stored python (order_of phone items) w Hfit)
    as (w' & d & Hrun & _ & Hord & _ & _ & _ & _ & _ & _ & Hit & _).
  exists w', d. split; [exact Hrun|]. split; [exact Hord | exact Hit].
Qed.

End Validation64.

(** ** Nights and whole days *)

(** X1: within [2 ^ 34] seconds, a stay of [k] whole days and a remainder
    short of a day is billed [k + 1] nights, so that exactly 24 hours are
    two nights; a start in the future is one night; the nights never go
    down as time goes on.  Whatever the time elapsed, the nights are at
    least one. *)
Theorem nights_by_whole_days (k r delta delta' : Z) :
  (0 <= k -> 0 <= r < 86400000000 -> k * 86400000000 + r < exact_span ->
   B64.stay_nights (k * 86400000000 + r) = B64.Done (k + 1))
  /\ (- exact_span < delta < 0 -> B64.stay_nights delta = B64.Done 1)
  /\ (Z.abs delta < exact_span -> Z.abs delta' < exact_span ->
      delta <= delta' ->
      exists n n',
        B64.stay_nights delta = B64.Done n
        /\ B64.stay_nights delta' = B64.Done n' /\ n <= n')
  /\ (forall n, B64.stay_nights delta = B64.Done n -> 1 <= n).
Proof.
  split; [|split; [|split]].
  - intros Hk Hr Hs.
    rewrite stay_nights_exact by (unfold exact_span in *; lia).
    rewrite Z.div_add_l by lia. rewrite (Z.div_small r) by lia.
    f_equal. lia.
  - intros Hneg.
    rewrite stay_nights_exact by (unfold exact_span in *; lia).
    assert (delta / 86400000000 < 0) by (apply Z.div_lt_upper_bound; lia).
    f_equal. lia.
  - intros Hd Hd' Hle.
    rewrite !stay_nights_exact by assumption.
    eexists _, _. split; [reflexivity|]. split; [reflexivity|].
    assert (delta / 86400000000 <= delta' / 86400000000)
      by (apply Z.div_le_mono; lia).
    lia.
  - intros n Hn. unfold B64.stay_nights in Hn.
    destruct (B64.total_seconds _) as [s| |]; try discriminate.
    cbn [B64.and_then] in Hn.
    destruct (B64.float_floordiv _ _) as [d| |]; try discriminate.
    cbn [B64.and_then] in Hn.
    destruct (B64.float_int _) as [m| |]; try discriminate.
    cbn [B64.and_then] in Hn. inversion Hn. apply Z.le_max_l.
Qed.

Section CheckoutExtras64.

Variable python : B64.release.
Variable fromisoformat : string -> option datetime.

(** X6: a located stay whose creation stamp is of no use (no datetime, no
    text that parses) is billed from the clock.  When the clock moves by
    less than a day between the handler's two readings, the night count is
    one, however long the stay was, and the room charge is the rate.  The
    checkout then either stores a bill of one night, or ends in the
    [OverflowError] or [ValueError] of [round] before anything is written:
    it ends so whenever the taxed amount is an infinity or a NaN, and it
    stores the bill whenever the tax is an integer below [2 ^ 53]. *)
Theorem checkout_unparsed_start (req : CheckoutRequest.t) (w : B64.world)
    (c : doc B64.Checkin.t) :
  find (B64.active_stay (CheckoutRequest.room req) (CheckoutRequest.phone req))
    (B64.checkin (B64.db w)) = Some c ->
  unparsed64 fromisoformat c ->
  - exact_span < B64.clock w (S (B64.ticks w)) - B64.clock w (B64.ticks w)
    < 86400000000 ->
  let room_charges := F64.mul (F64.Fin 1) (B64.Checkin.rate (fields c)) in
  let food_total :=
    B64.sum python
      (map (fun o => B64.Order.total (fields o))
         (filter (B64.unpaid_inhouse (CheckoutRequest.room req))
            (B64.order (B64.db w)))) in
  let p := F64.mul (F64.add room_charges food_total) B64.tax_rate in
  exists r w',
    B64.create_final_bill python fromisoformat req w = (r, w')
    /\ match r with
       | B64.Done bill_id =>
           exists b,
             B64.bill (B64.db w') = B64.bill (B64.db w) ++ [b]
             /\ B64.Bill.id (fields b) = bill_id
             /\ B64.Bill.nights (fields b) = 1
             /\ B64.Bill.roomCharges (fields b) = room_charges
       | B64.Uncaught e =>
           (e = B64.OverflowError \/ e = B64.ValueError)
           /\ B64.db w' = B64.db w
       | B64.HTTPException _ _ => False
       end
    /\ (F64.is_finite p = false -> exists e, r = B64.Uncaught e)
    /\ (forall t, B64.float_round p = B64.Done t -> Z.abs t < 2 ^ 53 ->
        exists bill_id, r = B64.Done bill_id).
Proof.
  intros Hc Hu Hclock room_charges food_total p.
  assert (Hs : B64.start_of fromisoformat c w
               = (B64.Done (mk_datetime (B64.clock w (B64.ticks w)) true),
                  B64.tick w)).
  { unfold unparsed64 in Hu. unfold B64.start_of.
    destruct (ts_or (B64.Checkin.createdAt (fields c)) (created_at c)) as [|s|d];
      [rewrite Hu; reflexivity | rewrite Hu; reflexivity | destruct Hu]. }
  rewrite (checkout64_run python fromisoformat req w (B64.tick w) c _ Hc Hs).
  cbn [aware micros B64.tick B64.clock B64.ticks B64.db B64.entropy B64.draws].
  cbv zeta.
  unfold checkout_bill64. cbv zeta.
  assert (Hn : B64.stay_nights
                 (B64.clock w (S (B64.ticks w)) - B64.clock w (B64.ticks w))
               = B64.Done 1).
  { rewrite stay_nights_exact by (unfold exact_span in *; lia).
    assert ((B64.clock w (S (B64.ticks w)) - B64.clock w (B64.ticks w))
            / 86400000000 < 1)
      by (apply Z.div_lt_upper_bound; lia).
    f_equal. lia. }
  rewrite Hn. cbn [B64.and_then].
  change (B64.int_mul_float 1 (B64.Checkin.rate (fields c)))
    with (B64.Done room_charges).
  cbn [B64.and_then]. fold food_total. fold p.
  destruct (B64.float_round p) as [t| |e] eqn:Ep.
  - cbn [B64.and_then].
    destruct (B64.float_of_int t) as [tf| |e] eqn:Ef.
    + cbn [B64.and_then]. eexists _, _. split; [reflexivity|].
      split.
      { eexists. cbn [B64.db checked_out_db64 B64.bill].
        split; [reflexivity|]. repeat split. }
      split.
      { intros Hfin. destruct p; discriminate. }
      intros t' Ht' _. eexists. reflexivity.
    + unfold B64.float_of_int in Ef.
      destruct (F64.nearest (inject_Z t)); discriminate.
    + cbn [B64.and_then]. eexists _, _. split; [reflexivity|].
      assert (He : e = B64.OverflowError).
      { unfold B64.float_of_int in Ef.
        destruct (F64.nearest (inject_Z t)); inversion Ef; reflexivity. }
      split; [split; [left; exact He | reflexivity]|].
      split; [intros _; eexists; reflexivity|].
      intros t' Ht' Hsmall. inversion Ht'; subst t'.
      rewrite (float_of_int_fits t (fits_float_small t Hsmall)) in Ef.
      discriminate.
  - destruct p; discriminate.
  - cbn [B64.and_then]. eexists _, _. split; [reflexivity|].
    split.
    { split; [|reflexivity].
      destruct p; inversion Ep; [left | right]; reflexivity. }
    split; [intros _; eexists; reflexivity|].
    intros t' Ht'. discriminate.
Qed.

End CheckoutExtras64.

(** ** The claims on the sample store *)

Lemma sample_checkout_runs :
  create_final_bill no_parse sample_checkout sample_world
  = (Done "BILL-DEADBEEF"%string, sample_after).
Proof. vm_compute. reflexivity. Qed.

Lemma checkout_scenario_sample :
  exists bill_id w' b c' o',
    create_final_bill no_parse sample_checkout sample_world = (Done bill_id, w')
    /\ bill (db w') = bill (db sample_world) ++ [b]
    /\ Bill.id (fields b) = bill_id
    /\ Bill.nights (fields b) = 2
    /\ (Bill.roomCharges (fields b) == 2000)%Q
    /\ (Bill.foodTotal (fields b) == 150)%Q
    /\ (Bill.tax (fields b) == 258)%Q
    /\ (Bill.total (fields b) == 2208)%Q
    /\ Bill.status (fields b) = "Unpaid"%string
    /\ find (id_is 2%N) (checkin (db w')) = Some c'
    /\ Checkin.status (fields c') = "Checked-out"%string
    /\ find (id_is 5%N) (order (db w')) = Some o'
    /\ Order.synced (fields o') = Some true
    /\ (NoDup (map _id (checkin sample_db)) ->
        fields c' = Checkin.set_status "Checked-out" sample_stay)
    /\ (NoDup (map _id (order sample_db)) ->
        fields o' = Order.set_synced (Some true) sample_tea).
Proof.
  apply (checkout_scenario no_parse sample_checkout sample_world
           (mk_doc 2%N sample_stay PNone PNone)
           (mk_doc 5%N sample_tea PNone PNone) stay_start);
    try reflexivity.
  left. reflexivity.
Defined.


Lemma checkout_not_found_sample :
  exists r w',
    create_final_bill no_parse
      (CheckoutRequest.mk "102" "9800000002") sample_world = (r, w')
    /\ r = HTTPException 404 "Active check-in not found"
    /\ status_of r = 404%nat
    /\ w' = sample_world
    /\ bill (db w') = bill sample_db
    /\ order (db w') = order sample_db
    /\ checkin (db w') = checkin sample_db.
Proof.
  apply (checkout_not_found no_parse
           (CheckoutRequest.mk "102" "9800000002") sample_world).
  intros d [<-|[<-|[]]] (H1 & H2 & H3); discriminate.
Defined.

Lemma sample_return_runs :
  create_final_bill no_parse sample_second_checkout sample_return
  = (Done "BILL-CAFEBABE"%string, sample_rebilled).
Proof. vm_compute. reflexivity. Qed.

Lemma sample_orders_kept : order (db sample_return) = order (db sample_after).
Proof. vm_compute. reflexivity. Qed.

Lemma checkout_sync_only_sample :
  exists b b2,
    bill (db sample_after) = bill sample_db ++ [b]
    /\ bill (db sample_rebilled) = bill (db sample_return) ++ [b2]
    /\ Bill.foodTotal (fields b2) = Bill.foodTotal (fields b)
    /\ exists ts,
         filter (unpaid_inhouse "101") (order (db sample_after))
         = map (set_doc (Order.set_synced (Some true)) ts)
             (filter (unpaid_inhouse "101") (order sample_db)).
Proof.
  destruct (checkout_sync_only no_parse sample_checkout sample_world
              sample_after "BILL-DEADBEEF" sample_checkout_runs)
    as (ts & b & Hb & _ & Hsel & Hlater).
  destruct (Hlater sample_second_checkout sample_return sample_rebilled
              "BILL-CAFEBABE"%string eq_refl sample_orders_kept sample_return_runs)
    as (b2 & Hb2 & Hfood).
  exists b, b2. split; [exact Hb|]. split; [exact Hb2|].
  split; [exact Hfood|]. exists ts. exact Hsel.
Defined.

Lemma checkin_conflict_sample :
  (exists w',
     create_checkin (sample_arrival "101") sample_world
     = (HTTPException 400 "Room is already occupied", w')
     /\ db w' = sample_db)
  /\ (exists w' d,
        create_checkin (sample_arrival "103") sample_world = (Done 7%N, w')
        /\ checkin (db w') = checkin sample_db ++ [d]
        /\ _id d = 7%N
        /\ Checkin.room (fields d) = "103"%string
        /\ Checkin.status (fields d) = "Occupied"%string).
Proof.
  split.
  - destruct (checkin_conflict (sample_arrival "101") sample_world)
      as (r & w' & Hrun & Hocc & _).
    destruct Hocc as (Hr & _ & Hdb).
    { exists (mk_doc 2%N sample_stay PNone PNone).
      split; [right; left; reflexivity | split; reflexivity]. }
    exists w'. split; [rewrite Hrun, Hr; reflexivity | exact Hdb].
  - destruct (checkin_conflict (sample_arrival "103") sample_world)
      as (r & w' & Hrun & _ & Hfree).
    destruct Hfree as (v & Hr & _ & Hdb).
    { intros (d & [<-|[<-|[]]] & Hroom & _); discriminate Hroom. }
    exists w'. eexists.
    split; [rewrite Hrun, Hr; reflexivity|].
    rewrite Hdb. repeat split.
Defined.

Lemma pay_bill_sample :
  (exists w',
     mark_bill_paid "BILL-0000AAAA" (PayRequest.mk "UPI") sample_world
     = (Done tt, w')
     /\ bill (db w')
        = [mk_doc 6%N
             (Bill.mk "BILL-0000AAAA" "Ravi" "9800000002" "102" 1 800 0 0 96
                896 "Paid" "UPI"
                (PDatetime (mk_datetime 1690050000000000 true)))
             PNone (PDatetime (mk_datetime 1700090000000000 true))])
  /\ (exists w',
        mark_bill_paid "BILL-FFFFFFFF" (PayRequest.mk "UPI") sample_world
        = (HTTPException 404 "Bill not found", w')
        /\ db w' = sample_db).
Proof.
  split.
  - destruct (pay_bill "BILL-0000AAAA" (PayRequest.mk "UPI") sample_world)
      as (r & w' & Hrun & _ & _ & Hpaid).
    destruct (Hpaid [] (mk_doc 6%N sample_bill PNone
                          (PDatetime (mk_datetime 1690060000000000 true))) []
                eq_refl eq_refl (fun x (H : In x []) => match H with end))
      as (Hr & Hbill & _).
    exists w'. split; [rewrite Hrun, Hr; reflexivity | exact Hbill].
  - destruct (pay_bill "BILL-FFFFFFFF" (PayRequest.mk "UPI") sample_world)
      as (r & w' & Hrun & Hiff & Hnone & _).
    assert (Hr : r = HTTPException 404 "Bill not found").
    { apply Hiff. intros (d & [<-|[]] & Hd). discriminate Hd. }
    exists w'. split; [rewrite Hrun, Hr; reflexivity|].
    exact (proj2 (Hnone Hr)).
Defined.


(** ** The further properties on the sample stores *)

Lemma sample_db_one_occupied : one_occupied_per_room sample_db.
Proof.
  intros room. unfold sample_db, occupied_in.
  cbn [checkin filter fields sample_past_stay sample_stay Checkin.room
       Checkin.status].
  change ("Checked-out" =? "Occupied")%string with false.
  change ("Occupied" =? "Occupied")%string with true.
  rewrite andb_false_r, andb_true_r.
  destruct ("101" =? room)%string; cbn [List.length]; lia.
Qed.

Lemma sample_checkins_distinct : NoDup (map _id (checkin sample_db)).
Proof.
  simpl. repeat (constructor; [simpl; intuition discriminate|]). constructor.
Qed.

Lemma sample_orders_distinct : NoDup (map _id (order sample_db)).
Proof.
  simpl. repeat (constructor; [simpl; intuition discriminate|]). constructor.
Qed.

Lemma checkout_bill_id_format_sample :
  exists h,
    "BILL-DEADBEEF"%string = ("BILL-" ++ h)%string
    /\ String.length h = 8%nat
    /\ Forall (fun a => is_hex_upper a = true) (list_ascii_of_string h)
    /\ String.length "BILL-DEADBEEF" = 13%nat.
Proof.
  exact (checkout_bill_id_format no_parse sample_checkout sample_world
           sample_after "BILL-DEADBEEF" sample_checkout_runs).
Defined.

Lemma checkout_bill_id_draw_sample :
  "BILL-DEADBEEF"%string = "BILL-CAFEBABE"%string <->
  (entropy sample_world (draws sample_world) mod 2 ^ 32
   = entropy sample_return (draws sample_return) mod 2 ^ 32)%N.
Proof.
  exact (checkout_bill_id_draw no_parse sample_checkout sample_second_checkout
           sample_world sample_after sample_return sample_rebilled
           "BILL-DEADBEEF" "BILL-CAFEBABE"
           sample_checkout_runs sample_return_runs).
Defined.


Lemma checkout_naive_stay_sample :
  exists r w',
    create_final_bill no_parse (CheckoutRequest.mk "201" "9800000004")
      sample_odd_world = (r, w')
    /\ r = Uncaught TypeError
    /\ status_of r = 500%nat
    /\ db w' = sample_odd_db.
Proof.
  exact (checkout_naive_stay no_parse (CheckoutRequest.mk "201" "9800000004")
           sample_odd_world (mk_doc 1%N sample_naive_stay PNone PNone)
           (mk_datetime 1700000000000000 false) eq_refl eq_refl eq_refl).
Defined.


Lemma checkin_keeps_one_occupied_sample :
  one_occupied_per_room
    (db (snd (create_checkin (sample_arrival "103") sample_world))).
Proof.
  apply (checkin_keeps_one_occupied (sample_arrival "103") sample_world _
           (fst (create_checkin (sample_arrival "103") sample_world))).
  - apply surjective_pairing.
  - exact sample_db_one_occupied.
Defined.

Lemma checkout_keeps_one_occupied_sample : one_occupied_per_room (db sample_after).
Proof.
  exact (checkout_keeps_one_occupied no_parse sample_checkout sample_world
           sample_after _ sample_checkout_runs sample_db_one_occupied).
Defined.

Lemma checkout_touches_only_sample :
  exists b ts tc,
    checkin (db sample_after)
    = [mk_doc 1%N sample_past_stay PNone PNone;
       set_doc (Checkin.set_status "Checked-out") tc
         (mk_doc 2%N sample_stay PNone PNone)]
    /\ order (db sample_after)
       = [mk_doc 3%N sample_other_room PNone PNone;
          mk_doc 4%N sample_paid_lunch PNone PNone;
          set_doc (Order.set_synced (Some true)) ts
            (mk_doc 5%N sample_tea PNone PNone)]
    /\ bill (db sample_after) = bill sample_db ++ [b].
Proof.
  destruct (checkout_touches_only no_parse sample_checkout sample_world
              sample_after "BILL-DEADBEEF" sample_checkout_runs
              sample_checkins_distinct sample_orders_distinct)
    as (c & b & ts & tc & Hc & Hcheckins & _ & Horders & Hbills).
  vm_compute in Hc. inversion Hc as [Hc']. clear Hc. subst c.
  exists b, ts, tc. split; [exact Hcheckins|]. split; [exact Horders|].
  exact Hbills.
Defined.

Lemma checkout_twice_not_found_sample :
  create_final_bill no_parse (CheckoutRequest.mk "101" "9800000001")
    sample_after
  = (HTTPException 404 "Active check-in not found", sample_after).
Proof.
  exact (checkout_twice_not_found no_parse sample_checkout sample_world
           sample_after "BILL-DEADBEEF" "9800000001" sample_checkout_runs
           sample_checkins_distinct sample_db_one_occupied).
Defined.

Lemma checkin_after_checkout_sample :
  exists w'' d,
    create_checkin (sample_arrival "101") sample_after = (Done (_id d), w'')
    /\ checkin (db w'') = checkin (db sample_after) ++ [d]
    /\ Checkin.room (fields d) = "101"%string
    /\ Checkin.status (fields d) = "Occupied"%string.
Proof.
  exact (checkin_after_checkout no_parse sample_checkout sample_world
           sample_after "BILL-DEADBEEF" (sample_arrival "101")
           sample_checkout_runs sample_checkins_distinct
           sample_db_one_occupied eq_refl).
Defined.

Lemma sample_coffee_runs :
  create_order sample_coffee sample_world = (Done 7%N, sample_with_coffee).
Proof. vm_compute. reflexivity. Qed.


Lemma sample_paid_runs :
  mark_bill_paid "BILL-0000AAAA" (PayRequest.mk "UPI") sample_world
  = (Done tt, sample_paid).
Proof. vm_compute. reflexivity. Qed.


Lemma checkout_then_pay_sample :
  exists w2 b,
    mark_bill_paid "BILL-DEADBEEF" (PayRequest.mk "UPI") sample_after
    = (Done tt, w2)
    /\ bill (db sample_after) = bill sample_db ++ [b]
    /\ bill (db w2)
       = bill sample_db
         ++ [set_doc (Bill.set_paid "UPI")
               (mk_datetime (clock sample_after (ticks sample_after)) true) b].
Proof.
  destruct (checkout_then_pay no_parse sample_checkout (PayRequest.mk "UPI")
              sample_world sample_after "BILL-DEADBEEF" sample_checkout_runs)
    as (w2 & b & Hrun & Hb & _ & Hfresh & _).
  exists w2, b. split; [exact Hrun|]. split; [exact Hb|].
  apply Hfresh. intros d [<-|[]]. discriminate.
Defined.

Lemma pay_twice_same_bills_sample :
  exists w2,
    mark_bill_paid "BILL-0000AAAA" (PayRequest.mk "UPI") sample_paid
    = (Done tt, w2)
    /\ map fields (bill (db w2)) = map fields (bill (db sample_paid))
    /\ map _id (bill (db w2)) = map _id (bill (db sample_paid))
    /\ checkin (db w2) = checkin sample_db
    /\ order (db w2) = order sample_db.
Proof.
  exact (pay_twice_same_bills "BILL-0000AAAA" (PayRequest.mk "UPI")
           sample_world sample_paid sample_paid_runs).
Defined.

Lemma order_without_phone_refused_sample :
  post_orders no_parse sample_no_phone sample_world
  = (Uncaught RequestValidationError, sample_world)
  /\ status_of (fst (post_orders no_parse sample_no_phone sample_world))
     = 422%nat.
Proof.
  apply (order_without_phone_refused no_parse sample_no_phone sample_world).
  intros l H. inversion H. reflexivity.
Defined.

Lemma listing_after_insert_sample :
  exists prev next it,
    list_orders (fun i => hex_upper 24 i) (fun _ l => rev l) sample_world
    = (Done prev, sample_world)
    /\ list_orders (fun i => hex_upper 24 i) (fun _ l => rev l)
         sample_with_coffee
       = (Done next, sample_with_coffee)
    /\ Permutation next (it :: prev)
    /\ listed_id it = hex_upper 24 7
    /\ Order.phone (listed_fields it) = "9800000001"%string.
Proof.
  destruct (listing_after_insert (fun i => hex_upper 24 i) (fun _ l => rev l)
              no_parse
              (fun A l => Permutation_sym (Permutation_rev l)))
    as (_ & Horders & _).
  destruct (Horders sample_coffee sample_world 7%N sample_with_coffee
              sample_coffee_runs)
    as (prev & next & it & H1 & H2 & H3 & H4 & H5 & _).
  exists prev, next, it. auto.
Defined.

(** ** The claims on the sample store over binary64 amounts *)

Lemma sample64_checkout_runs :
  B64.create_final_bill B64.Upto311 no_parse sample_checkout sample64_world
  = (B64.Done "BILL-DEADBEEF"%string, sample64_after).
Proof. vm_compute. reflexivity. Qed.

Lemma checkout_nights_sample :
  exists c start w1 b,
    find (B64.active_stay "101" "9800000001") (B64.checkin sample64_db) = Some c
    /\ B64.start_of no_parse c sample64_world = (B64.Done start, w1)
    /\ (forall d, B64.Checkin.createdAt (fields c) = PDatetime d -> start = d)
    /\ (forall s d, B64.Checkin.createdAt (fields c) = PStr s ->
                    s <> EmptyString -> no_parse s = Some d -> start = d)
    /\ B64.bill (B64.db sample64_after) = B64.bill sample64_db ++ [b]
    /\ B64.Bill.id (fields b) = "BILL-DEADBEEF"%string
    /\ (let now := B64.clock sample64_world (B64.ticks w1) in
        B64.stay_nights (now - micros start)
        = B64.Done (B64.Bill.nights (fields b))
        /\ 1 <= B64.Bill.nights (fields b)
        /\ (Z.abs (now - micros start) < exact_span ->
            B64.Bill.nights (fields b)
            = Z.max 1 (Qfloor (elapsed_days now start) + 1)
            /\ (now < micros start -> B64.Bill.nights (fields b) = 1))).
Proof.
  exact (checkout_nights B64.Upto311 no_parse sample_checkout sample64_world
           sample64_after "BILL-DEADBEEF" sample64_checkout_runs).
Defined.

(** C2 as stated fails: the stay of room 301 began 19871999999999999
    microseconds before the reading of the clock, one microsecond short of
    230000 days.  [total_seconds] rounds to 19872000000.0, the day
    boundary, and the bill counts 230001 nights, where
    [max(1, floor(days) + 1)] is 230000. *)
Lemma checkout_nights_rounded_up :
  B64.clock sample64_world 0 - micros sample64_old_start = 19871999999999999
  /\ Z.max 1 (Qfloor (elapsed_days (B64.clock sample64_world 0)
                        sample64_old_start) + 1) = 230000
  /\ B64.total_seconds 19871999999999999 = B64.Done (F64.Fin 19872000000)
  /\ exists w' b,
       B64.create_final_bill B64.Upto311 no_parse sample64_old_checkout
         sample64_world = (B64.Done "BILL-DEADBEEF"%string, w')
       /\ B64.start_of no_parse (mk_doc 2%N sample64_old_stay PNone PNone)
            sample64_world = (B64.Done sample64_old_start, sample64_world)
       /\ B64.bill (B64.db w') = [b]
       /\ B64.Bill.nights (fields b) = 230001.
Proof.
  split; [reflexivity|]. split; [reflexivity|].
  split; [vm_compute; reflexivity|].
  eexists _, (mk_doc 5%N _ PNone PNone).
  split; [vm_compute; reflexivity|].
  split; [reflexivity|]. split; reflexivity.
Qed.

Lemma checkout_tax_total_sample :
  exists c b t,
    find (B64.active_stay "101" "9800000001") (B64.checkin sample64_db) = Some c
    /\ B64.bill (B64.db sample64_after) = B64.bill sample64_db ++ [b]
    /\ B64.Bill.id (fields b) = "BILL-DEADBEEF"%string
    /\ let subtotal :=
         F64.add (B64.Bill.roomCharges (fields b)) (B64.Bill.foodTotal (fields b)) in
       let p := F64.mul subtotal (F64.nearest (12 # 100)) in
       F64.is_finite p = true
       /\ t = Py.round (F64.value p)
       /\ B64.float_of_int t = B64.Done (B64.Bill.tax (fields b))
       /\ (Z.abs t < 2 ^ 53 -> B64.Bill.tax (fields b) = F64.of_Z t)
       /\ (Qabs (inject_Z t - F64.value p) <= 1 # 2)%Q
       /\ ((F64.value p - inject_Z (Qfloor (F64.value p)) == 1 # 2)%Q ->
           Z.even t = true)
       /\ B64.Bill.total (fields b)
          = F64.sub (F64.add subtotal (B64.Bill.tax (fields b)))
              (B64.Checkin.advance (fields c))
       /\ B64.Bill.advance (fields b) = B64.Checkin.advance (fields c).
Proof.
  exact (checkout_tax_total B64.Upto311 no_parse sample_checkout sample64_world
           sample64_after "BILL-DEADBEEF" sample64_checkout_runs).
Defined.

(** C3 as stated fails: room 101 is billed one night at 999.95 and an order
    of 137.55.  The two floats add up to 1137.5 and the product with 0.12
    is the float 136.5, a tie that [round] takes to 136; the exact product
    of the stored charges with 0.12 lies above 136.5 and rounds to 137. *)
Lemma checkout_tax_rounded_down :
  exists b,
    B64.bill (B64.db sample64_after) = [b]
    /\ B64.Bill.nights (fields b) = 1
    /\ B64.Bill.roomCharges (fields b) = decimal 99995 100
    /\ B64.Bill.foodTotal (fields b) = decimal 13755 100
    /\ F64.mul (F64.add (B64.Bill.roomCharges (fields b))
                  (B64.Bill.foodTotal (fields b))) (decimal 12 100)
       = F64.Fin (273 # 2)
    /\ B64.Bill.tax (fields b) = F64.Fin 136
    /\ B64.Bill.total (fields b) = F64.Fin (2547 # 2)
    /\ Py.round ((F64.value (B64.Bill.roomCharges (fields b))
                  + F64.value (B64.Bill.foodTotal (fields b))) * (12 # 100))
       = 137.
Proof.
  eexists (mk_doc 5%N _ PNone PNone).
  split; [vm_compute; reflexivity|].
  repeat split; vm_compute; reflexivity.
Qed.

Lemma order_total_from_items_sample :
  let s := B64.sum B64.From312 (map item_amount (B64.Order.items sample64_returned)) in
  (forallb (fun it => fits_float (B64.OrderItem.qty it))
     (B64.Order.items sample64_returned) = true ->
   exists w' d,
     B64.create_order B64.From312 sample64_returned sample64_world
     = (B64.Done (_id d), w')
     /\ B64.order (B64.db w') = B64.order sample64_db ++ [d]
     /\ B64.Order.items (fields d) = B64.Order.items sample64_returned
     /\ (B64.float_truthy s = true -> B64.Order.total (fields d) = s)
     /\ (B64.float_truthy s = false ->
         B64.Order.total (fields d) = B64.Order.total sample64_returned))
  /\ (forallb (fun it => fits_float (B64.OrderItem.qty it))
        (B64.Order.items sample64_returned) = false ->
      exists w',
        B64.create_order B64.From312 sample64_returned sample64_world
        = (B64.Uncaught B64.OverflowError, w')
        /\ B64.db w' = sample64_db).
Proof.
  apply (order_total_from_items B64.From312 sample64_returned sample64_world).
  discriminate.
Defined.

(** C4 as stated fails: the items of [sample64_free_water] sum to zero, and
    the order is stored with the 300 the client sent, which is not that
    sum.  The zero test is on the float sum: three items at 0.1 against one
    at 0.3 returned sum to 5.55e-17, which is stored in place of the
    client's 300.  And a quantity of [10 ** 400] ends the request in
    [OverflowError] with nothing stored. *)
Lemma order_total_zero_sum_kept :
  (B64.Order.items sample64_free_water <> []
   /\ B64.sum B64.Upto311 (map item_amount (B64.Order.items sample64_free_water))
      = F64.zero
   /\ B64.sum B64.From312 (map item_amount (B64.Order.items sample64_free_water))
      = F64.zero
   /\ exists w' d,
        B64.create_order B64.Upto311 sample64_free_water sample64_world
        = (B64.Done (_id d), w')
        /\ B64.create_order B64.From312 sample64_free_water sample64_world
           = (B64.Done (_id d), w')
        /\ B64.order (B64.db w') = B64.order sample64_db ++ [d]
        /\ B64.Order.total (fields d) = F64.Fin 300)
  /\ (exists w' d,
        B64.create_order B64.Upto311 sample64_returned sample64_world
        = (B64.Done (_id d), w')
        /\ B64.create_order B64.From312 sample64_returned sample64_world
           = (B64.Done (_id d), w')
        /\ B64.order (B64.db w') = B64.order sample64_db ++ [d]
        /\ B64.Order.total (fields d) = F64.Fin (1 # 18014398509481984))
  /\ (exists w',
        B64.create_order B64.Upto311 sample64_huge sample64_world
        = (B64.Uncaught B64.OverflowError, w')
        /\ B64.db w' = sample64_db).
Proof.
  split; [|split].
  - split; [discriminate|]. split; [vm_compute; reflexivity|].
    split; [vm_compute; reflexivity|].
    eexists _, (mk_doc 5%N _ PNone PNone).
    split; [vm_compute; reflexivity|]. split; [vm_compute; reflexivity|].
    split; reflexivity.
  - eexists _, (mk_doc 5%N _ PNone PNone).
    split; [vm_compute; reflexivity|]. split; [vm_compute; reflexivity|].
    split; reflexivity.
  - eexists. split; [vm_compute; reflexivity | reflexivity].
Qed.

Lemma order_item_validation_sample :
  B64.validate_OrderItem no_lax no_lax (item_json sample64_refund)
  = Some sample64_refund
  /\ exists w' d,
       B64.post_orders B64.Upto311 no_parse no_lax no_lax no_lax
         (order_json "9800000003" [sample64_refund]) sample64_world
       = (B64.Done (_id d), w')
       /\ B64.order (B64.db w') = B64.order sample64_db ++ [d]
       /\ B64.Order.items (fields d) = [sample64_refund].
Proof.
  destruct (order_item_validation B64.Upto311 no_parse no_lax no_lax no_lax)
    as (Hacc & _ & _ & _ & _ & Hpost).
  split; [exact (Hacc sample64_refund)|].
  exact (Hpost "9800000003"%string [sample64_refund] sample64_world eq_refl).
Defined.

(** C9 as stated fails: an item with quantity -2 and price -75.5 passes
    validation, and the request that carries it is stored. *)
Lemma negative_item_accepted :
  exists it,
    B64.validate_OrderItem no_lax no_lax (item_json sample64_refund) = Some it
    /\ B64.OrderItem.qty it < 0
    /\ B64.OrderItem.price it = F64.Fin (- (151 # 2))
    /\ exists w' d,
         B64.post_orders B64.Upto311 no_parse no_lax no_lax no_lax
           (order_json "9800000003" [sample64_refund]) sample64_world
         = (B64.Done (_id d), w')
         /\ B64.status_of
              (fst (B64.post_orders B64.Upto311 no_parse no_lax no_lax no_lax
                      (order_json "9800000003" [sample64_refund])
                      sample64_world)) = 200%nat
         /\ B64.order (B64.db w') = B64.order sample64_db ++ [d]
         /\ B64.Order.items (fields d) = [it].
Proof.
  exists sample64_refund.
  split; [reflexivity|]. split; [reflexivity|].
  split; [vm_compute; reflexivity|].
  eexists _, (mk_doc 5%N _ PNone PNone).
  split; [vm_compute; reflexivity|].
  split; [vm_compute; reflexivity|]. split; reflexivity.
Qed.

Lemma nights_by_whole_days_sample :
  B64.stay_nights (1 * 86400000000 + 0) = B64.Done (1 + 1)
  /\ B64.stay_nights (-5) = B64.Done 1
  /\ (exists n n',
        B64.stay_nights 3600000000 = B64.Done n
        /\ B64.stay_nights 263000000000 = B64.Done n' /\ n <= n')
  /\ (forall n, B64.stay_nights 3600000000 = B64.Done n -> 1 <= n).
Proof.
  destruct (nights_by_whole_days 1 0 (-5) 0) as (H1 & H2 & _ & _).
  destruct (nights_by_whole_days 0 0 3600000000 263000000000)
    as (_ & _ & H3 & H4).
  split; [apply H1; unfold exact_span; lia|].
  split; [apply H2; unfold exact_span; lia|].
  split; [apply H3; unfold exact_span; lia | exact H4].
Defined.

Lemma checkout_unparsed_start_sample :
  exists r w',
    B64.create_final_bill B64.Upto311 no_parse sample64_text_checkout
      sample64_world = (r, w')
    /\ match r with
       | B64.Done bill_id =>
           exists b,
             B64.bill (B64.db w') = B64.bill sample64_db ++ [b]
             /\ B64.Bill.id (fields b) = bill_id
             /\ B64.Bill.nights (fields b) = 1
             /\ B64.Bill.roomCharges (fields b)
                = F64.mul (F64.Fin 1) (decimal 750 1)
       | B64.Uncaught e =>
           (e = B64.OverflowError \/ e = B64.ValueError)
           /\ B64.db w' = sample64_db
       | B64.HTTPException _ _ => False
       end
    /\ (F64.is_finite
          (F64.mul (F64.add (F64.mul (F64.Fin 1) (decimal 750 1))
                      (B64.sum B64.Upto311 []))
             B64.tax_rate) = false ->
        exists e, r = B64.Uncaught e)
    /\ (forall t,
          B64.float_round
            (F64.mul (F64.add (F64.mul (F64.Fin 1) (decimal 750 1))
                        (B64.sum B64.Upto311 []))
               B64.tax_rate) = B64.Done t ->
          Z.abs t < 2 ^ 53 -> exists bill_id, r = B64.Done bill_id).
Proof.
  apply (checkout_unparsed_start B64.Upto311 no_parse sample64_text_checkout
           sample64_world (mk_doc 3%N sample64_text_stay PNone PNone)).
  - reflexivity.
  - reflexivity.
  - unfold exact_span. vm_compute. split; reflexivity.
Defined.

Lemma order_stored_as_sent_sample :
  (exists w' d,
     B64.create_order B64.Upto311 sample64_tea sample64_world
     = (B64.Done (_id d), w')
     /\ _id d = 5%N
     /\ B64.order (B64.db w') = B64.order sample64_db ++ [d]
     /\ B64.Order.items (fields d) = B64.Order.items sample64_tea
     /\ B64.Order.createdAt (fields d)
        = PDatetime (mk_datetime 1700090000000000 true))
  /\ (exists r w',
        B64.create_order B64.Upto311 sample64_huge sample64_world = (r, w')
        /\ B64.status_of r = 500%nat
        /\ B64.db w' = sample64_db).
Proof.
  destruct (order_stored_as_sent B64.Upto311 sample64_tea sample64_world)
    as [Hok _].
  destruct (order_stored_as_sent B64.Upto311 sample64_huge sample64_world)
    as [_ Hbad].
  split.
  - destruct (Hok eq_refl)
      as (w' & d & Hrun & Hid & Hord & _ & _ & _ & _ & _ & _ & Hit & _ & _ & _
          & _ & _ & Hread).
    exists w', d. split; [exact Hrun|]. split; [exact Hid|].
    split; [exact Hord|]. split; [exact Hit|]. exact (Hread eq_refl).
  - assert (Hfit : forallb (fun it => fits_float (B64.OrderItem.qty it))
                     (B64.Order.items sample64_huge) = false)
      by (vm_compute; reflexivity).
    destruct (Hbad Hfit) as (r & w' & Hrun & _ & Hst & Hdb).
    exists r, w'. split; [exact Hrun|]. split; [exact Hst | exact Hdb].
Defined.
